(** * googler: query state, fetch layer and result parser

    A shallow embedding of the retrieval-and-extraction pipeline of
    [ze/libs/googler.py]: the query/pagination state ([GoogleUrl]), the
    fetch layer ([GoogleConnection]), the tag-scoped result parser
    ([GoogleParser]) and the result record ([Result]).

    Conventions.
    - A Python [str] is a [string]: the sequence of the bytes of its UTF-8
      encoding.  Byte-wise lexicographic order on UTF-8 coincides with
      Python's code point order.
    - A Python [int] is a [Z].
    - A [dict] with string keys is a [gmap string _].
    - Code that can raise returns [result A]: either the value or the
      exception that reaches the caller. *)

From Stdlib Require Import String Ascii ZArith List Lia.
From stdpp Require Import base option list strings gmap sorting pretty.

Local Open Scope string_scope.
Local Open Scope Z_scope.

(** ** Exceptions and the error monad *)

(** The exception classes that the modelled code raises or lets through.
    [GoogleConnectionError] carries its message, as the callers print it. *)
Inductive exn : Type :=
  | KeyError (key : string)
  | AttributeError
  | ValueError (msg : string)
  | TypeError
  | HTTPException
  | OSError
  | RemoteDisconnected
  | InvalidURL (msg : string)
  | GoogleConnectionError (msg : string).

(** [isinstance(e, http.client.HTTPException)] and [isinstance(e, OSError)].
    [http.client.RemoteDisconnected] derives from both
    [ConnectionResetError] and [BadStatusLine], [http.client.InvalidURL]
    from [HTTPException]. *)
Definition is_HTTPException (e : exn) : bool :=
  match e with
  | HTTPException | RemoteDisconnected | InvalidURL _ => true
  | _ => false
  end.

Definition is_OSError (e : exn) : bool :=
  match e with
  | OSError | RemoteDisconnected => true
  | _ => false
  end.

Inductive result (A : Type) : Type :=
  | Ok (a : A)
  | Raise (e : exn).
Arguments Ok {A} a.
Arguments Raise {A} e.

Global Instance result_ret : MRet result := fun A a => Ok a.

Global Instance result_bind : MBind result := fun A B k m =>
  match m with
  | Ok a => k a
  | Raise e => Raise e
  end.

(** ** Python string primitives *)

Module Py.

(** [s.startswith(p)] *)
Definition startswith (s p : string) : bool := String.prefix p s.

(** [sub in s] *)
Fixpoint contains (sub s : string) : bool :=
  String.prefix sub s ||
  match s with
  | EmptyString => false
  | String _ s' => contains sub s'
  end.

(** [s.find(sub)] for a one-character [sub]: the position of its first
    occurrence, or [-1]. *)
Fixpoint find_char (c : ascii) (s : string) : Z :=
  match s with
  | EmptyString => -1
  | String a s' =>
      if Ascii.eqb a c then 0
      else let r := find_char c s' in if r <? 0 then -1 else 1 + r
  end.

(** The slice [s[:stop]], with Python's reading of a negative bound as
    counted from the end. *)
Definition slice_to (s : string) (stop : Z) : string :=
  let n := Z.of_nat (String.length s) in
  let stop' := if stop <? 0 then Z.max 0 (n + stop) else stop in
  String.substring 0 (Z.to_nat stop') s.

(** ['sep'.join(l)] *)
Fixpoint join (sep : string) (l : list string) : string :=
  match l with
  | [] => ""
  | [x] => x
  | x :: l' => x ++ sep ++ join sep l'
  end.

(** [str(v)] for an int. *)
Definition str_of_int (z : Z) : string := pretty z.

(** [chr(n)]: the string of the one code point [n], here its UTF-8
    bytes; [ValueError] outside [range(0x110000)]. *)
Definition byte (n : Z) : ascii := ascii_of_N (Z.to_N n).

Definition chr (n : Z) : result string :=
  if (n <? 0) || (1114111 <? n) then
    Raise (ValueError "chr() arg not in range(0x110000)")
  else if n <? 128 then
    Ok (String (byte n) "")
  else if n <? 2048 then
    Ok (String (byte (192 + n / 64)) (String (byte (128 + n mod 64)) ""))
  else if n <? 65536 then
    Ok (String (byte (224 + n / 4096))
       (String (byte (128 + (n / 64) mod 64))
       (String (byte (128 + n mod 64)) "")))
  else
    Ok (String (byte (240 + n / 262144))
       (String (byte (128 + (n / 4096) mod 64))
       (String (byte (128 + (n / 64) mod 64))
       (String (byte (128 + n mod 64)) ""))))
.

(** [ord(c)] of a one-byte string. *)
Definition ord (c : ascii) : Z := Z.of_N (N_of_ascii c).

(** *** [urllib.parse.quote_plus]

    Every byte outside the unreserved set [A-Za-z0-9_.-~] (that of
    Python 3.7 and later) is written [%XX] with upper-case digits; a
    space is written [+]. *)
Definition hex_digit (n : Z) : ascii :=
  if n <? 10 then byte (48 + n) else byte (55 + n).

Definition always_safe (c : ascii) : bool :=
  let n := ord c in
  ((65 <=? n) && (n <=? 90)) || ((97 <=? n) && (n <=? 122)) ||
  ((48 <=? n) && (n <=? 57)) ||
  (n =? 95) || (n =? 46) || (n =? 45) || (n =? 126).

Fixpoint quote_plus (s : string) : string :=
  match s with
  | EmptyString => ""
  | String c s' =>
      (if always_safe c then String c ""
       else if Ascii.eqb c " "%char then "+"
       else String "%"%char
              (String (hex_digit (ord c / 16))
                 (String (hex_digit (ord c mod 16)) "")))
      ++ quote_plus s'
  end.

(** [s.endswith(p)] *)
Definition endswith (s p : string) : bool :=
  let n := String.length s in
  let m := String.length p in
  (m <=? n)%nat && String.eqb (String.substring (n - m) m s) p.

(** [s.split()]: the maximal runs of non-whitespace characters.  The
    separators are the ASCII whitespace characters of [str.isspace];
    the multi-byte Unicode spaces are not treated as separators. *)
Definition isspace (c : ascii) : bool :=
  let n := ord c in
  ((9 <=? n) && (n <=? 13)) || ((28 <=? n) && (n <=? 32)).

Fixpoint split_go (cur : string) (s : string) : list string :=
  match s with
  | EmptyString => match cur with EmptyString => [] | _ => [cur] end
  | String c s' =>
      if isspace c then
        match cur with
        | EmptyString => split_go "" s'
        | _ => cur :: split_go "" s'
        end
      else split_go (cur ++ String c "") s'
  end.

Definition split (s : string) : list string := split_go "" s.

(** [s.replace(old, new)] and [s.replace(old, new, 1)], for a non-empty
    [old].  [skip] counts the characters of a replaced occurrence that
    are still to be dropped. *)
Fixpoint replace_go (old new : string) (skip : nat) (s : string) : string :=
  match s with
  | EmptyString => ""
  | String c s' =>
      match skip with
      | S k => replace_go old new k s'
      | O =>
          if String.prefix old s
          then new ++ replace_go old new (String.length old - 1) s'
          else String c (replace_go old new 0 s')
      end
  end.

Definition replace (s old new : string) : string := replace_go old new 0 s.

Fixpoint replace_first (s old new : string) : string :=
  match s with
  | EmptyString => ""
  | String c s' =>
      if String.prefix old s
      then new ++ String.substring (String.length old) (String.length s) s
      else String c (replace_first s' old new)
  end.

(** *** [urllib.parse.unquote_plus]

    [+] becomes a space, then every [%XX] with two hexadecimal digits
    becomes the byte [XX]; a [%] not followed by two such digits stays.
    Python finally decodes the bytes as UTF-8 with [errors='replace'];
    on the UTF-8 byte representation used here that step is the
    identity for well-formed sequences, and ill-formed ones (which
    Python would replace by U+FFFD) are kept as they are. *)
Definition hex_val (c : ascii) : option Z :=
  let n := ord c in
  if (48 <=? n) && (n <=? 57) then Some (n - 48)
  else if (65 <=? n) && (n <=? 70) then Some (n - 55)
  else if (97 <=? n) && (n <=? 102) then Some (n - 87)
  else None.

Fixpoint unquote (s : string) : string :=
  match s with
  | EmptyString => ""
  | String c s1 =>
      if Ascii.eqb c "%"%char then
        match s1 with
        | String a (String b rest) =>
            match hex_val a, hex_val b with
            | Some x, Some y => String (byte (16 * x + y)) (unquote rest)
            | _, _ => String c (unquote s1)
            end
        | _ => String c (unquote s1)
        end
      else String c (unquote s1)
  end.

Definition unquote_plus (s : string) : string := unquote (replace s "+" " ").

(** An [int] or a [str], where the code accepts either. *)
Inductive value : Type :=
  | VStr (s : string)
  | VInt (z : Z).

(** [str(v)], ['%s' % v] *)
Definition str (v : value) : string :=
  match v with
  | VStr s => s
  | VInt z => str_of_int z
  end.

End Py.

(** ** GoogleUrl: query and pagination state *)

Module GoogleUrl.

(** The values of the query dict: [update] stores strings and the int
    [1]; [set_queries] stores whatever it is given ([filter=0]). *)
Abbreviation value := Py.value.
Abbreviation VStr := Py.VStr.
Abbreviation VInt := Py.VInt.
Abbreviation str := Py.str.

(** [keywords]: a str or a list of strs. *)
Inductive keywords_t : Type :=
  | KwStr (s : string)
  | KwList (l : list string).

Record t : Type := mk {
  _tld : option string;
  _num : Z;
  _start : Z;
  _keywords : keywords_t;
  _site : option string;
  _query_dict : gmap string value;
}.

(** The options [update] recognizes.  [None] is a key absent from
    [opts]; [duration], [lang], [site] and [tld] may be present with the
    value [None]. *)
Record opts_t : Type := mk_opts {
  o_duration : option (option string);
  o_exact : option bool;
  o_keywords : option keywords_t;
  o_lang : option (option string);
  o_news : option bool;
  o_num : option Z;
  o_site : option (option string);
  o_start : option Z;
  o_tld : option (option string);
}.

Definition no_opts : opts_t :=
  mk_opts None None None None None None None None None.

(** Truthiness of an optional string: [None] and [''] are false. *)
Definition truthy (o : option string) : bool :=
  match o with
  | Some (String _ _) => true
  | _ => false
  end.

Definition update (self : t) (opts : opts_t) : t :=
  let qd := _query_dict self in
  let qd :=
    match o_duration opts with
    | Some (Some d) => if truthy (Some d) then <["tbs" := VStr ("qdr:" ++ d)]> qd else qd
    | _ => qd
    end in
  let qd :=
    match o_exact opts with
    | Some true => <["nfpr" := VInt 1]> qd
    | Some false => delete "nfpr" qd
    | None => qd
    end in
  let kw := match o_keywords opts with Some k => k | None => _keywords self end in
  let qd :=
    match o_lang opts with
    | Some (Some l) => if truthy (Some l) then <["hl" := VStr l]> qd else qd
    | _ => qd
    end in
  let qd :=
    match o_news opts with
    | Some true => <["tbm" := VStr "nws"]> qd
    | Some false => delete "tbm" qd
    | None => qd
    end in
  {| _tld := match o_tld opts with Some v => v | None => _tld self end;
     _num := match o_num opts with Some v => v | None => _num self end;
     _start := match o_start opts with Some v => v | None => _start self end;
     _keywords := kw;
     _site := match o_site opts with Some v => v | None => _site self end;
     _query_dict := qd |}.

(** [GoogleUrl(opts)] *)
Definition init (opts : opts_t) : t :=
  update {| _tld := None; _num := 10; _start := 0; _keywords := KwList [];
            _site := None;
            _query_dict := <["oe" := VStr "UTF-8"]> (<["ie" := VStr "UTF-8"]> ∅) |}
         opts.

Definition with_query_dict (self : t) (qd : gmap string value) : t :=
  {| _tld := _tld self; _num := _num self; _start := _start self;
     _keywords := _keywords self; _site := _site self; _query_dict := qd |}.

Definition with_start (self : t) (s : Z) : t :=
  {| _tld := _tld self; _num := _num self; _start := s;
     _keywords := _keywords self; _site := _site self;
     _query_dict := _query_dict self |}.

(** [set_queries]: the keyword arguments, in call order. *)
Definition set_queries (self : t) (kwargs : list (string * value)) : t :=
  with_query_dict self
    (fold_left (fun qd kv => <[kv.1 := kv.2]> qd) kwargs (_query_dict self)).

(** [unset_queries]: the positional arguments. *)
Definition unset_queries (self : t) (args : list string) : t :=
  with_query_dict self
    (fold_left (fun qd k => delete k qd) args (_query_dict self)).

Definition next_page (self : t) : t :=
  with_start self (_start self + _num self).

Definition prev_page (self : t) : result t :=
  if _start self =? 0 then Raise (ValueError "Already at the first page.")
  else Ok (with_start self
             (if _num self <? _start self then _start self - _num self else 0)).

Definition first_page (self : t) : result t :=
  if _start self =? 0 then Raise (ValueError "Already at the first page.")
  else Ok (with_start self 0).

(** The value of the [q] parameter. *)
Definition q_value (self : t) : string :=
  let q :=
    match _keywords self with
    | KwList [] => ""
    | KwList l => Py.join "+" (map Py.quote_plus l)
    | KwStr "" => ""
    | KwStr s => Py.quote_plus s
    end in
  if truthy (_site self)
  then q ++ "+site:" ++ Py.quote_plus (default "" (_site self))
  else q.

(** The local dict [qd] of [query]: a copy of [_query_dict] in which
    [num], [start] and [q] are then assigned. *)
Definition query_qd (self : t) : gmap string value :=
  <["q" := VStr (q_value self)]>
    (<["start" := VInt (_start self)]>
       (<["num" := VInt (_num self)]> (_query_dict self))).

(** [sorted(qd.keys())] *)
Definition sorted_keys (qd : gmap string value) : list string :=
  merge_sort String.le (elements (dom qd)).

(** The items ['%s=%s' % (k, qd[k])], in the order they are joined. *)
Definition query_items (self : t) : list (string * string) :=
  let qd := query_qd self in
  map (fun k => (k, str (default (VStr "") (qd !! k)))) (sorted_keys qd).

Definition query (self : t) : string :=
  Py.join "&" (map (fun kv => kv.1 ++ "=" ++ kv.2) (query_items self)).

Definition path : string := "/search".

(** [relative()]: [params] and [fragment] are the empty strings set by
    [__init__] and never assigned again. *)
Definition relative (self : t) : string :=
  let rel := path in
  let q := query self in
  match q with
  | "" => rel
  | _ => rel ++ "?" ++ q
  end.

(** The table of the class, in the order it is written. *)
Definition TLD_TO_DOMAIN_LIST : list (string * string) :=
  [ ("ac", "google.ac"); ("ad", "google.ad"); ("ae", "google.ae");
    ("af", "google.com.af"); ("ag", "google.com.ag");
    ("ai", "google.com.ai"); ("al", "google.al"); ("am", "google.am");
    ("ao", "google.co.ao"); ("ar", "google.com.ar"); ("as", "google.as");
    ("at", "google.at"); ("au", "google.com.au"); ("az", "google.az");
    ("ba", "google.ba"); ("bd", "google.com.bd"); ("be", "google.be");
    ("bf", "google.bf"); ("bg", "google.bg"); ("bh", "google.com.bh");
    ("bi", "google.bi"); ("bj", "google.bj"); ("bn", "google.com.bn");
    ("bo", "google.com.bo"); ("br", "google.com.br"); ("bs", "google.bs");
    ("bt", "google.bt"); ("bw", "google.co.bw"); ("by", "google.by");
    ("bz", "google.com.bz"); ("ca", "google.ca"); ("cat", "google.cat");
    ("cc", "google.cc"); ("cd", "google.cd"); ("cf", "google.cf");
    ("cg", "google.cg"); ("ch", "google.ch"); ("ci", "google.ci");
    ("ck", "google.co.ck"); ("cl", "google.cl"); ("cm", "google.cm");
    ("cn", "google.cn"); ("co", "google.com.co"); ("cr", "google.co.cr");
    ("cu", "google.com.cu"); ("cv", "google.cv"); ("cy", "google.com.cy");
    ("cz", "google.cz"); ("de", "google.de"); ("dj", "google.dj");
    ("dk", "google.dk"); ("dm", "google.dm"); ("do", "google.com.do");
    ("dz", "google.dz"); ("ec", "google.com.ec"); ("ee", "google.ee");
    ("eg", "google.com.eg"); ("es", "google.es"); ("et", "google.com.et");
    ("fi", "google.fi"); ("fj", "google.com.fj"); ("fm", "google.fm");
    ("fr", "google.fr"); ("ga", "google.ga"); ("ge", "google.ge");
    ("gf", "google.gf"); ("gg", "google.gg"); ("gh", "google.com.gh");
    ("gi", "google.com.gi"); ("gl", "google.gl"); ("gm", "google.gm");
    ("gp", "google.gp"); ("gr", "google.gr"); ("gt", "google.com.gt");
    ("gy", "google.gy"); ("hk", "google.com.hk"); ("hn", "google.hn");
    ("hr", "google.hr"); ("ht", "google.ht"); ("hu", "google.hu");
    ("id", "google.co.id"); ("ie", "google.ie"); ("il", "google.co.il");
    ("im", "google.im"); ("in", "google.co.in"); ("io", "google.io");
    ("iq", "google.iq"); ("is", "google.is"); ("it", "google.it");
    ("je", "google.je"); ("jm", "google.com.jm"); ("jo", "google.jo");
    ("jp", "google.co.jp"); ("ke", "google.co.ke"); ("kg", "google.kg");
    ("kh", "google.com.kh"); ("ki", "google.ki"); ("kr", "google.co.kr");
    ("kw", "google.com.kw"); ("kz", "google.kz"); ("la", "google.la");
    ("lb", "google.com.lb"); ("lc", "google.com.lc"); ("li", "google.li");
    ("lk", "google.lk"); ("ls", "google.co.ls"); ("lt", "google.lt");
    ("lu", "google.lu"); ("lv", "google.lv"); ("ly", "google.com.ly");
    ("ma", "google.co.ma"); ("md", "google.md"); ("me", "google.me");
    ("mg", "google.mg"); ("mk", "google.mk"); ("ml", "google.ml");
    ("mm", "google.com.mm"); ("mn", "google.mn"); ("ms", "google.ms");
    ("mt", "google.com.mt"); ("mu", "google.mu"); ("mv", "google.mv");
    ("mw", "google.mw"); ("mx", "google.com.mx"); ("my", "google.com.my");
    ("mz", "google.co.mz"); ("na", "google.com.na"); ("ne", "google.ne");
    ("nf", "google.com.nf"); ("ng", "google.com.ng");
    ("ni", "google.com.ni"); ("nl", "google.nl"); ("no", "google.no");
    ("np", "google.com.np"); ("nr", "google.nr"); ("nu", "google.nu");
    ("nz", "google.co.nz"); ("om", "google.com.om"); ("pa", "google.com.pa");
    ("pe", "google.com.pe"); ("pg", "google.com.pg");
    ("ph", "google.com.ph"); ("pk", "google.com.pk"); ("pl", "google.pl");
    ("pn", "google.co.pn"); ("pr", "google.com.pr"); ("ps", "google.ps");
    ("pt", "google.pt"); ("py", "google.com.py"); ("qa", "google.com.qa");
    ("ro", "google.ro"); ("rs", "google.rs"); ("ru", "google.ru");
    ("rw", "google.rw"); ("sa", "google.com.sa"); ("sb", "google.com.sb");
    ("sc", "google.sc"); ("se", "google.se"); ("sg", "google.com.sg");
    ("sh", "google.sh"); ("si", "google.si"); ("sk", "google.sk");
    ("sl", "google.com.sl"); ("sm", "google.sm"); ("sn", "google.sn");
    ("so", "google.so"); ("sr", "google.sr"); ("st", "google.st");
    ("sv", "google.com.sv"); ("td", "google.td"); ("tg", "google.tg");
    ("th", "google.co.th"); ("tj", "google.com.tj"); ("tk", "google.tk");
    ("tl", "google.tl"); ("tm", "google.tm"); ("tn", "google.tn");
    ("to", "google.to"); ("tr", "google.com.tr"); ("tt", "google.tt");
    ("tw", "google.com.tw"); ("tz", "google.co.tz"); ("ua", "google.com.ua");
    ("ug", "google.co.ug"); ("uk", "google.co.uk"); ("uy", "google.com.uy");
    ("uz", "google.co.uz"); ("vc", "google.com.vc"); ("ve", "google.co.ve");
    ("vg", "google.vg"); ("vi", "google.co.vi"); ("vn", "google.com.vn");
    ("vu", "google.vu"); ("ws", "google.ws"); ("za", "google.co.za");
    ("zm", "google.co.zm"); ("zw", "google.co.zw") ].

Definition TLD_TO_DOMAIN_MAP : gmap string string :=
  list_to_map TLD_TO_DOMAIN_LIST.

(** The property [netloc]: a [_tld] that is [None] or not in the table
    is a [KeyError], answered with the default host. *)
Definition netloc (self : t) : string :=
  match _tld self with
  | Some tld =>
      match TLD_TO_DOMAIN_MAP !! tld with
      | Some domain => "www." ++ domain
      | None => "www.google.com"
      end
  | None => "www.google.com"
  end.

(** The property [hostname]. *)
Definition hostname (self : t) : string := netloc self.

(** The property [news]: ['tbm' in self._query_dict and
    self._query_dict['tbm'] == 'nws']. *)
Definition news (self : t) : bool :=
  match _query_dict self !! "tbm" with
  | Some (Py.VStr v) => String.eqb v "nws"
  | _ => false
  end.

(** [full()], with the [scheme] ['https'] that [__init__] sets. *)
Definition scheme : string := "https".

Definition full (self : t) : string :=
  let url := match scheme with "" => "" | _ => scheme ++ ":" end in
  url ++ "//" ++ netloc self ++ relative self.

(** The property [url]. *)
Definition url (self : t) : string := full self.

End GoogleUrl.


(** ** GoogleConnection: the fetch layer *)

Module GoogleConnection.

(** What the client reads of a response: [status], [reason],
    [getheader('location')], [getheader('Set-Cookie')], and [page], the
    outcome of reading the payload, gunzipping it when it is gzipped and
    decoding it as UTF-8. *)
Record response : Type := mk_response {
  status : Z;
  reason : string;
  location : option string;
  set_cookie : option string;
  page : result string;
}.

(** The calls into [http.client] and [urllib.parse] that can raise
    before anything is sent: [TLS1_2Connection(host, port=port, ...)],
    that is [HTTPSConnection.__init__], and [set_tunnel(host, port=port)],
    which parse the host and the port ([InvalidURL]), and
    [urlparse(url)] ([ValueError]). *)
Inductive library_call : Type :=
  | HTTPSConnection_init (host : string) (port : option Z)
  | Set_tunnel (host : string) (port : option Z)
  | Urlparse (url : string).

(** The network and the library, as one run sees them: the outcome of
    the [n]-th GET sent and of the [n]-th connection attempt ([Some e] is
    the text of the exception that [connect] raised), and the exception
    that a library call raises on its arguments, if it raises one. *)
Record network : Type := mk_network {
  get_outcome : nat -> result response;
  connect_outcome : nat -> option string;
  library_error : library_call -> option exn;
}.

(** What the client does to the network, in order. *)
Inductive action : Type :=
  | Close
  | Connect (host_display : string) (proxy : option string)
  | Get (url : string) (user_agent : string) (cookie : string).

(** The object's attributes, followed by the instrumentation: how many
    GETs and connection attempts were made, and the actions so far. *)
Record t : Type := mk {
  _host : option string;
  _port : option Z;
  _proxy : option string;
  _notweak : bool;
  _conn : bool;
  cookie : string;
  _resp : option response;
  n_get : nat;
  n_connect : nat;
  trace : list action;
}.

(** A method: it ends with a value or an exception, and in both cases
    leaves the object in some state. *)
Definition M (A : Type) : Type := t -> result A * t.

Definition ret {A} (a : A) : M A := fun s => (Ok a, s).
Definition raise {A} (e : exn) : M A := fun s => (Raise e, s).
Definition bind {A B} (m : M A) (k : A -> M B) : M B := fun s =>
  match m s with
  | (Ok a, s') => k a s'
  | (Raise e, s') => (Raise e, s')
  end.
(** [try: m except <handles>: h] *)
Definition try_except {A} (m : M A) (handles : exn -> bool) (h : exn -> M A) : M A :=
  fun s =>
    match m s with
    | (Ok a, s') => (Ok a, s')
    | (Raise e, s') => if handles e then h e s' else (Raise e, s')
    end.
Definition get : M t := fun s => (Ok s, s).
Definition modify (f : t -> t) : M unit := fun s => (Ok tt, f s).

Notation "x <~ m ;; k" := (bind m (fun x => k))
  (at level 100, m at next level, right associativity).
Notation "m ;;; k" := (bind m (fun _ => k))
  (at level 100, right associativity).

Definition log (a : action) : M unit :=
  modify (fun s => mk (_host s) (_port s) (_proxy s) (_notweak s) (_conn s)
                      (cookie s) (_resp s) (n_get s) (n_connect s) (trace s ++ [a])).
Definition set_host_port (h : option string) (p : option Z) : M unit :=
  modify (fun s => mk h p (_proxy s) (_notweak s) (_conn s)
                      (cookie s) (_resp s) (n_get s) (n_connect s) (trace s)).
Definition set_conn : M unit :=
  modify (fun s => mk (_host s) (_port s) (_proxy s) (_notweak s) true
                      (cookie s) (_resp s) (n_get s) (n_connect s) (trace s)).
Definition set_cookie_attr (c : string) : M unit :=
  modify (fun s => mk (_host s) (_port s) (_proxy s) (_notweak s) (_conn s)
                      c (_resp s) (n_get s) (n_connect s) (trace s)).
Definition set_resp (r : response) : M unit :=
  modify (fun s => mk (_host s) (_port s) (_proxy s) (_notweak s) (_conn s)
                      (cookie s) (Some r) (n_get s) (n_connect s) (trace s)).
Definition tick_get : M unit :=
  modify (fun s => mk (_host s) (_port s) (_proxy s) (_notweak s) (_conn s)
                      (cookie s) (_resp s) (S (n_get s)) (n_connect s) (trace s)).
Definition tick_connect : M unit :=
  modify (fun s => mk (_host s) (_port s) (_proxy s) (_notweak s) (_conn s)
                      (cookie s) (_resp s) (n_get s) (S (n_connect s)) (trace s)).

Definition USER_AGENT : string :=
  "Mozilla/5.0 (X11; Ubuntu; Linux x86_64; rv:52.0) Gecko/20100101 Firefox/52.0".

Definition falsy (o : option string) : bool :=
  match o with
  | Some (String _ _) => false
  | _ => true
  end.

Section Methods.

(** The global [ua], the network of the run, and the two uses of
    [urllib.parse] on a URL that [urlparse] accepts:
    [urlparse(url).netloc] and [urlunparse(('', '') + urlparse(url)[2:])]. *)
Variable ua : bool.
Variable net : network.
Variable netloc : string -> string.
Variable relurl : string -> string.

(** A library call: it raises what the library raises on these
    arguments, and does nothing else that the client sees. *)
Definition library (c : library_call) : M unit := fun s =>
  match library_error net c with
  | Some e => (Raise e, s)
  | None => (Ok tt, s)
  end.

(** [self._conn.connect(self._notweak)] on a new connection object. *)
Definition connect (host_display : string) (proxy : option string) : M (option string) :=
  s <~ get;;
  log (Connect host_display proxy);;;
  tick_connect;;;
  ret (connect_outcome net (n_connect s)).

Definition new_connection (host : option string) (port : option Z) : M unit :=
  s <~ get;;
  (if _conn s then log Close else ret tt);;;
  let '(host, port) := if falsy host then (_host s, _port s) else (host, port) in
  set_host_port host port;;;
  match host with
  | None => raise TypeError
  | Some h =>
      let host_display :=
        h ++ match port with
             | Some p => if p =? 0 then "" else ":" ++ Py.str_of_int p
             | None => ""
             end in
      if negb (falsy (_proxy s)) then
        library (HTTPSConnection_init (default "" (_proxy s)) None);;;
        set_conn;;;
        library (Set_tunnel h port);;;
        r <~ connect host_display (_proxy s);;
        match r with
        | None => ret tt
        | Some e =>
            raise (GoogleConnectionError
                     ("Failed to connect to proxy server "
                        ++ default "" (_proxy s) ++ ": " ++ e ++ "."))
        end
      else
        library (HTTPSConnection_init h port);;;
        set_conn;;;
        r <~ connect host_display None;;
        match r with
        | None => ret tt
        | Some e =>
            raise (GoogleConnectionError
                     ("Failed to connect to " ++ host_display ++ ": " ++ e ++ "."))
        end
  end.

Definition renew_connection : M unit := new_connection None None.

(** [GoogleConnection(host, port, proxy=proxy, notweak=notweak)] *)
Definition init (host : option string) (port : option Z)
    (proxy : option string) (notweak : bool) : result unit * t :=
  (new_connection host port;;;
   set_cookie_attr "")
    (mk None None proxy notweak false "" None 0 0 []).

Definition _raw_get (url : string) : M unit :=
  s <~ get;;
  log (Get url (if ua then USER_AGENT else "") (cookie s));;;
  tick_get;;;
  match get_outcome net (n_get s) with
  | Raise e => raise e
  | Ok resp =>
      set_resp resp;;;
      if String.eqb (cookie s) "" then
        match set_cookie resp with
        | Some complete_cookie =>
            set_cookie_attr
              (Py.slice_to complete_cookie (Py.find_char ";" complete_cookie))
        | None => ret tt
        end
      else ret tt
  end.

Definition _redirect (url : string) : M unit :=
  library (Urlparse url);;;
  s <~ get;;
  let host := netloc url in
  (if bool_decide (Some host = _host s) then ret tt
   else new_connection (Some host) None);;;
  try_except (_raw_get (relurl url)) is_HTTPException
    (fun _ => raise (GoogleConnectionError ("Failed to get '" ++ url ++ "'."))).

Definition is_redirect_status (st : Z) : bool :=
  (st =? 301) || (st =? 302) || (st =? 303) || (st =? 307) || (st =? 308).

Definition is_blocked_url (redirection_url : string) : bool :=
  Py.contains "sorry/IndexRedirect?" redirection_url
  || Py.contains "sorry/index?" redirection_url.

Definition current_resp : M response :=
  s <~ get;;
  match _resp s with
  | Some r => ret r
  | None => raise AttributeError
  end.

(** The [while] loop of [fetch_page]; [budget] is
    [3 - redirect_counter]. *)
Fixpoint redirect_loop (budget : nat) (resp : response) : M response :=
  match budget with
  | O => ret resp
  | S budget' =>
      if status resp =? 200 then ret resp
      else if is_redirect_status (status resp) then
        let redirection_url := default "" (location resp) in
        if is_blocked_url redirection_url then
          raise (GoogleConnectionError "Connection blocked due to unusual activity.")
        else
          _redirect redirection_url;;;
          resp' <~ current_resp;;
          redirect_loop budget' resp'
      else ret resp
  end.

Definition fetch_page (url : string) : M string :=
  try_except (_raw_get url)
    (fun e => is_HTTPException e || is_OSError e)
    (fun _ =>
       renew_connection;;;
       try_except (_raw_get url) is_HTTPException
         (fun _ => raise (GoogleConnectionError ("Failed to get '" ++ url ++ "'."))));;;
  resp <~ current_resp;;
  resp <~ redirect_loop 3 resp;;
  if negb (status resp =? 200) then
    raise (GoogleConnectionError
             ("Got HTTP " ++ Py.str_of_int (status resp) ++ ": " ++ reason resp))
  else
    fun s => (page resp, s).

End Methods.

End GoogleConnection.

(** ** Sitelink and Result *)

Module Sitelink.

Record t : Type := mk {
  title : string;
  url : string;
  abstract : string;
  index : string;
}.

(** [Sitelink(title, url, abstract)] *)
Definition init (title url abstract : string) : t := mk title url abstract "".

Definition set_title (v : string) (x : t) : t := mk v (url x) (abstract x) (index x).
Definition set_url (v : string) (x : t) : t := mk (title x) v (abstract x) (index x).
Definition set_abstract (v : string) (x : t) : t := mk (title x) (url x) v (index x).
Definition set_index (v : string) (x : t) : t := mk (title x) (url x) (abstract x) v.

End Sitelink.

Module Result.

Record t : Type := mk {
  index : string;
  title : string;
  url : string;
  abstract : string;
  metadata : option string;
  sitelinks : list Sitelink.t;
  _urltable : gmap string string;
}.

(** The [for sitelink in sitelinks] loop of [__init__].  [subindex] is
    the loop variable of that name and [code] is [ord(subindex)].  The
    sitelinks are returned with their [index] assigned; the objects of
    the list are taken to be distinct. *)
Fixpoint assign_subindices (index subindex : string) (code : Z)
    (sitelinks : list Sitelink.t) (urltable : gmap string string)
    : result (list Sitelink.t * gmap string string) :=
  match sitelinks with
  | [] => Ok ([], urltable)
  | sitelink :: rest =>
      let fullindex := index ++ subindex in
      let sitelink := Sitelink.set_index fullindex sitelink in
      let urltable := <[fullindex := Sitelink.url sitelink]> urltable in
      subindex ← Py.chr (code + 1);
      '(rest, urltable) ← assign_subindices index subindex (code + 1) rest urltable;
      Ok (sitelink :: rest, urltable)
  end.

(** [Result(index, title, url, abstract, metadata, sitelinks)]; the
    argument [sitelinks] is [None] when it is left to its default. *)
Definition init (index : Py.value) (title url abstract : string)
    (metadata : option string) (sitelinks : option (list Sitelink.t))
    : result t :=
  let index := Py.str index in
  let urltable : gmap string string := <[index := url]> ∅ in
  match sitelinks with
  | None => Raise TypeError
  | Some sitelinks =>
      '(sitelinks, urltable) ← assign_subindices index "a" 97 sitelinks urltable;
      Ok (mk index title url abstract metadata sitelinks urltable)
  end.

Definition urltable (self : t) : gmap string string := _urltable self.

End Result.

(** ** GoogleParser: the result parser *)

Module GoogleParser.

(** What [html.parser.HTMLParser.feed] delivers to the handlers, in
    document order: [handle_starttag(tag, attrs)], [handle_endtag(tag)],
    [handle_data(data)], [handle_entityref(name)] and
    [handle_charref(name)].  An attribute without a value has the value
    [None].  With [convert_charrefs] on, which is what
    [HTMLParser.__init__(self)] selects, references arrive decoded
    inside [Data] and the last two events do not occur. *)
Inductive event : Type :=
  | StartTag (tag : string) (attrs : list (string * option string))
  | EndTag (tag : string)
  | Data (data : string)
  | EntityRef (name : string)
  | CharRef (name : string).

(** The handler scopes: [set_handlers_to(scope)] installs [scope_start]
    and [scope_end]. *)
Inductive scope : Type :=
  | Sroot | Sresult | Stitle | Sabstract
  | Ssitelink_table | Ssitelink | Ssitelink_title | Signore.

Definition scope_name (sc : scope) : string :=
  match sc with
  | Sroot => "root"
  | Sresult => "result"
  | Stitle => "title"
  | Sabstract => "abstract"
  | Ssitelink_table => "sitelink_table"
  | Ssitelink => "sitelink"
  | Ssitelink_title => "sitelink_title"
  | Signore => "ignore"
  end.

Definition all_scopes : list scope :=
  [Sroot; Sresult; Stitle; Sabstract; Ssitelink_table; Ssitelink;
   Ssitelink_title; Signore].

(** [getattr(self, name + '_start')]: the scope whose handlers have
    that name, if there is one. *)
Definition scope_of_name (name : string) : option scope :=
  List.find (fun sc => String.eqb (scope_name sc) name) all_scopes.

(** The three text handlers are always assigned together:
    [ignore_data] stands for the handlers that drop their argument
    (those of [HTMLParser] and of [stop_populating_textbuf]);
    otherwise references go to [record_entityref] and [record_charref]
    and data to [record_data] or to [record_transformed_data]. *)
Inductive data_handler : Type :=
  | ignore_data
  | record_data
  | record_transformed_data (data_transformer : string -> string).

(** The attributes of the parser.  [handlers] is the scope whose pair of
    handlers is installed.  The registers from [title] on are created by
    [root_start] and [sitelink_table_start]; no handler reading them is
    installed before. *)
Record t : Type := mk {
  news : bool;
  autocorrected : bool;
  suggested_spelling : option string;
  filtered : bool;
  results : list Result.t;
  index : Z;
  textbuf : string;
  tag_annotations : gmap string (list (option string));
  handlers : scope;
  handle_data : data_handler;
  title : string;
  url : string;
  abstract : string;
  metadata : string;
  sitelinks : list Sitelink.t;
  title_registered : bool;
  abstract_registered : bool;
  metadata_registered : bool;
  current_sitelink : Sitelink.t;
}.
Definition set_autocorrected (v : bool) (self : t) : t :=
  mk (news self) v (suggested_spelling self) (filtered self) (results self) (index self) (textbuf self) (tag_annotations self) (handlers self) (handle_data self) (title self) (url self) (abstract self) (metadata self) (sitelinks self) (title_registered self) (abstract_registered self) (metadata_registered self) (current_sitelink self).
Definition set_suggested_spelling (v : option string) (self : t) : t :=
  mk (news self) (autocorrected self) v (filtered self) (results self) (index self) (textbuf self) (tag_annotations self) (handlers self) (handle_data self) (title self) (url self) (abstract self) (metadata self) (sitelinks self) (title_registered self) (abstract_registered self) (metadata_registered self) (current_sitelink self).
Definition set_filtered (v : bool) (self : t) : t :=
  mk (news self) (autocorrected self) (suggested_spelling self) v (results self) (index self) (textbuf self) (tag_annotations self) (handlers self) (handle_data self) (title self) (url self) (abstract self) (metadata self) (sitelinks self) (title_registered self) (abstract_registered self) (metadata_registered self) (current_sitelink self).
Definition set_results (v : list Result.t) (self : t) : t :=
  mk (news self) (autocorrected self) (suggested_spelling self) (filtered self) v (index self) (textbuf self) (tag_annotations self) (handlers self) (handle_data self) (title self) (url self) (abstract self) (metadata self) (sitelinks self) (title_registered self) (abstract_registered self) (metadata_registered self) (current_sitelink self).
Definition set_index (v : Z) (self : t) : t :=
  mk (news self) (autocorrected self) (suggested_spelling self) (filtered self) (results self) v (textbuf self) (tag_annotations self) (handlers self) (handle_data self) (title self) (url self) (abstract self) (metadata self) (sitelinks self) (title_registered self) (abstract_registered self) (metadata_registered self) (current_sitelink self).
Definition set_textbuf (v : string) (self : t) : t :=
  mk (news self) (autocorrected self) (suggested_spelling self) (filtered self) (results self) (index self) v (tag_annotations self) (handlers self) (handle_data self) (title self) (url self) (abstract self) (metadata self) (sitelinks self) (title_registered self) (abstract_registered self) (metadata_registered self) (current_sitelink self).
Definition set_tag_annotations (v : gmap string (list (option string))) (self : t) : t :=
  mk (news self) (autocorrected self) (suggested_spelling self) (filtered self) (results self) (index self) (textbuf self) v (handlers self) (handle_data self) (title self) (url self) (abstract self) (metadata self) (sitelinks self) (title_registered self) (abstract_registered self) (metadata_registered self) (current_sitelink self).
Definition set_handlers (v : scope) (self : t) : t :=
  mk (news self) (autocorrected self) (suggested_spelling self) (filtered self) (results self) (index self) (textbuf self) (tag_annotations self) v (handle_data self) (title self) (url self) (abstract self) (metadata self) (sitelinks self) (title_registered self) (abstract_registered self) (metadata_registered self) (current_sitelink self).
Definition set_handle_data (v : data_handler) (self : t) : t :=
  mk (news self) (autocorrected self) (suggested_spelling self) (filtered self) (results self) (index self) (textbuf self) (tag_annotations self) (handlers self) v (title self) (url self) (abstract self) (metadata self) (sitelinks self) (title_registered self) (abstract_registered self) (metadata_registered self) (current_sitelink self).
Definition set_title (v : string) (self : t) : t :=
  mk (news self) (autocorrected self) (suggested_spelling self) (filtered self) (results self) (index self) (textbuf self) (tag_annotations self) (handlers self) (handle_data self) v (url self) (abstract self) (metadata self) (sitelinks self) (title_registered self) (abstract_registered self) (metadata_registered self) (current_sitelink self).
Definition set_url (v : string) (self : t) : t :=
  mk (news self) (autocorrected self) (suggested_spelling self) (filtered self) (results self) (index self) (textbuf self) (tag_annotations self) (handlers self) (handle_data self) (title self) v (abstract self) (metadata self) (sitelinks self) (title_registered self) (abstract_registered self) (metadata_registered self) (current_sitelink self).
Definition set_abstract (v : string) (self : t) : t :=
  mk (news self) (autocorrected self) (suggested_spelling self) (filtered self) (results self) (index self) (textbuf self) (tag_annotations self) (handlers self) (handle_data self) (title self) (url self) v (metadata self) (sitelinks self) (title_registered self) (abstract_registered self) (metadata_registered self) (current_sitelink self).
Definition set_metadata (v : string) (self : t) : t :=
  mk (news self) (autocorrected self) (suggested_spelling self) (filtered self) (results self) (index self) (textbuf self) (tag_annotations self) (handlers self) (handle_data self) (title self) (url self) (abstract self) v (sitelinks self) (title_registered self) (abstract_registered self) (metadata_registered self) (current_sitelink self).
Definition set_sitelinks (v : list Sitelink.t) (self : t) : t :=
  mk (news self) (autocorrected self) (suggested_spelling self) (filtered self) (results self) (index self) (textbuf self) (tag_annotations self) (handlers self) (handle_data self) (title self) (url self) (abstract self) (metadata self) v (title_registered self) (abstract_registered self) (metadata_registered self) (current_sitelink self).
Definition set_title_registered (v : bool) (self : t) : t :=
  mk (news self) (autocorrected self) (suggested_spelling self) (filtered self) (results self) (index self) (textbuf self) (tag_annotations self) (handlers self) (handle_data self) (title self) (url self) (abstract self) (metadata self) (sitelinks self) v (abstract_registered self) (metadata_registered self) (current_sitelink self).
Definition set_abstract_registered (v : bool) (self : t) : t :=
  mk (news self) (autocorrected self) (suggested_spelling self) (filtered self) (results self) (index self) (textbuf self) (tag_annotations self) (handlers self) (handle_data self) (title self) (url self) (abstract self) (metadata self) (sitelinks self) (title_registered self) v (metadata_registered self) (current_sitelink self).
Definition set_metadata_registered (v : bool) (self : t) : t :=
  mk (news self) (autocorrected self) (suggested_spelling self) (filtered self) (results self) (index self) (textbuf self) (tag_annotations self) (handlers self) (handle_data self) (title self) (url self) (abstract self) (metadata self) (sitelinks self) (title_registered self) (abstract_registered self) v (current_sitelink self).
Definition set_current_sitelink (v : Sitelink.t) (self : t) : t :=
  mk (news self) (autocorrected self) (suggested_spelling self) (filtered self) (results self) (index self) (textbuf self) (tag_annotations self) (handlers self) (handle_data self) (title self) (url self) (abstract self) (metadata self) (sitelinks self) (title_registered self) (abstract_registered self) (metadata_registered self) v.
(** [GoogleParser(news)] *)
Definition init (news : bool) : t :=
  mk news false None false [] 0 "" ∅ Sroot ignore_data
     "" "" "" "" [] false false false (Sitelink.init "" "" "").

(** A selector of the ignore list: a dict, in the order it is written. *)
Definition selector : Type := list (string * string).

Definition IGNORE_LIST : list selector :=
  [ [("tag", "div"); ("class", "related-question-pair")];
    [("tag", "div"); ("class", "g-blk")];
    [("tag", "div"); ("class", "hp-xpdbox")] ].

Definition attrs_t : Type := gmap string (option string).

(** [dict(attrs)]: a repeated name keeps its last value. *)
Definition dict (attrs : list (string * option string)) : attrs_t :=
  fold_left (fun d kv => <[kv.1 := kv.2]> d) attrs ∅.

(** [classes(attrs)]: [attrs.get('class', '').split()] *)
Definition classes (attrs : attrs_t) : result (list string) :=
  match default (Some "") (attrs !! "class") with
  | Some v => Ok (Py.split v)
  | None => Raise AttributeError
  end.

Definition selector_get (sel : selector) (k : string) : option string :=
  snd <$> List.find (fun kv => String.eqb (fst kv) k) sel.

Definition classes_of_selector (sel : selector) : list string :=
  Py.split (default "" (selector_get sel "class")).

(** [c in classes(attrs)] *)
Definition has_class (c : string) (attrs : attrs_t) : result bool :=
  cs ← classes attrs; Ok (bool_decide (c ∈ cs)).

(** [attrs.get(k) == v] *)
Definition get_is (attrs : attrs_t) (k v : string) : bool :=
  bool_decide (attrs !! k = Some (Some v)).

(** The inner loop of [annotate_tag] over the attributes of one
    selector: [true] when the loop ends without [break]. *)
Fixpoint selector_passes (sel : selector) (keys : list string)
    (tag : string) (attrs : attrs_t) : result bool :=
  match keys with
  | [] => Ok true
  | attr :: keys' =>
      if String.eqb attr "tag" then
        if negb (bool_decide (Some tag = selector_get sel "tag")) then Ok false
        else selector_passes sel keys' tag attrs
      else if String.eqb attr "class" then
        tag_classes ← classes attrs;
        let selector_classes := classes_of_selector sel in
        if negb (forallb (fun c => bool_decide (c ∈ tag_classes)) selector_classes)
        then Ok false
        else selector_passes sel keys' tag attrs
      else
        match attrs !! attr with
        | None => Raise (KeyError attr)
        | Some v =>
            if negb (bool_decide (v = selector_get sel attr)) then Ok false
            else selector_passes sel keys' tag attrs
        end
  end.

(** The outer loop: the value of [ignored] when it ends. *)
Fixpoint ignore_list_matches (l : list selector) (tag : string)
    (attrs : attrs_t) : result bool :=
  match l with
  | [] => Ok false
  | sel :: l' =>
      passed ← selector_passes sel (map fst sel) tag attrs;
      if passed : bool then Ok true else ignore_list_matches l' tag attrs
  end.

(** *** Generic methods *)

Definition set_handlers_to (sc : scope) (self : t) : t := set_handlers sc self.

(** [set_handlers_to] on a computed name. *)
Definition set_handlers_to_name (name : string) (self : t) : result t :=
  match scope_of_name name with
  | Some sc => Ok (set_handlers_to sc self)
  | None => Raise AttributeError
  end.

(** The stack of a tag name has its top at the head of the list. *)
Definition insert_annotation (tag : string) (annotation : option string)
    (self : t) : t :=
  let stack := default [] (tag_annotations self !! tag) in
  set_tag_annotations (<[tag := annotation :: stack]> (tag_annotations self)) self.

Definition start_populating_textbuf
    (data_transformer : option (string -> string)) (self : t) : t :=
  match data_transformer with
  | None => set_handle_data record_data self
  | Some f => set_handle_data (record_transformed_data f) self
  end.

Definition stop_populating_textbuf (self : t) : t :=
  set_handle_data ignore_data self.

(** [pop_textbuf]: the text, and the parser with the buffer cleared. *)
Definition pop_textbuf (self : t) : string * t :=
  (textbuf self, set_textbuf "" self).

(** [url[start:end]] unquoted, where [start] follows the first ['?q=']
    and [end] is at the first ['&sa='] from [start] on; the [url] itself
    when either is missing ([ValueError]). *)
Definition unwrap_url (url : string) : string :=
  match String.index 0 "?q=" url with
  | Some i =>
      let start := (i + 3)%nat in
      match String.index start "&sa=" url with
      | Some end_ => Py.unquote_plus (String.substring start (end_ - start) url)
      | None => url
      end
  | None => url
  end.

Section Handlers.

(** The global [ua], and the library behind [record_entityref] and
    [record_charref]: the table [html.entities.name2codepoint] and
    [int(s, base)], which is [None] where [int] raises [ValueError]. *)
Variable ua : bool.
Variable name2codepoint : string -> option Z.
Variable int : string -> Z -> option Z.

(** **** The decorators *)

Definition annotate_tag (context : scope)
    (annotated_starttag_handler : t -> string -> attrs_t -> result (option string * t))
    (self : t) (tag : string) (attrs : list (string * option string))
    : result t :=
  match context with
  | Signore => Ok (insert_annotation tag None self)
  | _ =>
      let attrs := dict attrs in
      ignored ← ignore_list_matches IGNORE_LIST tag attrs;
      if ignored : bool then
        Ok (set_handlers_to Signore
              (insert_annotation tag (Some (scope_name context ++ "_ignored")) self))
      else
        '(annotation, self) ← annotated_starttag_handler self tag attrs;
        Ok (insert_annotation tag annotation self)
  end.

Definition retrieve_tag_annotation
    (annotated_endtag_handler : t -> string -> option string -> result t)
    (self : t) (tag : string) : result t :=
  match tag_annotations self !! tag with
  | None => Raise (KeyError tag)
  | Some [] => annotated_endtag_handler self tag None
  | Some (annotation :: stack) =>
      annotated_endtag_handler
        (set_tag_annotations (<[tag := stack]> (tag_annotations self)) self)
        tag annotation
  end.

(** **** Tag handlers *)

(** [cond and c in classes(attrs)]: the classes are only computed when
    [cond] holds. *)
Definition and_has_class (cond : bool) (c : string) (attrs : attrs_t)
    : result bool :=
  if cond then has_class c attrs else Ok false.

Definition root_start (self : t) (tag : string) (attrs : attrs_t)
    : result (option string * t) :=
  is_result ← and_has_class (String.eqb tag "div") "g" attrs;
  if is_result : bool then
    let self := set_title "" self in
    let self := set_url "" self in
    let self := set_abstract "" self in
    let self := set_metadata "" self in
    let self := set_sitelinks [] self in
    let self := set_title_registered false self in
    let self := set_abstract_registered false self in
    let self := set_metadata_registered false self in
    Ok (Some "result", set_handlers_to Sresult self)
  else
  is_spell_orig ← and_has_class (String.eqb tag "span") "spell_orig" attrs;
  if (is_spell_orig : bool) && negb (get_is attrs "id" "sifm") then
    Ok (None, set_autocorrected true self)
  else
  is_spell ← and_has_class (String.eqb tag "a") "spell" attrs;
  if (is_spell : bool) && negb (get_is attrs "id" "srfl") then
    Ok (Some "spell", start_populating_textbuf None self)
  else
  if String.eqb tag "p" && get_is attrs "id" "ofr" then
    Ok (None, set_filtered true self)
  else Ok (None, self).

Definition root_end (self : t) (tag : string) (annotation : option string)
    : result t :=
  if bool_decide (annotation = Some "spell") then
    let self := stop_populating_textbuf self in
    let '(text, self) := pop_textbuf self in
    Ok (set_suggested_spelling (Some text) self)
  else Ok self.

Definition result_start (self : t) (tag : string) (attrs : attrs_t)
    : result (option string * t) :=
  c ← and_has_class (negb ua && String.eqb tag "span") "mime" attrs;
  if c : bool then Ok (Some "title_filetype", start_populating_textbuf None self)
  else
  c ← and_has_class (negb (title_registered self) && String.eqb tag "h3") "r" attrs;
  if c : bool then Ok (Some "title", set_handlers_to Stitle self)
  else
  c ← and_has_class (negb (abstract_registered self) && String.eqb tag "div") "s" attrs;
  if c : bool then Ok (Some "abstract", set_handlers_to Sabstract self)
  else
  c ← and_has_class (negb ua && negb (abstract_registered self)
                      && String.eqb tag "span") "st" attrs;
  if c : bool then
    Ok (Some "abstract_gservices",
        start_populating_textbuf (Some (fun text => text ++ " ")) self)
  else
  c ← (if bool_decide (sitelinks self = []) && String.eqb tag "table" then
         if ua then Ok true
         else if negb (news self) then
                has_ts ← has_class "ts" attrs; Ok (negb has_ts)
              else Ok false
       else Ok false);
  if c : bool then Ok (Some "sitelink_table", set_handlers_to Ssitelink_table self)
  else
  if news self then
    c ← and_has_class (negb (metadata_registered self) && String.eqb tag "div")
          "slp" attrs;
    if c : bool then
      if ua then
        Ok (Some "news_metadata",
            start_populating_textbuf
              (Some (fun text => if String.eqb text "-" then ", " else text)) self)
      else
        Ok (Some "news_metadata",
            start_populating_textbuf
              (Some (fun text => if Py.contains " - " text
                                 then Py.replace_first text " -" ","
                                 else text)) self)
    else
    c ← and_has_class (negb (abstract_registered self) && String.eqb tag "div")
          "st" attrs;
    if c : bool then Ok (Some "news_abstract", start_populating_textbuf None self)
    else Ok (None, self)
  else Ok (None, self).

Definition result_end (self : t) (tag : string) (annotation : option string)
    : result t :=
  if bool_decide (annotation = Some "result") then
    self ←
      (if negb (String.eqb (url self) "") then
         let self := set_index (index self + 1) self in
         result ← Result.init (Py.VInt (index self)) (title self) (url self)
                    (abstract self)
                    (if String.eqb (metadata self) "" then None
                     else Some (metadata self))
                    (Some (sitelinks self));
         Ok (set_results (results self ++ [result]) self)
       else Ok self);
    Ok (set_handlers_to Sroot self)
  else if bool_decide (annotation = Some "news_metadata") then
    let self := stop_populating_textbuf self in
    let '(text, self) := pop_textbuf self in
    Ok (set_metadata_registered true (set_metadata text self))
  else if bool_decide (annotation = Some "news_abstract") then
    let self := stop_populating_textbuf self in
    let '(text, self) := pop_textbuf self in
    Ok (set_abstract_registered true (set_abstract text self))
  else if bool_decide (annotation = Some "abstract_gservices") then
    let self := stop_populating_textbuf self in
    let '(text, self) := pop_textbuf self in
    Ok (set_abstract_registered false
          (set_abstract (Py.replace text "  " " ") self))
  else Ok self.

Definition title_start (self : t) (tag : string) (attrs : attrs_t)
    : result (option string * t) :=
  if ua && String.eqb tag "span" then
    Ok (Some "title_filetype",
        start_populating_textbuf (Some (fun text => text ++ " ")) self)
  else
  match (if String.eqb tag "a" then attrs !! "href" else None) with
  | Some None => Raise AttributeError
  | Some (Some href) =>
      if Py.startswith href "/search" then Ok (None, self)
      else
        let self := set_url (unwrap_url href) self in
        Ok (Some "title_link", start_populating_textbuf None self)
  | None => Ok (None, self)
  end.

Definition title_end (self : t) (tag : string) (annotation : option string)
    : result t :=
  if bool_decide (annotation = Some "title_filetype") then
    Ok (stop_populating_textbuf self)
  else if bool_decide (annotation = Some "title_link") then
    let self := stop_populating_textbuf self in
    let '(text, self) := pop_textbuf self in
    Ok (set_title_registered true (set_title text self))
  else if bool_decide (annotation = Some "title") then
    Ok (set_handlers_to Sresult self)
  else Ok self.

Definition abstract_start (self : t) (tag : string) (attrs : attrs_t)
    : result (option string * t) :=
  c ← and_has_class (String.eqb tag "span") "st" attrs;
  if c : bool then Ok (Some "abstract_text", start_populating_textbuf None self)
  else Ok (None, self).

Definition abstract_end (self : t) (tag : string) (annotation : option string)
    : result t :=
  if bool_decide (annotation = Some "abstract_text") then
    let self := stop_populating_textbuf self in
    let '(text, self) := pop_textbuf self in
    Ok (set_abstract_registered false (set_abstract text self))
  else if bool_decide (annotation = Some "abstract") then
    Ok (set_handlers_to Sresult self)
  else Ok self.

Definition sitelink_table_start (self : t) (tag : string) (attrs : attrs_t)
    : result (option string * t) :=
  if String.eqb tag "td" then
    let self := set_current_sitelink (Sitelink.init "" "" "") self in
    Ok (Some "sitelink", set_handlers_to Ssitelink self)
  else Ok (None, self).

Definition sitelink_table_end (self : t) (tag : string)
    (annotation : option string) : result t :=
  if bool_decide (annotation = Some "sitelink_table") then
    Ok (set_handlers_to Sresult self)
  else Ok self.

Definition sitelink_start (self : t) (tag : string) (attrs : attrs_t)
    : result (option string * t) :=
  c ← and_has_class (String.eqb tag "h3") "r" attrs;
  if c : bool then Ok (Some "sitelink_title", set_handlers_to Ssitelink_title self)
  else
  c ← and_has_class (String.eqb tag "div") "st" attrs;
  if c : bool then Ok (Some "sitelink_abstract", start_populating_textbuf None self)
  else Ok (None, self).

Definition sitelink_end (self : t) (tag : string) (annotation : option string)
    : result t :=
  if bool_decide (annotation = Some "sitelink_abstract") then
    let self := stop_populating_textbuf self in
    let '(text, self) := pop_textbuf self in
    Ok (set_current_sitelink
          (Sitelink.set_abstract text (current_sitelink self)) self)
  else if bool_decide (annotation = Some "sitelink") then
    let self :=
      if negb (String.eqb (Sitelink.url (current_sitelink self)) "")
      then set_sitelinks (sitelinks self ++ [current_sitelink self]) self
      else self in
    Ok (set_handlers_to Ssitelink_table self)
  else Ok self.

Definition sitelink_title_start (self : t) (tag : string) (attrs : attrs_t)
    : result (option string * t) :=
  match (if String.eqb tag "a" then attrs !! "href" else None) with
  | Some href =>
      (* [index] on a [None] href raises [AttributeError] *)
      match href with
      | None => Raise AttributeError
      | Some href =>
          let self :=
            set_current_sitelink
              (Sitelink.set_url (unwrap_url href) (current_sitelink self)) self in
          Ok (Some "sitelink_title_link", start_populating_textbuf None self)
      end
  | None => Ok (None, self)
  end.

Definition sitelink_title_end (self : t) (tag : string)
    (annotation : option string) : result t :=
  if bool_decide (annotation = Some "sitelink_title_link") then
    let self := stop_populating_textbuf self in
    let '(text, self) := pop_textbuf self in
    Ok (set_current_sitelink
          (Sitelink.set_title text (current_sitelink self)) self)
  else if bool_decide (annotation = Some "sitelink_title") then
    Ok (set_handlers_to Ssitelink self)
  else Ok self.

Definition ignore_start (self : t) (tag : string) (attrs : attrs_t)
    : result (option string * t) :=
  Ok (None, self).

Definition ignore_end (self : t) (tag : string) (annotation : option string)
    : result t :=
  match annotation with
  | Some a =>
      if negb (String.eqb a "") && Py.endswith a "_ignored" then
        let context := Py.slice_to a (-8) in
        set_handlers_to_name context self
      else Ok self
  | None => Ok self
  end.

(** **** Text handlers *)

Definition handle_data_ (self : t) (data : string) : t :=
  match handle_data self with
  | ignore_data => self
  | record_data => set_textbuf (textbuf self ++ data) self
  | record_transformed_data data_transformer =>
      set_textbuf (textbuf self ++ data_transformer data) self
  end.

Definition record_entityref (self : t) (ref : string) : result t :=
  match name2codepoint ref with
  | Some code => c ← Py.chr code; Ok (set_textbuf (textbuf self ++ c) self)
  | None => Ok (set_textbuf (textbuf self ++ "&" ++ ref) self)
  end.

Definition record_charref (self : t) (ref : string) : result t :=
  let parsed :=
    if Py.startswith ref "x"
    then int (String.substring 1 (String.length ref) ref) 16
    else int ref 10 in
  match parsed with
  | None => Raise (ValueError "invalid literal for int()")
  | Some code => c ← Py.chr code; Ok (set_textbuf (textbuf self ++ c) self)
  end.

Definition handle_entityref (self : t) (ref : string) : result t :=
  match handle_data self with
  | ignore_data => Ok self
  | _ => record_entityref self ref
  end.

Definition handle_charref (self : t) (ref : string) : result t :=
  match handle_data self with
  | ignore_data => Ok self
  | _ => record_charref self ref
  end.

(** **** Dispatch *)

Definition handle_starttag (self : t) (tag : string)
    (attrs : list (string * option string)) : result t :=
  match handlers self with
  | Sroot => annotate_tag Sroot root_start self tag attrs
  | Sresult => annotate_tag Sresult result_start self tag attrs
  | Stitle => annotate_tag Stitle title_start self tag attrs
  | Sabstract => annotate_tag Sabstract abstract_start self tag attrs
  | Ssitelink_table => annotate_tag Ssitelink_table sitelink_table_start self tag attrs
  | Ssitelink => annotate_tag Ssitelink sitelink_start self tag attrs
  | Ssitelink_title => annotate_tag Ssitelink_title sitelink_title_start self tag attrs
  | Signore => annotate_tag Signore ignore_start self tag attrs
  end.

Definition handle_endtag (self : t) (tag : string) : result t :=
  match handlers self with
  | Sroot => retrieve_tag_annotation root_end self tag
  | Sresult => retrieve_tag_annotation result_end self tag
  | Stitle => retrieve_tag_annotation title_end self tag
  | Sabstract => retrieve_tag_annotation abstract_end self tag
  | Ssitelink_table => retrieve_tag_annotation sitelink_table_end self tag
  | Ssitelink => retrieve_tag_annotation sitelink_end self tag
  | Ssitelink_title => retrieve_tag_annotation sitelink_title_end self tag
  | Signore => retrieve_tag_annotation ignore_end self tag
  end.

Definition handle (self : t) (ev : event) : result t :=
  match ev with
  | StartTag tag attrs => handle_starttag self tag attrs
  | EndTag tag => handle_endtag self tag
  | Data data => Ok (handle_data_ self data)
  | EntityRef name => handle_entityref self name
  | CharRef name => handle_charref self name
  end.

(** [feed]: the events of the markup, handled in order; an exception
    of a handler ends the call. *)
Fixpoint feed (self : t) (events : list event) : result t :=
  match events with
  | [] => Ok self
  | ev :: events' => self ← handle self ev; feed self events'
  end.

(** [parser = GoogleParser(news); parser.feed(page); parser.results] *)
Definition parse (news : bool) (events : list event) : result (list Result.t) :=
  self ← feed (init news) events; Ok (results self).

End Handlers.

End GoogleParser.

(** ** GooglerCmd: the table of a page *)

Module GooglerCmd.

(** The end of [fetch]: [self._urltable = {}], and then
    [self._urltable.update(r.urltable())] for each result in order. *)
Definition urltable_of (results : list Result.t) : gmap string string :=
  fold_left (fun table r => Result.urltable r ∪ table) results ∅.

End GooglerCmd.

(** * Statements and sample inputs

    The vocabulary in which the properties below are stated, and the
    concrete inputs on which they are evaluated. *)

(** ** GoogleUrl *)

(** The [q] value written out: the quoted keywords joined by [+], then
    the site restriction when there is one. *)
Definition q_spec (self : GoogleUrl.t) : string :=
  match GoogleUrl._keywords self with
  | GoogleUrl.KwList l => Py.join "+" (map Py.quote_plus l)
  | GoogleUrl.KwStr s => Py.quote_plus s
  end
  ++ match GoogleUrl._site self with
     | Some (String c s) => "+site:" ++ Py.quote_plus (String c s)
     | _ => ""
     end.

(** Reading a query string back: [c in s], [s.split(sep)] for a
    one-character separator, and the split of an item at its first [=]. *)
Fixpoint occurs (c : ascii) (s : string) : bool :=
  match s with
  | EmptyString => false
  | String a s' => Ascii.eqb a c || occurs c s'
  end.

Fixpoint split_on (sep : ascii) (s : string) : list string :=
  match s with
  | EmptyString => [""]
  | String c s' =>
      if Ascii.eqb c sep then "" :: split_on sep s'
      else match split_on sep s' with
           | x :: l => String c x :: l
           | [] => [String c ""]
           end
  end.

Fixpoint split_item (s : string) : string * string :=
  match s with
  | EmptyString => ("", "")
  | String c s' =>
      if Ascii.eqb c "="%char then ("", s')
      else let '(k, v) := split_item s' in (String c k, v)
  end.

(** The parameters that a server reads in a query string. *)
Definition parameters (query : string) : list (string * string) :=
  map split_item (split_on "&" query).

(** The reading of C8 as it is worded: after [next_page] then
    [prev_page] the offset is the original one, except that it is 0 when
    the original one was below the page size. *)
Definition next_prev_as_worded (self : GoogleUrl.t) : Prop :=
  exists self',
    GoogleUrl.prev_page (GoogleUrl.next_page self) = Ok self' /\
    GoogleUrl._start self' =
      if GoogleUrl._start self <? GoogleUrl._num self then 0
      else GoogleUrl._start self.

Definition url_at (start num : Z) : GoogleUrl.t :=
  GoogleUrl.update (GoogleUrl.init GoogleUrl.no_opts)
    {| GoogleUrl.o_duration := None; GoogleUrl.o_exact := None;
       GoogleUrl.o_keywords := Some (GoogleUrl.KwList ["rocq"]);
       GoogleUrl.o_lang := None; GoogleUrl.o_news := None;
       GoogleUrl.o_num := Some num; GoogleUrl.o_site := None;
       GoogleUrl.o_start := Some start; GoogleUrl.o_tld := None |}.

(** The specification's property of the rendered query string: read as
    parameters, its keys are in sorted order, [q], [num] and [start]
    occur exactly once, and [q] has the synthesized value. *)
Definition query_as_worded (self : GoogleUrl.t) : Prop :=
  let keys := map fst (parameters (GoogleUrl.query self)) in
  StronglySorted String.le keys
  /\ count_occ string_dec keys "q" = 1%nat
  /\ count_occ string_dec keys "num" = 1%nat
  /\ count_occ string_dec keys "start" = 1%nat
  /\ ("q", q_spec self) ∈ parameters (GoogleUrl.query self).

(** A state reached with [update] alone, whose language option holds
    parameters of its own. *)
Definition url_with_lang (lang : string) : GoogleUrl.t :=
  GoogleUrl.update (GoogleUrl.init GoogleUrl.no_opts)
    {| GoogleUrl.o_duration := None; GoogleUrl.o_exact := None;
       GoogleUrl.o_keywords := Some (GoogleUrl.KwList ["rocq"]);
       GoogleUrl.o_lang := Some (Some lang); GoogleUrl.o_news := None;
       GoogleUrl.o_num := None; GoogleUrl.o_site := None;
       GoogleUrl.o_start := None; GoogleUrl.o_tld := None |}.


(** ** Documents

    A document as a tree, the events [HTMLParser] delivers for it, and
    the same document with its ignore-listed subtrees removed. *)

#[warnings="-register-all"]
Inductive node : Type :=
  | Text (data : string)
  | Element (tag : string) (attrs : list (string * option string))
      (children : list node).

Fixpoint events_of (n : node) : list GoogleParser.event :=
  match n with
  | Text data => [GoogleParser.Data data]
  | Element tag attrs children =>
      GoogleParser.StartTag tag attrs
        :: flat_map events_of children ++ [GoogleParser.EndTag tag]
  end.

(** An element that a selector of [IGNORE_LIST] matches. *)
Definition ignore_listed (n : node) : bool :=
  match n with
  | Text _ => false
  | Element tag attrs _ =>
      match GoogleParser.ignore_list_matches GoogleParser.IGNORE_LIST tag
              (GoogleParser.dict attrs) with
      | Ok b => b
      | Raise _ => false
      end
  end.

Fixpoint prune (n : node) : node :=
  match n with
  | Text data => Text data
  | Element tag attrs children =>
      Element tag attrs
        (filter (fun c => negb (ignore_listed c)) (map prune children))
  end.

(** Two parsers that differ at most in their annotation stacks, a
    missing stack counting as an empty one. *)
Definition same_stacks (m1 m2 : gmap string (list (option string))) : Prop :=
  forall tag, default [] (m1 !! tag) = default [] (m2 !! tag).

Definition same_but_stacks (s1 s2 : GoogleParser.t) : Prop :=
  same_stacks (GoogleParser.tag_annotations s1) (GoogleParser.tag_annotations s2)
  /\ GoogleParser.set_tag_annotations ∅ s1 = GoogleParser.set_tag_annotations ∅ s2.

Definition class (c : string) : list (string * option string) :=
  [("class", Some c)].

(** [<div class="g"><h3 class="r"><a href=HREF>TITLE</a></h3>
     <div class="s"><span class="st">ABSTRACT EXTRA</span></div></div>],
    where [EXTRA] is a list of further children of the abstract. *)
Definition result_container (href title abstract : string) (extra : list node) : node :=
  Element "div" (class "g")
    [ Element "h3" (class "r")
        [ Element "a" [("href", Some href)] [Text title] ];
      Element "div" (class "s")
        [ Element "span" (class "st") (Text abstract :: extra) ] ].

(** The minimal document of C5. *)
Definition minimal_document : node :=
  result_container "/url?q=http%3A%2F%2Fexample.com%2Fx&sa=U" "Example"
    "An example site." [].

(** A result whose abstract holds an ignore-listed container:
    [... An example site.<div class="g-blk"><b>junk</b></div> ...] *)
Definition document_with_ignored : node :=
  result_container "http://example.com/" "Example" "An example site."
    [ Element "div" (class "g-blk") [ Element "b" [] [Text "junk"] ] ].

(** The same in the layout of Google News, where the abstract is a
    [<div class="st">] directly in the result container. *)
Definition news_document_with_ignored : node :=
  Element "div" (class "g")
    [ Element "h3" (class "r")
        [ Element "a" [("href", Some "http://example.com/")] [Text "Example"] ];
      Element "div" (class "st")
        [ Text "An example site.";
          Element "div" (class "g-blk") [ Element "b" [] [Text "junk"] ] ] ].

(** A result container that holds an ignored subtree and nothing else. *)
Definition container_without_url : node :=
  Element "div" (class "g")
    [ Element "div" (class "g-blk")
        [ Element "h3" (class "r")
            [ Element "a" [("href", Some "http://example.com/")] [Text "Example"] ] ] ].

(** The [Result] that C5 expects. *)
Definition minimal_result : Result.t :=
  {| Result.index := "1";
     Result.title := "Example";
     Result.url := "http://example.com/x";
     Result.abstract := "An example site.";
     Result.metadata := None;
     Result.sitelinks := [];
     Result._urltable := {[ "1" := "http://example.com/x" ]} |}.

Definition example_result (abstract : string) : Result.t :=
  {| Result.index := "1";
     Result.title := "Example";
     Result.url := "http://example.com/";
     Result.abstract := abstract;
     Result.metadata := None;
     Result.sitelinks := [];
     Result._urltable := {[ "1" := "http://example.com/" ]} |}.

Definition two_sitelinks : list Sitelink.t :=
  [ Sitelink.init "Docs" "http://example.com/docs" "The manual.";
    Sitelink.init "Blog" "http://example.com/blog" "The news." ].

(** ** Parser invariants *)

(** Every registered result has a URL. *)
Definition results_have_url (self : GoogleParser.t) : Prop :=
  Forall (fun r => Result.url r <> "") (GoogleParser.results self).

(** A start handler that leaves the list of results alone. *)
Definition keeps_results
    (h : GoogleParser.t -> string -> GoogleParser.attrs_t
         -> result (option string * GoogleParser.t)) : Prop :=
  forall self tag attrs annotation self',
    h self tag attrs = Ok (annotation, self') ->
    GoogleParser.results self' = GoogleParser.results self.

(** An end handler that leaves the list of results alone, and one that
    keeps every registered result with a URL. *)
Definition end_keeps_results
    (h : GoogleParser.t -> string -> option string -> result GoogleParser.t)
    : Prop :=
  forall self tag annotation self',
    h self tag annotation = Ok self' ->
    GoogleParser.results self' = GoogleParser.results self.

Definition preserves_results_have_url
    (h : GoogleParser.t -> string -> option string -> result GoogleParser.t)
    : Prop :=
  forall self tag annotation self',
    h self tag annotation = Ok self' ->
    results_have_url self -> results_have_url self'.

(** The one step that captures a URL for the result under
    construction: in the title scope, a start tag [a] whose [href] does
    not start with [/search], which is the link branch of
    [title_start]. *)
Definition captures_url (self : GoogleParser.t) (ev : GoogleParser.event) : bool :=
  match ev, GoogleParser.handlers self with
  | GoogleParser.StartTag tag attrs, GoogleParser.Stitle =>
      String.eqb tag "a"
      && match GoogleParser.dict attrs !! "href" with
         | Some (Some href) => negb (Py.startswith href "/search")
         | _ => false
         end
  | _, _ => false
  end.

(** Whether a URL is captured at some step while [events] are handled
    from [self] on. *)
Fixpoint captured_in (ua : bool) (name2codepoint : string -> option Z)
    (int : string -> Z -> option Z) (self : GoogleParser.t)
    (events : list GoogleParser.event) : bool :=
  match events with
  | [] => false
  | ev :: events' =>
      captures_url self ev
      || match GoogleParser.handle ua name2codepoint int self ev with
         | Ok self' => captured_in ua name2codepoint int self' events'
         | Raise _ => false
         end
  end.

(** A start handler that keeps the [url] register or clears it, and an
    end handler that keeps it. *)
Definition start_keeps_url
    (h : GoogleParser.t -> string -> GoogleParser.attrs_t
         -> result (option string * GoogleParser.t)) : Prop :=
  forall self tag attrs annotation self',
    h self tag attrs = Ok (annotation, self') ->
    GoogleParser.url self' = GoogleParser.url self \/ GoogleParser.url self' = "".

Definition end_keeps_url
    (h : GoogleParser.t -> string -> option string -> result GoogleParser.t)
    : Prop :=
  forall self tag annotation self',
    h self tag annotation = Ok self' ->
    GoogleParser.url self' = GoogleParser.url self.

(** A subtree that the ignore scope skips when text capture is off: it
    only pushes and pops its own annotations. *)
Definition skipped (ua : bool) (name2codepoint : string -> option Z)
    (int : string -> Z -> option Z) (n : node) : Prop :=
  forall self,
    GoogleParser.handlers self = GoogleParser.Signore ->
    GoogleParser.handle_data self = GoogleParser.ignore_data ->
    exists self',
      GoogleParser.feed ua name2codepoint int self (events_of n) = Ok self'
      /\ same_but_stacks self' self.

(** ** Networks

    [urlparse] on the URLs of the samples, which are absolute [https]
    URLs and paths: the host of the former, and the part from the path
    on. *)
Definition sample_netloc (url : string) : string :=
  if String.prefix "https://" url then
    let rest := String.substring 8 (String.length url) url in
    match String.index 0 "/" rest with
    | Some i => String.substring 0 i rest
    | None => rest
    end
  else "".

Definition sample_relurl (url : string) : string :=
  if String.prefix "https://" url then
    let rest := String.substring 8 (String.length url) url in
    match String.index 0 "/" rest with
    | Some i => String.substring i (String.length rest) rest
    | None => ""
    end
  else url.

Definition ok_response (body : string) : GoogleConnection.response :=
  GoogleConnection.mk_response 200 "OK" None None (Ok body).

Definition redirect_to (url : string) : GoogleConnection.response :=
  GoogleConnection.mk_response 302 "Found" (Some url) None (Ok "").

Definition with_set_cookie (header : string) (resp : GoogleConnection.response)
    : GoogleConnection.response :=
  GoogleConnection.mk_response (GoogleConnection.status resp)
    (GoogleConnection.reason resp) (GoogleConnection.location resp)
    (Some header) (GoogleConnection.page resp).

(** A network described by the outcomes of its first GETs; every later
    GET is answered with a page, every connection succeeds, and the
    library accepts every host and URL. *)
Definition network_of (gets : list (result GoogleConnection.response))
    : GoogleConnection.network :=
  GoogleConnection.mk_network
    (fun n => default (Ok (ok_response "<html></html>")) (gets !! n))
    (fun _ => None)
    (fun _ => None).

(** The exception, if any, with which the library refuses to set up a
    connection to [host] and [port]: directly, or through the proxy when
    there is one. *)
Definition setup_error (net : GoogleConnection.network) (proxy : option string)
    (host : string) (port : option Z) : option exn :=
  if negb (GoogleConnection.falsy proxy) then
    match GoogleConnection.library_error net
            (GoogleConnection.HTTPSConnection_init (default "" proxy) None) with
    | Some e => Some e
    | None =>
        GoogleConnection.library_error net (GoogleConnection.Set_tunnel host port)
    end
  else
    GoogleConnection.library_error net
      (GoogleConnection.HTTPSConnection_init host port).

(** The connection as [GoogleConnection('www.google.com')] leaves it. *)
Definition connected (net : GoogleConnection.network) : GoogleConnection.t :=
  snd (GoogleConnection.init net (Some "www.google.com") None None false).

(** The connection is reset on the first GET and again on the retry. *)
Definition network_two_resets : GoogleConnection.network :=
  network_of [Raise OSError; Raise OSError].

(** The first GET is answered by a redirect to the "sorry" page. *)
Definition network_blocked : GoogleConnection.network :=
  network_of [Ok (redirect_to "https://www.google.com/sorry/index?continue=x")].

(** Three redirects are followed; the fourth response redirects to the
    "sorry" page. *)
Definition network_blocked_late : GoogleConnection.network :=
  network_of
    [ Ok (redirect_to "https://www.google.com/a");
      Ok (redirect_to "https://www.google.com/b");
      Ok (redirect_to "https://www.google.com/c");
      Ok (redirect_to "https://www.google.com/sorry/index?continue=x") ].

(** The first response sets a cookie without attributes. *)
Definition network_bare_cookie : GoogleConnection.network :=
  network_of [Ok (with_set_cookie "NID=abc" (ok_response "<html></html>"))].

(** The first response sets a cookie with attributes. *)
Definition network_cookie : GoogleConnection.network :=
  network_of
    [Ok (with_set_cookie "NID=abc; path=/; HttpOnly" (ok_response "<html></html>"))].

Definition blocked_message : string := "Connection blocked due to unusual activity.".

(** A redirect whose [Location] matches the pattern of a blocked client. *)
Definition blocked_redirect (resp : GoogleConnection.response) : bool :=
  GoogleConnection.is_redirect_status (GoogleConnection.status resp)
  && GoogleConnection.is_blocked_url
       (default "" (GoogleConnection.location resp)).

(** The number of the GET whose response [fetch_page] examines first:
    the first GET when it is answered, the retry otherwise. *)
Definition first_response (net : GoogleConnection.network)
    (self : GoogleConnection.t) : nat :=
  match GoogleConnection.get_outcome net (GoogleConnection.n_get self) with
  | Ok _ => GoogleConnection.n_get self
  | Raise _ => S (GoogleConnection.n_get self)
  end.

(** The [Cookie] headers sent, in order. *)
Definition cookies_sent (trace : list GoogleConnection.action) : list string :=
  flat_map (fun a => match a with
                     | GoogleConnection.Get _ _ cookie => [cookie]
                     | _ => []
                     end) trace.

(** The portion of a header value before its first [;] (the whole value
    when it has none). *)
Fixpoint before_semicolon (header : string) : string :=
  match header with
  | EmptyString => ""
  | String c rest =>
      if Ascii.eqb c ";"%char then "" else String c (before_semicolon rest)
  end.

(** The fetch of C2: both the first GET and the retry are reset. *)
Definition fetch_two_resets (ua : bool) : result string * GoogleConnection.t :=
  GoogleConnection.fetch_page ua network_two_resets sample_netloc sample_relurl
    "/search?q=x" (connected network_two_resets).

(** Two fetches in a row on one connection. *)
Definition fetch_twice (ua : bool) (net : GoogleConnection.network)
    : GoogleConnection.t :=
  let s1 := snd (GoogleConnection.fetch_page ua net sample_netloc sample_relurl
                   "/search?q=x" (connected net)) in
  snd (GoogleConnection.fetch_page ua net sample_netloc sample_relurl
         "/search?q=x&start=10" s1).

(** ** Further vocabulary *)

(** The keys that [query] assigns itself. *)
Definition reserved_keys : list string := ["q"; "num"; "start"].

(** Options that only carry the [news] flag. *)
Definition news_opts (b : bool) : GoogleUrl.opts_t :=
  {| GoogleUrl.o_duration := None; GoogleUrl.o_exact := None;
     GoogleUrl.o_keywords := None; GoogleUrl.o_lang := None;
     GoogleUrl.o_news := Some b; GoogleUrl.o_num := None;
     GoogleUrl.o_site := None; GoogleUrl.o_start := None;
     GoogleUrl.o_tld := None |}.

(** From the state [s] to the state [s'] some GETs were sent and nothing
    else was asked of the server, and each of them carried the cookie
    [c]. *)
Definition sends (c : string) (s s' : GoogleConnection.t) : Prop :=
  exists k : nat,
    GoogleConnection.n_get s' = (GoogleConnection.n_get s + k)%nat
    /\ cookies_sent (GoogleConnection.trace s')
       = (cookies_sent (GoogleConnection.trace s) ++ replicate k c)%list.

(** The response [resp] is the one stored in [s], and it is the answer
    to the last GET sent. *)
Definition last_answer (net : GoogleConnection.network)
    (s : GoogleConnection.t) (resp : GoogleConnection.response) : Prop :=
  GoogleConnection._resp s = Some resp
  /\ exists g : nat,
       GoogleConnection.n_get s = S g
       /\ GoogleConnection.get_outcome net g = Ok resp.

(** The first GET is reset, the retry is answered with a page. *)
Definition network_reset_once : GoogleConnection.network :=
  network_of [Raise OSError; Ok (ok_response "<html>results</html>")].

(** The first GET fails and no connection can be opened any more. *)
Definition network_down : GoogleConnection.network :=
  GoogleConnection.mk_network
    (fun _ => Raise OSError)
    (fun n => match n with O => None | S _ => Some "Network is unreachable" end)
    (fun _ => None).

(** Two redirects, the second to another host, and then a page. *)
Definition network_redirects : GoogleConnection.network :=
  network_of
    [ Ok (redirect_to "https://www.google.com/a");
      Ok (redirect_to "https://www.google.de/b");
      Ok (ok_response "<html>results</html>") ].

(** A network whose GETs fail with [HTTPException] only, and whose pages
    can be read once they arrive with status 200. *)
Definition http_failures_only (net : GoogleConnection.network) : Prop :=
  (forall n e, GoogleConnection.get_outcome net n = Raise e ->
               is_HTTPException e = true)
  /\ (forall n resp, GoogleConnection.get_outcome net n = Ok resp ->
        GoogleConnection.status resp = 200 ->
        exists body, GoogleConnection.page resp = Ok body).

(** The outcome is a value or a [GoogleConnectionError]. *)
Definition connection_error_or_value {A} (r : result A) : Prop :=
  (exists a, r = Ok a) \/ (exists msg, r = Raise (GoogleConnectionError msg)).

(** The exception [e] is one that the library raises on some host,
    proxy or URL. *)
Definition library_raises (net : GoogleConnection.network) (e : exn) : Prop :=
  exists c, GoogleConnection.library_error net c = Some e.

(** The outcome is a value, a [GoogleConnectionError], or an exception
    of the library. *)
Definition connection_or_library_error {A} (net : GoogleConnection.network)
    (r : result A) : Prop :=
  connection_error_or_value r \/ exists e, r = Raise e /\ library_raises net e.

(** Every GET is answered by a redirect to [www.google.com:x], a host
    whose port is not a number and that the constructor of the
    connection refuses. *)
Definition network_bad_port : GoogleConnection.network :=
  GoogleConnection.mk_network
    (fun _ => Ok (redirect_to "https://www.google.com:x/"))
    (fun _ => None)
    (fun c =>
       match c with
       | GoogleConnection.HTTPSConnection_init host _ =>
           if String.eqb host "www.google.com:x"
           then Some (InvalidURL "nonnumeric port: 'x'")
           else None
       | _ => None
       end).

(** Every GET fails with [HTTPException]. *)
Definition network_http_errors : GoogleConnection.network :=
  GoogleConnection.mk_network (fun _ => Raise HTTPException) (fun _ => None)
    (fun _ => None).

(** ** Parser registers *)

(** A result as [result_end] builds the one numbered [i] from 0: with
    the index [i + 1], a URL, and sitelinks that have URLs. *)
Definition built (i : nat) (r : Result.t) : Prop :=
  exists title url abstract metadata sitelinks,
    Result.init (Py.VInt (Z.of_nat i + 1)) title url abstract metadata
      (Some sitelinks) = Ok r
    /\ url <> ""
    /\ Forall (fun sl => Sitelink.url sl <> "") sitelinks.

(** What holds of the counter, the results and the sitelinks collected
    so far, between any two events. *)
Definition registered (self : GoogleParser.t) : Prop :=
  GoogleParser.index self = Z.of_nat (length (GoogleParser.results self))
  /\ (forall i r, GoogleParser.results self !! i = Some r -> built i r)
  /\ Forall (fun sl => Sitelink.url sl <> "") (GoogleParser.sitelinks self).

(** A step that leaves the counter and the results alone, and that
    keeps the sitelinks, clears them, or adds one that has a URL. *)
Definition keeps_registers (self self' : GoogleParser.t) : Prop :=
  GoogleParser.index self' = GoogleParser.index self
  /\ GoogleParser.results self' = GoogleParser.results self
  /\ (GoogleParser.sitelinks self' = GoogleParser.sitelinks self
      \/ GoogleParser.sitelinks self' = []
      \/ exists sl,
           GoogleParser.sitelinks self'
           = (GoogleParser.sitelinks self ++ [sl])%list
           /\ Sitelink.url sl <> "").

Definition start_keeps_registers
    (h : GoogleParser.t -> string -> GoogleParser.attrs_t
         -> result (option string * GoogleParser.t)) : Prop :=
  forall self tag attrs annotation self',
    h self tag attrs = Ok (annotation, self') -> keeps_registers self self'.

Definition end_keeps_registers
    (h : GoogleParser.t -> string -> option string -> result GoogleParser.t)
    : Prop :=
  forall self tag annotation self',
    h self tag annotation = Ok self' -> keeps_registers self self'.

(** The decimal digits at the start of a string. *)
Definition is_digit (c : ascii) : bool :=
  (48 <=? Py.ord c) && (Py.ord c <=? 57).

Fixpoint take_digits (s : string) : string :=
  match s with
  | EmptyString => ""
  | String c s' => if is_digit c then String c (take_digits s') else ""
  end.

(** [<td><h3 class="r"><a href=HREF>TITLE</a></h3>
     <div class="st">ABSTRACT</div></td>] *)
Definition sitelink_cell (href title abstract : string) : node :=
  Element "td" []
    [ Element "h3" (class "r")
        [ Element "a" [("href", Some href)] [Text title] ];
      Element "div" (class "st") [Text abstract] ].

(** A result with a table of two sitelinks, followed by a plain
    result. *)
Definition page_with_sitelinks : list node :=
  [ Element "div" (class "g")
      [ Element "h3" (class "r")
          [ Element "a" [("href", Some "http://example.com/")] [Text "Example"] ];
        Element "table" []
          [ Element "tr" []
              [ sitelink_cell "http://example.com/docs" "Docs" "The manual.";
                sitelink_cell "http://example.com/blog" "Blog" "The news." ] ] ];
    minimal_document ].

(** ** Parser exceptions *)

Definition is_KeyError (e : exn) : bool :=
  match e with
  | KeyError _ => true
  | _ => false
  end.

(** [<div class>]: a [class] attribute without a value. *)
Definition valueless_class : list (string * option string) := [("class", None)].

(** A start handler, and an end handler, that leaves the annotation
    stacks alone and raises no [KeyError]. *)
Definition start_keeps_stacks
    (h : GoogleParser.t -> string -> GoogleParser.attrs_t
         -> result (option string * GoogleParser.t)) : Prop :=
  forall self tag attrs,
    match h self tag attrs with
    | Ok (_, self') =>
        GoogleParser.tag_annotations self' = GoogleParser.tag_annotations self
    | Raise e => is_KeyError e = false
    end.

Definition end_keeps_stacks
    (h : GoogleParser.t -> string -> option string -> result GoogleParser.t)
    : Prop :=
  forall self tag annotation,
    match h self tag annotation with
    | Ok self' =>
        GoogleParser.tag_annotations self' = GoogleParser.tag_annotations self
    | Raise e => is_KeyError e = false
    end.

(** The tag names of the elements of a document. *)
Fixpoint tag_names (n : node) : list string :=
  match n with
  | Text _ => []
  | Element tag _ children => tag :: flat_map tag_names children
  end.

(** A run of events that leaves the stacks as they were, a missing
    stack counting as an empty one, and creates the stacks of [names] if
    they are missing; or that ends in an exception other than
    [KeyError]. *)
Definition balanced (ua : bool) (name2codepoint : string -> option Z)
    (int : string -> Z -> option Z) (events : list GoogleParser.event)
    (names : list string) : Prop :=
  forall self,
    match GoogleParser.feed ua name2codepoint int self events with
    | Ok self' =>
        same_stacks (GoogleParser.tag_annotations self')
          (GoogleParser.tag_annotations self)
        /\ forall tag,
             is_Some (GoogleParser.tag_annotations self' !! tag)
             <-> is_Some (GoogleParser.tag_annotations self !! tag)
                 \/ tag ∈ names
    | Raise e => is_KeyError e = false
    end.

(** The parser after the events of a document, when they are handled
    without an exception. *)
Definition parser_after (ua news : bool) (nodes : list node) : GoogleParser.t :=
  match GoogleParser.feed ua (fun _ => None) (fun _ _ => None)
          (GoogleParser.init news) (flat_map events_of nodes) with
  | Ok self => self
  | Raise _ => GoogleParser.init news
  end.
(** * Properties *)

(** ** Strings *)

Lemma append_cons (c : ascii) (s t : string) : String c s ++ t = String c (s ++ t).
Proof. reflexivity. Qed.

Lemma append_nil_l (s : string) : "" ++ s = s.
Proof. reflexivity. Qed.

Lemma append_nil_r (s : string) : s ++ "" = s.
Proof.
  induction s as [|c s IH]; [reflexivity|]. now rewrite append_cons, IH.
Qed.

Lemma append_assoc (s1 s2 s3 : string) : (s1 ++ s2) ++ s3 = s1 ++ (s2 ++ s3).
Proof.
  induction s1 as [|c s1 IH]; [reflexivity|]. now rewrite !append_cons, IH.
Qed.

Lemma occurs_append (c : ascii) (s1 s2 : string) :
  occurs c (s1 ++ s2) = occurs c s1 || occurs c s2.
Proof.
  induction s1 as [|a s1 IH]; [reflexivity|].
  rewrite append_cons. cbn [occurs]. rewrite IH. now rewrite orb_assoc.
Qed.

Lemma split_on_free (sep : ascii) (x : string) :
  occurs sep x = false -> split_on sep x = [x].
Proof.
  induction x as [|c x IH]; [reflexivity|]. cbn [occurs split_on].
  intros H. apply orb_false_iff in H. destruct H as [Hc Hx].
  now rewrite Hc, (IH Hx).
Qed.

Lemma split_on_append (sep : ascii) (x y : string) :
  occurs sep x = false ->
  split_on sep (x ++ String sep y) = x :: split_on sep y.
Proof.
  induction x as [|c x IH]; intros H.
  - rewrite append_nil_l. cbn [split_on]. now rewrite Ascii.eqb_refl.
  - cbn [occurs] in H. apply orb_false_iff in H. destruct H as [Hc Hx].
    rewrite append_cons. cbn [split_on]. now rewrite Hc, (IH Hx).
Qed.

Lemma split_on_join (sep : ascii) (l : list string) :
  Forall (fun x => occurs sep x = false) l -> l <> [] ->
  split_on sep (Py.join (String sep "") l) = l.
Proof.
  induction l as [|x l IH]; intros Hfree Hne; [contradiction|].
  apply Forall_cons in Hfree. destruct Hfree as [Hx Hl].
  destruct l as [|y l].
  - now apply split_on_free.
  - change (Py.join (String sep "") (x :: y :: l))
      with (x ++ String sep (Py.join (String sep "") (y :: l))).
    rewrite split_on_append by assumption. now rewrite IH.
Qed.

Lemma split_item_append (k v : string) :
  occurs "=" k = false -> split_item (k ++ "=" ++ v) = (k, v).
Proof.
  induction k as [|c k IH]; intros H; [reflexivity|].
  cbn [occurs] in H. apply orb_false_iff in H. destruct H as [Hc Hk].
  rewrite append_cons. cbn [split_item]. now rewrite Hc, (IH Hk).
Qed.

Lemma byte_inj (x y : Z) :
  0 <= x < 256 -> 0 <= y < 256 -> Py.byte x = Py.byte y -> x = y.
Proof.
  unfold Py.byte. intros Hx Hy Heq.
  apply (f_equal N_of_ascii) in Heq.
  rewrite !N_ascii_embedding in Heq by lia. lia.
Qed.

(** ** GoogleUrl *)

Section GoogleUrlFacts.

Import GoogleUrl.

Implicit Types (self : GoogleUrl.t) (qd : gmap string Py.value).

Lemma sorted_keys_Permutation qd : sorted_keys qd ≡ₚ elements (dom qd).
Proof. apply merge_sort_Permutation. Qed.

Lemma sorted_keys_NoDup qd : NoDup (sorted_keys qd).
Proof. rewrite sorted_keys_Permutation. apply NoDup_elements. Qed.

Lemma elem_of_sorted_keys qd k : k ∈ sorted_keys qd <-> is_Some (qd !! k).
Proof.
  rewrite sorted_keys_Permutation, elem_of_elements. apply elem_of_dom.
Qed.

Lemma sorted_keys_StronglySorted qd : StronglySorted String.le (sorted_keys qd).
Proof. apply (StronglySorted_merge_sort String.le). Qed.

Lemma query_items_keys self :
  map fst (query_items self) = sorted_keys (query_qd self).
Proof.
  unfold query_items. rewrite map_map. simpl. apply map_id.
Qed.

Lemma query_qd_q self : query_qd self !! "q" = Some (Py.VStr (q_value self)).
Proof. unfold query_qd. apply lookup_insert_eq. Qed.

Lemma query_qd_start self : query_qd self !! "start" = Some (Py.VInt (_start self)).
Proof.
  unfold query_qd. rewrite lookup_insert_ne by discriminate.
  apply lookup_insert_eq.
Qed.

Lemma query_qd_num self : query_qd self !! "num" = Some (Py.VInt (_num self)).
Proof.
  unfold query_qd. do 2 (rewrite lookup_insert_ne by discriminate).
  apply lookup_insert_eq.
Qed.

(** Each key of the local dict is rendered with the value stored for it. *)
Lemma elem_of_query_items self k v :
  query_qd self !! k = Some v -> (k, Py.str v) ∈ query_items self.
Proof.
  intros Hk. unfold query_items.
  apply list_elem_of_fmap. exists k. rewrite Hk. split; [reflexivity|].
  apply elem_of_sorted_keys. eauto.
Qed.

Lemma count_occ_NoDup_1 (l : list string) (k : string) :
  NoDup l -> k ∈ l -> count_occ string_dec l k = 1%nat.
Proof.
  intros Hnd Hin. apply NoDup_ListNoDup in Hnd.
  apply (proj1 (NoDup_count_occ' string_dec l) Hnd).
  now apply list_elem_of_In.
Qed.

Lemma q_value_spec self : q_value self = q_spec self.
Proof.
  unfold q_value, q_spec, truthy.
  destruct (_keywords self) as [[|c s]|[|kw l]], (_site self) as [[|c' s']|];
    cbn [default from_option id]; rewrite ?append_nil_r; reflexivity.
Qed.

(** Going to the next page and back restores the whole state, unless
    [next_page] lands on offset 0. *)
Lemma prev_next_general self :
  0 <= _start self -> _start self + _num self <> 0 ->
  prev_page (next_page self) = Ok self.
Proof.
  intros Hs Hn. destruct self as [tld num start kw site qd]; simpl in *.
  unfold prev_page, next_page, with_start; simpl.
  destruct (Z.eqb_spec (start + num) 0) as [|_]; [contradiction|].
  destruct (Z.ltb_spec num (start + num)).
  - do 2 f_equal. lia.
  - do 2 f_equal. lia.
Qed.

(** With page size 0 at offset 0, [next_page] stays at offset 0 and
    [prev_page] then refuses. *)
Lemma prev_next_zero_page self :
  _start self = 0 -> _num self = 0 ->
  prev_page (next_page self) = Raise (ValueError "Already at the first page.").
Proof.
  intros Hs Hn. unfold prev_page, next_page, with_start; simpl.
  rewrite Hs, Hn. reflexivity.
Qed.

End GoogleUrlFacts.

(** C8, counterexample: from offset 5 with page size 10, [next_page] gives
    15 and [prev_page] gives back 5, not 0. *)
Lemma next_prev_not_clamped_below_page_size :
  GoogleUrl._start (url_at 5 10) = 5 /\
  GoogleUrl.prev_page (GoogleUrl.next_page (url_at 5 10)) = Ok (url_at 5 10) /\
  ~ next_prev_as_worded (url_at 5 10).
Proof.
  split; [reflexivity|]. split; [reflexivity|].
  intros (self' & Hprev & Hstart).
  assert (Heq : GoogleUrl.prev_page (GoogleUrl.next_page (url_at 5 10)) = Ok (url_at 5 10))
    by reflexivity.
  rewrite Heq in Hprev. injection Hprev as <-.
  vm_compute in Hstart. discriminate.
Qed.

(** C8, amended: for a non-negative offset and a positive page size,
    [next_page] followed by [prev_page] succeeds and gives back the state
    it started from, hence the original offset, whether or not that
    offset is below the page size. *)
Theorem next_page_prev_page_restores (self : GoogleUrl.t) :
  0 <= GoogleUrl._start self -> 0 < GoogleUrl._num self ->
  GoogleUrl.prev_page (GoogleUrl.next_page self) = Ok self.
Proof. intros Hs Hn. apply prev_next_general; lia. Qed.

(** C8 at offset 5 with page size 10. *)
Lemma next_page_prev_page_restores_witness :
  0 <= GoogleUrl._start (url_at 5 10) /\ 0 < GoogleUrl._num (url_at 5 10) /\
  GoogleUrl.prev_page (GoogleUrl.next_page (url_at 5 10)) = Ok (url_at 5 10).
Proof.
  split; [vm_compute; discriminate|]. split; [reflexivity|].
  apply (next_page_prev_page_restores (url_at 5 10)).
  - vm_compute; discriminate.
  - reflexivity.
Defined.

(** *** The query string read back *)

Lemma ord_range (c : ascii) : 0 <= Py.ord c < 256.
Proof.
  unfold Py.ord. pose proof (N_ascii_bounded c). lia.
Qed.

Lemma hex_digit_not_sep (n : Z) :
  0 <= n < 16 -> Ascii.eqb (Py.hex_digit n) "&" = false.
Proof.
  intros Hn. apply Ascii.eqb_neq. unfold Py.hex_digit.
  change "&"%char with (Py.byte 38).
  destruct (n <? 10); intros Heq; apply byte_inj in Heq; lia.
Qed.

(** [quote_plus] writes no [&]. *)
Lemma quote_plus_no_sep (s : string) : occurs "&" (Py.quote_plus s) = false.
Proof.
  induction s as [|c s IH]; [reflexivity|].
  cbn [Py.quote_plus]. rewrite occurs_append, IH, orb_false_r.
  destruct (Py.always_safe c) eqn:Hsafe.
  - cbn [occurs]. rewrite orb_false_r.
    destruct (Ascii.eqb_spec c "&") as [->|]; [discriminate Hsafe | reflexivity].
  - destruct (Ascii.eqb c " "); [reflexivity|].
    pose proof (ord_range c) as Hc. cbn [occurs].
    rewrite !hex_digit_not_sep
      by (Z.to_euclidean_division_equations; lia).
    reflexivity.
Qed.

Lemma pretty_N_char_not_sep (x : N) (c : ascii) :
  c = "&"%char \/ c = "="%char -> Ascii.eqb (pretty_N_char x) c = false.
Proof.
  intros [->| ->]; unfold pretty_N_char; repeat case_match; reflexivity.
Qed.

Lemma pretty_N_go_no_sep (c : ascii) (x : N) :
  c = "&"%char \/ c = "="%char ->
  forall s, occurs c s = false -> occurs c (pretty_N_go x s) = false.
Proof.
  intros Hc. induction (N.lt_wf_0 x) as [x _ IH]; intros s Hs.
  destruct (decide (x = 0)%N) as [->|Hx]; [now rewrite pretty_N_go_0|].
  rewrite pretty_N_go_step by lia.
  apply IH; [apply N.div_lt; lia|].
  cbn [occurs]. now rewrite pretty_N_char_not_sep, Hs.
Qed.

(** [str] of an int writes neither [&] nor [=]. *)
Lemma str_of_int_no_sep (c : ascii) (z : Z) :
  c = "&"%char \/ c = "="%char -> occurs c (Py.str_of_int z) = false.
Proof.
  intros Hc.
  assert (Hpos : forall p : positive, occurs c (pretty (N.pos p)) = false).
  { intros p.
    change (occurs c (if decide (N.pos p = 0%N) then "0"
                      else pretty_N_go (N.pos p) "") = false).
    destruct (decide (N.pos p = 0%N)); [discriminate|].
    now apply pretty_N_go_no_sep. }
  unfold Py.str_of_int. destruct z as [|p|p].
  - destruct Hc as [->| ->]; reflexivity.
  - exact (Hpos p).
  - change (occurs c ("-" ++ pretty (N.pos p)) = false).
    rewrite occurs_append, Hpos. destruct Hc as [->| ->]; reflexivity.
Qed.

Lemma q_value_no_sep (self : GoogleUrl.t) :
  occurs "&" (GoogleUrl.q_value self) = false.
Proof.
  rewrite q_value_spec. unfold q_spec. rewrite occurs_append.
  assert (Hjoin : forall l, occurs "&" (Py.join "+" (map Py.quote_plus l)) = false).
  { induction l as [|x [|y l] IH]; [reflexivity|apply quote_plus_no_sep|].
    change (Py.join "+" (map Py.quote_plus (x :: y :: l)))
      with (Py.quote_plus x ++ "+" ++ Py.join "+" (map Py.quote_plus (y :: l))).
    now rewrite !occurs_append, quote_plus_no_sep, IH. }
  destruct (GoogleUrl._keywords self) as [kw|l];
    rewrite ?Hjoin, ?quote_plus_no_sep;
    destruct (GoogleUrl._site self) as [[|c site]|]; try reflexivity;
    now rewrite occurs_append, quote_plus_no_sep.
Qed.

(** The rendered query string read back, when the stored keys and
    values hold no separator. *)
Lemma query_reads_back (self : GoogleUrl.t) :
  (forall k v, GoogleUrl._query_dict self !! k = Some v ->
     occurs "&" k = false /\ occurs "=" k = false
     /\ occurs "&" (Py.str v) = false) ->
  parameters (GoogleUrl.query self) = GoogleUrl.query_items self.
Proof.
  intros Hdict.
  assert (Hitems : Forall (fun kv => occurs "&" (fst kv) = false
                             /\ occurs "=" (fst kv) = false
                             /\ occurs "&" (snd kv) = false)
                     (GoogleUrl.query_items self)).
  { unfold GoogleUrl.query_items. apply Forall_fmap, Forall_forall.
    intros k Hk. apply elem_of_sorted_keys in Hk. destruct Hk as [v Hv].
    cbn. rewrite Hv. cbn. unfold GoogleUrl.query_qd in Hv.
    destruct (decide (k = "q")) as [->|Hq].
    { rewrite lookup_insert_eq in Hv. injection Hv as <-.
      cbn. now rewrite q_value_no_sep. }
    rewrite lookup_insert_ne in Hv by congruence.
    destruct (decide (k = "start")) as [->|Hs].
    { rewrite lookup_insert_eq in Hv. injection Hv as <-.
      cbn. rewrite str_of_int_no_sep by now left. auto. }
    rewrite lookup_insert_ne in Hv by congruence.
    destruct (decide (k = "num")) as [->|Hn].
    { rewrite lookup_insert_eq in Hv. injection Hv as <-.
      cbn. rewrite str_of_int_no_sep by now left. auto. }
    rewrite lookup_insert_ne in Hv by congruence.
    now apply Hdict. }
  assert (Hne : GoogleUrl.query_items self <> []).
  { intros Hnil.
    assert (Hq : ("q", Py.str (Py.VStr (GoogleUrl.q_value self)))
                   ∈ GoogleUrl.query_items self)
      by (apply elem_of_query_items, query_qd_q).
    rewrite Hnil in Hq. now apply not_elem_of_nil in Hq. }
  unfold parameters, GoogleUrl.query. rewrite split_on_join.
  - rewrite map_map. induction Hitems as [|[k v] l (Hk1 & Hk2 & Hv) _ IH];
      [reflexivity|].
    cbn [map]. cbn [fst snd] in *. rewrite split_item_append by assumption.
    f_equal. destruct l as [|kv l]; [reflexivity|]. apply IH. discriminate.
  - apply Forall_fmap. eapply Forall_impl; [exact Hitems|].
    intros [k v] (Hk1 & Hk2 & Hv). unfold compose. cbn [fst snd] in *.
    now rewrite !occurs_append, Hk1, Hv.
  - destruct (GoogleUrl.query_items self); [contradiction | discriminate].
Qed.

(** When the keys and values stored in the query dict hold no [&], and
    the keys no [=], the rendered query string reads back as exactly the
    items it was joined from. *)
Lemma query_parameters (self : GoogleUrl.t) :
  (forall k v, GoogleUrl._query_dict self !! k = Some v ->
     occurs "&" k = false /\ occurs "=" k = false
     /\ occurs "&" (Py.str v) = false) ->
  parameters (GoogleUrl.query self) = GoogleUrl.query_items self.
Proof. exact (query_reads_back self). Qed.

(** The items that [query] joins with [&]: one [key=value] item per
    key; the keys are in lexicographic order without repetition; [q],
    [num] and [start] each occur exactly once, with the value synthesized
    from the keywords and the site, the page size and the offset. *)
Lemma query_items_sorted_once (self : GoogleUrl.t) :
  let items := GoogleUrl.query_items self in
  let keys := map fst items in
  GoogleUrl.query self = Py.join "&" (map (fun kv => kv.1 ++ "=" ++ kv.2) items)
  /\ StronglySorted String.le keys
  /\ NoDup keys
  /\ count_occ string_dec keys "q" = 1%nat
  /\ count_occ string_dec keys "num" = 1%nat
  /\ count_occ string_dec keys "start" = 1%nat
  /\ ("q", q_spec self) ∈ items
  /\ ("num", Py.str_of_int (GoogleUrl._num self)) ∈ items
  /\ ("start", Py.str_of_int (GoogleUrl._start self)) ∈ items.
Proof.
  intros items keys. subst items keys. rewrite query_items_keys.
  pose proof (sorted_keys_NoDup (GoogleUrl.query_qd self)) as Hnd.
  split; [reflexivity|].
  split; [apply sorted_keys_StronglySorted|].
  split; [exact Hnd|].
  repeat split.
  - apply count_occ_NoDup_1; [exact Hnd|].
    apply elem_of_sorted_keys. rewrite query_qd_q. eauto.
  - apply count_occ_NoDup_1; [exact Hnd|].
    apply elem_of_sorted_keys. rewrite query_qd_num. eauto.
  - apply count_occ_NoDup_1; [exact Hnd|].
    apply elem_of_sorted_keys. rewrite query_qd_start. eauto.
  - rewrite <- q_value_spec.
    apply (elem_of_query_items self "q" (Py.VStr (GoogleUrl.q_value self))).
    apply query_qd_q.
  - apply (elem_of_query_items self "num" (Py.VInt (GoogleUrl._num self))).
    apply query_qd_num.
  - apply (elem_of_query_items self "start" (Py.VInt (GoogleUrl._start self))).
    apply query_qd_start.
Qed.

(** C7, counterexample: a language option that holds [&] is stored as it
    is, and the rendered string then names [q], [num] and [start] twice
    each, with the keys out of order. *)
Lemma rendered_query_repeats_parameters :
  GoogleUrl.query (url_with_lang "en&num=100&q=evil&start=7")
  = "hl=en&num=100&q=evil&start=7&ie=UTF-8&num=10&oe=UTF-8&q=rocq&start=0"
  /\ map fst (parameters (GoogleUrl.query (url_with_lang "en&num=100&q=evil&start=7")))
     = ["hl"; "num"; "q"; "start"; "ie"; "num"; "oe"; "q"; "start"]
  /\ ~ query_as_worded (url_with_lang "en&num=100&q=evil&start=7").
Proof.
  split; [vm_compute; reflexivity|]. split; [vm_compute; reflexivity|].
  intros (_ & Hq & _). vm_compute in Hq. discriminate Hq.
Qed.

(** C7, amended: when no key or value stored in the query dict holds
    [&], and no key [=], the rendered query string, read as parameters,
    has its keys in lexicographic order without repetition; [q], [num]
    and [start] each occur exactly once, with the value synthesized from
    the keywords and the site, the page size and the offset. *)
Theorem query_has_q_num_start_once_sorted (self : GoogleUrl.t) :
  (forall k v, GoogleUrl._query_dict self !! k = Some v ->
     occurs "&" k = false /\ occurs "=" k = false
     /\ occurs "&" (Py.str v) = false) ->
  query_as_worded self
  /\ NoDup (map fst (parameters (GoogleUrl.query self)))
  /\ ("num", Py.str_of_int (GoogleUrl._num self))
       ∈ parameters (GoogleUrl.query self)
  /\ ("start", Py.str_of_int (GoogleUrl._start self))
       ∈ parameters (GoogleUrl.query self).
Proof.
  intros Hdict. unfold query_as_worded. rewrite (query_reads_back self Hdict).
  pose proof (query_items_sorted_once self) as H. cbn zeta in H. tauto.
Qed.

(** C7 on the query of a fresh state, whose dict holds [ie] and [oe]. *)
Lemma query_has_q_num_start_once_sorted_witness :
  query_as_worded (url_at 5 10)
  /\ ("start", "5") ∈ parameters (GoogleUrl.query (url_at 5 10)).
Proof.
  destruct (query_has_q_num_start_once_sorted (url_at 5 10)) as (Hw & _ & _ & Hs).
  - intros k v.
    change (GoogleUrl._query_dict (url_at 5 10))
      with (<["oe" := Py.VStr "UTF-8"]>
              (<["ie" := Py.VStr "UTF-8"]> (∅ : gmap string Py.value))).
    intros H.
    apply lookup_insert_Some in H. destruct H as [[<- <-]|[_ H]];
      [vm_compute; auto|].
    apply lookup_insert_Some in H. destruct H as [[<- <-]|[_ H]];
      [vm_compute; auto|].
    rewrite lookup_empty in H. discriminate H.
  - split; [exact Hw | exact Hs].
Defined.

(** A rendered request target. *)
Example relative_rendered :
  GoogleUrl.relative
    (GoogleUrl.set_queries
       (GoogleUrl.init
          {| GoogleUrl.o_duration := None; GoogleUrl.o_exact := Some true;
             GoogleUrl.o_keywords := Some (GoogleUrl.KwList ["hello world"; "a&b"]);
             GoogleUrl.o_lang := None; GoogleUrl.o_news := None;
             GoogleUrl.o_num := None; GoogleUrl.o_site := Some (Some "example.com");
             GoogleUrl.o_start := Some 20; GoogleUrl.o_tld := None |})
       [("filter", GoogleUrl.VInt 0)])
  = "/search?filter=0&ie=UTF-8&nfpr=1&num=10&oe=UTF-8&q=hello+world+a%26b+site:example.com&start=20".
Proof. vm_compute. reflexivity. Qed.

(** ** [chr] *)

Lemma chr_Ok_iff (n : Z) : (exists s, Py.chr n = Ok s) <-> 0 <= n <= 1114111.
Proof.
  unfold Py.chr. split.
  - intros [s Hs].
    destruct (Z.ltb_spec n 0), (Z.ltb_spec 1114111 n); simpl in Hs;
      try discriminate; lia.
  - intros Hn.
    destruct (Z.ltb_spec n 0), (Z.ltb_spec 1114111 n); simpl; try lia.
    repeat match goal with |- context [if ?c then _ else _] => destruct c end; eauto.
Qed.

Lemma chr_nonempty (n : Z) (s : string) : Py.chr n = Ok s -> s <> "".
Proof.
  unfold Py.chr.
  repeat match goal with |- context [if ?c then _ else _] => destruct c end;
    intros H; inversion H; discriminate.
Qed.

Lemma chr_inj (a b : Z) (s : string) : Py.chr a = Ok s -> Py.chr b = Ok s -> a = b.
Proof.
  unfold Py.chr. intros Ha Hb.
  destruct (Z.ltb_spec a 0), (Z.ltb_spec 1114111 a); simpl in Ha; try discriminate.
  destruct (Z.ltb_spec b 0), (Z.ltb_spec 1114111 b); simpl in Hb; try discriminate.
  destruct (Z.ltb_spec a 128), (Z.ltb_spec a 2048), (Z.ltb_spec a 65536); try lia;
    destruct (Z.ltb_spec b 128), (Z.ltb_spec b 2048), (Z.ltb_spec b 65536); try lia;
    injection Ha as <-; inversion Hb;
    repeat match goal with
      | H : Py.byte _ = Py.byte _ |- _ =>
          apply byte_inj in H; [|Z.to_euclidean_division_equations; lia ..]
      end;
    Z.to_euclidean_division_equations; lia.
Qed.

(** ** Result *)

Lemma assign_subindices_spec (sitelinks : list Sitelink.t) :
  forall (index subindex : string) (code : Z) (urltable : gmap string string),
    Py.chr code = Ok subindex ->
    code + Z.of_nat (length sitelinks) <= 1114111 ->
    exists sitelinks' urltable',
      Result.assign_subindices index subindex code sitelinks urltable
        = Ok (sitelinks', urltable')
      /\ length sitelinks' = length sitelinks
      /\ (forall (i : nat) sl, sitelinks !! i = Some sl ->
            exists c, Py.chr (code + Z.of_nat i) = Ok c
              /\ sitelinks' !! i = Some (Sitelink.set_index (index ++ c) sl)
              /\ urltable' !! (index ++ c) = Some (Sitelink.url sl))
      /\ (forall k,
            (forall (i : nat) c, (i < length sitelinks)%nat ->
               Py.chr (code + Z.of_nat i) = Ok c -> k <> index ++ c) ->
            urltable' !! k = urltable !! k)
      /\ (forall k, is_Some (urltable' !! k) ->
            is_Some (urltable !! k)
            \/ exists (i : nat) c, (i < length sitelinks)%nat
                 /\ Py.chr (code + Z.of_nat i) = Ok c /\ k = index ++ c).
Proof.
  induction sitelinks as [|sl rest IH]; intros index subindex code urltable Hsub Hlen.
  - exists [], urltable. repeat split; try done. intros k Hk. now left.
  - assert (Hcode : 0 <= code <= 1114111) by (apply chr_Ok_iff; eauto).
    simpl length in Hlen.
    destruct (proj2 (chr_Ok_iff (code + 1))) as [subindex' Hsub']; [lia|].
    destruct (IH index subindex' (code + 1)
                (<[index ++ subindex := Sitelink.url sl]> urltable) Hsub')
      as (rest' & urltable' & Hrun & Hlen' & Hnth & Hother & Hdom); [lia|].
    exists (Sitelink.set_index (index ++ subindex) sl :: rest'), urltable'.
    split; [|split; [|split; [|split]]].
    + cbn [Result.assign_subindices]. rewrite Hsub'. cbn.
      change (Sitelink.url (Sitelink.set_index (index ++ subindex) sl))
        with (Sitelink.url sl).
      rewrite Hrun. reflexivity.
    + simpl. now rewrite Hlen'.
    + intros [|i] sl' Hi.
      * injection Hi as <-. exists subindex.
        replace (code + Z.of_nat 0) with code by lia.
        split; [exact Hsub|]. split; [reflexivity|].
        rewrite Hother.
        { apply lookup_insert_eq. }
        intros j c _ Hc Heq. apply (inj (String.app index)) in Heq. subst c.
        pose proof (chr_inj _ _ _ Hsub Hc). lia.
      * destruct (Hnth i sl' Hi) as (c & Hc & Hsl & Htab).
        exists c. replace (code + Z.of_nat (S i)) with (code + 1 + Z.of_nat i) by lia.
        auto.
    + intros k Hk. rewrite Hother.
      * apply lookup_insert_ne. intros Heq.
        apply (Hk 0%nat subindex); [simpl; lia | | now symmetry].
        now replace (code + Z.of_nat 0) with code by lia.
      * intros i c Hi Hc. apply (Hk (S i) c); [simpl; lia|].
        now replace (code + Z.of_nat (S i)) with (code + 1 + Z.of_nat i) by lia.
    + intros k Hk. destruct (Hdom k Hk) as [Hin|(i & c & Hi & Hc & ->)].
      * destruct (decide (k = index ++ subindex)) as [->|Hne].
        -- right. exists 0%nat, subindex. split; [simpl; lia|].
           now replace (code + Z.of_nat 0) with code by lia.
        -- left. now rewrite lookup_insert_ne in Hin by congruence.
      * right. exists (S i), c. split; [simpl; lia|]. split; [|reflexivity].
        now replace (code + Z.of_nat (S i)) with (code + 1 + Z.of_nat i) by lia.
Qed.

(** Beyond the range of [chr] the loop raises [ValueError]. *)
Lemma assign_subindices_out_of_range (sitelinks : list Sitelink.t) :
  forall (index subindex : string) (code : Z) (urltable : gmap string string),
    0 <= code <= 1114111 ->
    1114111 < code + Z.of_nat (length sitelinks) ->
    Result.assign_subindices index subindex code sitelinks urltable
    = Raise (ValueError "chr() arg not in range(0x110000)").
Proof.
  induction sitelinks as [|sl rest IH]; intros index subindex code urltable Hc Hlen;
    [simpl in Hlen; lia|].
  cbn [Result.assign_subindices]. simpl length in Hlen.
  destruct (decide (code = 1114111)) as [->|Hne]; [reflexivity|].
  destruct (proj2 (chr_Ok_iff (code + 1))) as [subindex' ->]; [lia|]. cbn.
  rewrite IH by lia. reflexivity.
Qed.

(** The sub-indices of the first sitelinks are the letters. *)
Example chr_letters :
  Py.chr (97 + 0) = Ok "a" /\ Py.chr (97 + 1) = Ok "b" /\ Py.chr (97 + 2) = Ok "c"
  /\ Py.chr (97 + 25) = Ok "z".
Proof. repeat split. Qed.

(** C10: constructing a [Result] with [sitelinks] left to its default
    [None] raises [TypeError].  With an explicit list (of at most
    1114014 sitelinks, the range of [chr]) construction succeeds: the
    table maps the index to the URL and, for the [i]-th sitelink, the
    index followed by [chr(ord('a') + i)] to that sitelink's URL, this
    sub-index being stored in the sitelink; the table has no other key,
    so that an empty list yields the table of the primary entry alone. *)
Theorem Result_init_sitelinks (index : Py.value) (title url abstract : string)
    (metadata : option string) :
  Result.init index title url abstract metadata None = Raise TypeError
  /\ forall sitelinks : list Sitelink.t,
       Z.of_nat (length sitelinks) <= 1114014 ->
       exists r,
         Result.init index title url abstract metadata (Some sitelinks) = Ok r
         /\ Result.index r = Py.str index
         /\ Result.url r = url
         /\ length (Result.sitelinks r) = length sitelinks
         /\ Result.urltable r !! Py.str index = Some url
         /\ (forall (i : nat) sl, sitelinks !! i = Some sl ->
               exists c, Py.chr (97 + Z.of_nat i) = Ok c
                 /\ Result.sitelinks r !! i
                    = Some (Sitelink.set_index (Py.str index ++ c) sl)
                 /\ Result.urltable r !! (Py.str index ++ c) = Some (Sitelink.url sl))
         /\ (forall k, is_Some (Result.urltable r !! k) ->
               k = Py.str index
               \/ exists (i : nat) c, (i < length sitelinks)%nat
                    /\ Py.chr (97 + Z.of_nat i) = Ok c /\ k = Py.str index ++ c)
         /\ (sitelinks = [] -> Result.urltable r = {[ Py.str index := url ]}).
Proof.
  split; [reflexivity|].
  intros sitelinks Hlen. unfold Result.init.
  destruct (assign_subindices_spec sitelinks (Py.str index) "a" 97
              (<[Py.str index := url]> ∅) eq_refl)
    as (sitelinks' & urltable' & Hrun & Hlen' & Hnth & Hother & Hdom); [lia|].
  rewrite Hrun. cbn.
  eexists. split; [reflexivity|]. cbn.
  split; [reflexivity|]. split; [reflexivity|]. split; [exact Hlen'|].
  unfold Result.urltable; cbn.
  split; [|split; [exact Hnth|split]].
  - rewrite Hother; [apply lookup_insert_eq|].
    intros i c _ Hc Heq.
    rewrite <- (append_nil_r (Py.str index)) in Heq at 1.
    apply (inj (String.app (Py.str index))) in Heq.
    now apply (chr_nonempty _ _ Hc).
  - intros k Hk. destruct (Hdom k Hk) as [Hin|Hsub]; [left|now right].
    destruct (decide (k = Py.str index)) as [|Hne]; [assumption|].
    rewrite lookup_insert_ne, lookup_empty in Hin by congruence.
    now destruct Hin.
  - intros ->. cbn in Hrun. injection Hrun as _ <-. reflexivity.
Qed.

(** C10 on a result with two sitelinks. *)
Lemma Result_init_sitelinks_witness :
  Z.of_nat (length two_sitelinks) <= 1114014
  /\ exists r,
       Result.init (Py.VInt 1) "Example" "http://example.com/" "" None
         (Some two_sitelinks) = Ok r
       /\ Result.urltable r !! "1" = Some "http://example.com/"
       /\ Result.urltable r !! "1b" = Some "http://example.com/blog".
Proof.
  split; [vm_compute; discriminate|].
  destruct (proj2 (Result_init_sitelinks (Py.VInt 1) "Example"
                     "http://example.com/" "" None) two_sitelinks)
    as (r & Hr & _ & _ & _ & Hidx & Hsub & _).
  - vm_compute; discriminate.
  - exists r. split; [exact Hr|]. split; [exact Hidx|].
    destruct (Hsub 1%nat _ eq_refl) as (c & Hc & _ & Htab).
    injection Hc as <-. exact Htab.
Defined.

(** ** GoogleParser *)

Lemma bind_Ok {A B} (m : result A) (k : A -> result B) (b : B) :
  m ≫= k = Ok b -> exists a, m = Ok a /\ k a = Ok b.
Proof. destruct m as [a|e]; [eauto | discriminate]. Qed.

(** Case analysis of a handler that returned normally. *)
Ltac handler_cases :=
  repeat match goal with
    | H : _ ≫= _ = Ok _ |- _ =>
        let a := fresh "a" in
        let Ha := fresh "Ha" in
        apply bind_Ok in H; destruct H as (a & Ha & H)
    | H : Raise _ = Ok _ |- _ => discriminate H
    | H : Ok _ = Ok _ |- _ => injection H as H
    | H : (_, _) = (_, _) |- _ => injection H as ? ?
    | H : context [let '(_, _) := ?p in _] |- _ => destruct p
    | H : context [if ?c then _ else _] |- _ => destruct c eqn:?
    | H : context [match ?x with _ => _ end] |- _ => destruct x eqn:?
    end;
  subst.

Section ParserFacts.

Import GoogleParser.

Variable ua : bool.
Variable name2codepoint : string -> option Z.
Variable int : string -> Z -> option Z.

Implicit Types (self : GoogleParser.t) (tag : string) (attrs : attrs_t).

Lemma Result_init_url idx title url abstract metadata sitelinks r :
  Result.init idx title url abstract metadata sitelinks = Ok r -> Result.url r = url.
Proof.
  unfold Result.init. intros H. destruct sitelinks; [|discriminate].
  handler_cases. reflexivity.
Qed.

Ltac start_handler h :=
  intros self tag attrs annotation self' H; unfold h, and_has_class, has_class in H;
  handler_cases; reflexivity.

(** The start handlers leave the list of results alone. *)
Lemma root_start_keeps : keeps_results root_start.
Proof. start_handler root_start. Qed.

Lemma result_start_keeps : keeps_results (result_start ua).
Proof. start_handler result_start. Qed.

Lemma title_start_keeps : keeps_results (title_start ua).
Proof. start_handler title_start. Qed.

Lemma abstract_start_keeps : keeps_results abstract_start.
Proof. start_handler abstract_start. Qed.

Lemma sitelink_table_start_keeps : keeps_results sitelink_table_start.
Proof. start_handler sitelink_table_start. Qed.

Lemma sitelink_start_keeps : keeps_results sitelink_start.
Proof. start_handler sitelink_start. Qed.

Lemma sitelink_title_start_keeps : keeps_results sitelink_title_start.
Proof. start_handler sitelink_title_start. Qed.

Lemma ignore_start_keeps : keeps_results ignore_start.
Proof. start_handler ignore_start. Qed.

Lemma annotate_tag_results context h self tag
    (attrs : list (string * option string)) self' :
  keeps_results h ->
  annotate_tag context h self tag attrs = Ok self' ->
  results self' = results self.
Proof.
  intros Hh H. unfold annotate_tag in H.
  destruct context; handler_cases;
    try reflexivity;
    match goal with
    | H : h _ _ _ = Ok _ |- _ => apply Hh in H; rewrite <- H; reflexivity
    end.
Qed.

Lemma handle_starttag_results self tag
    (attrs : list (string * option string)) self' :
  handle_starttag ua self tag attrs = Ok self' -> results self' = results self.
Proof.
  unfold handle_starttag. intros H.
  destruct (handlers self);
    eapply annotate_tag_results in H;
    eauto using root_start_keeps, result_start_keeps, title_start_keeps,
      abstract_start_keeps, sitelink_table_start_keeps, sitelink_start_keeps,
      sitelink_title_start_keeps, ignore_start_keeps.
Qed.

Ltac end_handler h :=
  intros self tag annotation self' H;
  unfold h, pop_textbuf, set_handlers_to_name in H;
  handler_cases; reflexivity.

(** So do the end handlers other than [result_end]. *)
Lemma root_end_keeps : end_keeps_results root_end.
Proof. end_handler root_end. Qed.

Lemma title_end_keeps : end_keeps_results title_end.
Proof. end_handler title_end. Qed.

Lemma abstract_end_keeps : end_keeps_results abstract_end.
Proof. end_handler abstract_end. Qed.

Lemma sitelink_table_end_keeps : end_keeps_results sitelink_table_end.
Proof. end_handler sitelink_table_end. Qed.

Lemma sitelink_end_keeps : end_keeps_results sitelink_end.
Proof. end_handler sitelink_end. Qed.

Lemma sitelink_title_end_keeps : end_keeps_results sitelink_title_end.
Proof. end_handler sitelink_title_end. Qed.

Lemma ignore_end_keeps : end_keeps_results ignore_end.
Proof. end_handler ignore_end. Qed.

(** [result_end] either leaves the results alone or appends one result,
    whose URL is the non-empty [url] register. *)
Lemma result_end_results self tag annotation self' :
  result_end self tag annotation = Ok self' ->
  results self' = results self
  \/ exists r, results self' = (results self ++ [r])%list
       /\ Result.url r = url self /\ url self <> "".
Proof.
  intros H. unfold result_end, pop_textbuf in H.
  handler_cases; try (left; reflexivity); right;
    match goal with
    | Hinit : Result.init _ _ _ _ _ _ = Ok ?r |- _ =>
        exists r; apply Result_init_url in Hinit; cbn in Hinit
    end;
    (split; [reflexivity|]); (split; [assumption|]);
    match goal with
    | Hurl : negb _ = true |- _ => apply negb_true_iff, String.eqb_neq in Hurl
    end;
    assumption.
Qed.

Lemma end_keeps_preserves h : end_keeps_results h -> preserves_results_have_url h.
Proof.
  intros Hh self tag annotation self' H Hinv.
  unfold results_have_url. now rewrite (Hh _ _ _ _ H).
Qed.

Lemma result_end_preserves : preserves_results_have_url result_end.
Proof.
  intros self tag annotation self' H Hinv. unfold results_have_url in *.
  destruct (result_end_results _ _ _ _ H) as [->|(r & -> & Hr & Hne)];
    [assumption|].
  apply Forall_app. split; [assumption|].
  constructor; [congruence | constructor].
Qed.

Lemma retrieve_tag_annotation_preserves h self tag self' :
  preserves_results_have_url h ->
  retrieve_tag_annotation h self tag = Ok self' ->
  results_have_url self -> results_have_url self'.
Proof.
  intros Hh H Hinv. unfold retrieve_tag_annotation in H.
  destruct (tag_annotations self !! tag) as [[|annotation stack]|];
    [eapply Hh; eauto | | discriminate].
  eapply Hh; [exact H|]. exact Hinv.
Qed.

Lemma handle_endtag_preserves self tag self' :
  handle_endtag self tag = Ok self' ->
  results_have_url self -> results_have_url self'.
Proof.
  unfold handle_endtag. intros H Hinv.
  destruct (handlers self);
    (eapply retrieve_tag_annotation_preserves; [|exact H|exact Hinv]);
    first [ exact result_end_preserves
          | apply end_keeps_preserves;
            first [ exact root_end_keeps | exact title_end_keeps
                  | exact abstract_end_keeps | exact sitelink_table_end_keeps
                  | exact sitelink_end_keeps | exact sitelink_title_end_keeps
                  | exact ignore_end_keeps ] ].
Qed.

Lemma handle_preserves self ev self' :
  handle ua name2codepoint int self ev = Ok self' ->
  results_have_url self -> results_have_url self'.
Proof.
  destruct ev as [tag attrs|tag|data|name|name]; cbn [handle]; intros H Hinv.
  - unfold results_have_url. now rewrite (handle_starttag_results _ _ _ _ H).
  - eauto using handle_endtag_preserves.
  - injection H as <-. unfold handle_data_.
    destruct (handle_data self); exact Hinv.
  - unfold handle_entityref, record_entityref in H.
    handler_cases; exact Hinv.
  - unfold handle_charref, record_charref in H.
    handler_cases; exact Hinv.
Qed.

Lemma feed_preserves events : forall self self',
  feed ua name2codepoint int self events = Ok self' ->
  results_have_url self -> results_have_url self'.
Proof.
  induction events as [|ev events IH]; intros self self' H Hinv; cbn [feed] in H.
  - now injection H as <-.
  - apply bind_Ok in H. destruct H as (self1 & H1 & H).
    eauto using handle_preserves.
Qed.

(** A closing tag whose stack was never created raises [KeyError] in
    every scope; one whose stack exists and is empty changes nothing. *)
Lemma handle_endtag_unopened self tag :
  tag_annotations self !! tag = None ->
  handle_endtag self tag = Raise (KeyError tag).
Proof.
  intros H. unfold handle_endtag, retrieve_tag_annotation.
  rewrite H. now destruct (handlers self).
Qed.

Lemma handle_endtag_empty_stack self tag :
  tag_annotations self !! tag = Some [] ->
  handle_endtag self tag = Ok self.
Proof.
  intros H. unfold handle_endtag, retrieve_tag_annotation.
  rewrite H. now destruct (handlers self).
Qed.

(** *** The ignore scope *)

Lemma feed_app events1 : forall events2 self,
  feed ua name2codepoint int self (events1 ++ events2)%list
  = self1 ← feed ua name2codepoint int self events1;
    feed ua name2codepoint int self1 events2.
Proof.
  induction events1 as [|ev events1 IH]; intros events2 self; [reflexivity|].
  cbn [feed app]. destruct (handle ua name2codepoint int self ev); [|reflexivity].
  cbn. apply IH.
Qed.

Lemma same_but_stacks_refl self : same_but_stacks self self.
Proof. split; [intros tag|]; reflexivity. Qed.

Lemma same_but_stacks_trans s1 s2 s3 :
  same_but_stacks s1 s2 -> same_but_stacks s2 s3 -> same_but_stacks s1 s3.
Proof.
  intros [H12 E12] [H23 E23]. split; [|congruence].
  intros tag. now rewrite H12.
Qed.

Lemma same_but_stacks_handlers s1 s2 :
  same_but_stacks s1 s2 ->
  handlers s1 = handlers s2 /\ handle_data s1 = handle_data s2.
Proof.
  intros [_ E]. split.
  - apply (f_equal handlers) in E. exact E.
  - apply (f_equal handle_data) in E. exact E.
Qed.

(** An induction principle for documents that reaches the children. *)
Lemma node_forall_ind (P : node -> Prop) :
  (forall data, P (Text data)) ->
  (forall tag (attrs : list (string * option string)) children,
     Forall P children -> P (Element tag attrs children)) ->
  forall n, P n.
Proof.
  intros Htext Helem. fix IH 1. intros [data|tag attrs children].
  - apply Htext.
  - apply Helem. induction children as [|c children IHc]; constructor.
    + apply IH.
    + exact IHc.
Qed.

(** In the ignore scope, with text capture off, a subtree only pushes
    and pops its own annotations. *)
Lemma skipped_children children :
  Forall (skipped ua name2codepoint int) children ->
  forall self,
    handlers self = Signore -> handle_data self = ignore_data ->
    exists self',
      feed ua name2codepoint int self (flat_map events_of children) = Ok self'
      /\ same_but_stacks self' self.
Proof.
  induction 1 as [|c children Hc _ IH]; intros self Hscope Hdata.
  - exists self. split; [reflexivity | apply same_but_stacks_refl].
  - cbn [flat_map]. rewrite feed_app.
    destruct (Hc self Hscope Hdata) as (self1 & -> & Hsame1). cbn.
    destruct (same_but_stacks_handlers _ _ Hsame1) as [Hh Hd].
    destruct (IH self1) as (self2 & -> & Hsame2); [congruence | congruence |].
    exists self2. split; [reflexivity|].
    eauto using same_but_stacks_trans.
Qed.

(** A closing tag in the ignore scope whose stack has [None] on top. *)
Lemma ignore_end_pops self tag stack :
  handlers self = Signore ->
  tag_annotations self !! tag = Some (None :: stack) ->
  handle_endtag self tag
  = Ok (set_tag_annotations (<[tag := stack]> (tag_annotations self)) self).
Proof.
  intros Hscope Hstack. unfold handle_endtag, retrieve_tag_annotation.
  now rewrite Hscope, Hstack.
Qed.

Lemma same_but_stacks_set_handlers sc s1 s2 :
  same_but_stacks s1 s2 ->
  same_but_stacks (set_handlers_to sc s1) (set_handlers_to sc s2).
Proof.
  intros [Hstacks Hrest]. split; [exact Hstacks|].
  apply (f_equal (set_handlers_to sc)) in Hrest. exact Hrest.
Qed.

(** After a subtree that left the stacks as they were, the annotation
    pushed before it is on top, and popping it restores the stacks. *)
Lemma same_stacks_pop self0 self2 tag (annotation : option string) :
  same_but_stacks self2 (insert_annotation tag annotation self0) ->
  tag_annotations self2 !! tag
    = Some (annotation :: default [] (tag_annotations self0 !! tag))
  /\ same_but_stacks
       (set_tag_annotations
          (<[tag := default [] (tag_annotations self0 !! tag)]>
             (tag_annotations self2)) self2)
       self0.
Proof.
  intros [Hstacks Hrest].
  assert (Htop : default [] (tag_annotations self2 !! tag)
                 = annotation :: default [] (tag_annotations self0 !! tag)).
  { rewrite Hstacks. unfold insert_annotation. cbn.
    now rewrite lookup_insert_eq. }
  split.
  - destruct (tag_annotations self2 !! tag); [now cbn in Htop; subst | discriminate].
  - split.
    + intros tag'. cbn. destruct (decide (tag = tag')) as [->|Hne].
      * now rewrite lookup_insert_eq.
      * rewrite lookup_insert_ne by assumption. rewrite Hstacks.
        unfold insert_annotation. cbn. now rewrite lookup_insert_ne.
    + exact Hrest.
Qed.

Lemma node_skipped (n : node) : skipped ua name2codepoint int n.
Proof.
  induction n as [data|tag attrs children IH] using node_forall_ind;
    intros self Hscope Hdata.
  - exists self. split; [|apply same_but_stacks_refl].
    cbn. unfold handle_data_. now rewrite Hdata.
  - cbn [events_of feed handle]. unfold handle_starttag. rewrite Hscope.
    cbn [annotate_tag]. cbn [mbind result_bind]. rewrite feed_app.
    destruct (skipped_children children IH (insert_annotation tag None self))
      as (self2 & -> & Hsame); [exact Hscope | exact Hdata |].
    cbn [mbind result_bind feed handle].
    destruct (same_but_stacks_handlers _ _ Hsame) as [Hh _].
    destruct (same_stacks_pop _ _ _ _ Hsame) as [Htop Hpop].
    rewrite (ignore_end_pops self2 tag _ (eq_trans Hh Hscope) Htop).
    cbn [mbind result_bind]. eexists. split; [reflexivity | exact Hpop].
Qed.

Lemma ignored_annotation_restores (sc : scope) (self : t) :
  ignore_end self "div" (Some (scope_name sc ++ "_ignored"))
  = Ok (set_handlers_to sc self).
Proof. destruct sc; reflexivity. Qed.

Lemma selector_passes_tag (sel : selector) (keys : list string) tag attrs :
  selector_passes sel ("tag" :: keys) tag attrs
  = if negb (bool_decide (Some tag = selector_get sel "tag")) then Ok false
    else selector_passes sel keys tag attrs.
Proof. reflexivity. Qed.

(** The selectors of the ignore list only match [div] tags. *)
Lemma ignore_list_matches_div tag attrs :
  ignore_list_matches IGNORE_LIST tag attrs = Ok true -> tag = "div".
Proof.
  destruct (String.eqb_spec tag "div") as [->|Hne]; [reflexivity|].
  intros H. exfalso.
  assert (Hsel : forall c,
             selector_passes [("tag", "div"); ("class", c)] ["tag"; "class"] tag attrs
             = Ok false).
  { intros c. rewrite selector_passes_tag.
    change (selector_get [("tag", "div"); ("class", c)] "tag") with (Some "div").
    rewrite bool_decide_eq_false_2 by congruence. reflexivity. }
  unfold ignore_list_matches, IGNORE_LIST in H.
  change (map fst [("tag", "div"); ("class", "related-question-pair")])
    with ["tag"; "class"] in H.
  change (map fst [("tag", "div"); ("class", "g-blk")]) with ["tag"; "class"] in H.
  change (map fst [("tag", "div"); ("class", "hp-xpdbox")]) with ["tag"; "class"] in H.
  rewrite !Hsel in H. discriminate H.
Qed.

(** An ignore-listed element met outside the ignore scope while no text
    is being captured is skipped as a whole: the parser is left as it
    was, up to annotation stacks that are empty instead of missing. *)
Lemma ignored_element_skipped self tag
    (attrs : list (string * option string)) children :
  handlers self <> Signore ->
  handle_data self = ignore_data ->
  ignore_listed (Element tag attrs children) = true ->
  exists self',
    feed ua name2codepoint int self (events_of (Element tag attrs children))
    = Ok self'
    /\ same_but_stacks self' self.
Proof.
  intros Hscope Hdata Hlisted. unfold ignore_listed in Hlisted.
  destruct (ignore_list_matches IGNORE_LIST tag (dict attrs)) as [b|e] eqn:Hmatch;
    [subst b | discriminate].
  assert (Htag : tag = "div") by eauto using ignore_list_matches_div.
  subst tag.
  assert (Hstart : handle_starttag ua self "div" attrs
                   = Ok (set_handlers_to Signore
                           (insert_annotation "div"
                              (Some (scope_name (handlers self) ++ "_ignored")) self))).
  { unfold handle_starttag, annotate_tag.
    destruct (handlers self); try contradiction; now rewrite Hmatch. }
  cbn [events_of feed handle]. rewrite Hstart. cbn [mbind result_bind].
  rewrite feed_app.
  set (self1 := set_handlers_to Signore
                  (insert_annotation "div"
                     (Some (scope_name (handlers self) ++ "_ignored")) self)).
  destruct (skipped_children children
              (proj2 (Forall_forall _ _) (fun n _ => node_skipped n)) self1)
    as (self2 & -> & Hsame); [reflexivity | exact Hdata |].
  cbn [mbind result_bind feed handle].
  destruct (same_but_stacks_handlers _ _ Hsame) as [Hh _].
  assert (Hsame' : same_but_stacks self2
                     (insert_annotation "div"
                        (Some (scope_name (handlers self) ++ "_ignored"))
                        (set_handlers_to Signore self)))
    by exact Hsame.
  destruct (same_stacks_pop _ _ _ _ Hsame') as [Htop Hpop].
  unfold handle_endtag, retrieve_tag_annotation.
  rewrite Hh. cbn [handlers self1 set_handlers_to set_handlers].
  change (tag_annotations (set_handlers_to Signore self))
    with (tag_annotations self) in Htop, Hpop.
  rewrite Htop, ignored_annotation_restores. cbn [mbind result_bind].
  eexists. split; [reflexivity|].
  apply (same_but_stacks_set_handlers (handlers self)) in Hpop.
  eapply same_but_stacks_trans; [exact Hpop|].
  split; [intros tag'; reflexivity|]. now destruct self.
Qed.

(** A result container that ends with an empty [url] register appends
    nothing. *)
Lemma result_end_without_url self tag :
  url self = "" ->
  result_end self tag (Some "result") = Ok (set_handlers_to Sroot self).
Proof. intros H. unfold result_end. cbn. now rewrite H. Qed.

End ParserFacts.

(** *** The URL register *)

Section ParserUrl.

Import GoogleParser.

Variable ua : bool.
Variable name2codepoint : string -> option Z.
Variable int : string -> Z -> option Z.

Implicit Types (self : GoogleParser.t) (tag : string) (attrs : attrs_t).

Ltac start_url h :=
  intros self tag attrs annotation self' H; unfold h, and_has_class, has_class in H;
  handler_cases; first [left; reflexivity | right; reflexivity].

Ltac end_url h :=
  intros self tag annotation self' H;
  unfold h, pop_textbuf, set_handlers_to_name in H;
  handler_cases; reflexivity.

Lemma root_start_url : start_keeps_url root_start.
Proof. start_url root_start. Qed.

Lemma result_start_url : start_keeps_url (result_start ua).
Proof. start_url result_start. Qed.

Lemma abstract_start_url : start_keeps_url abstract_start.
Proof. start_url abstract_start. Qed.

Lemma sitelink_table_start_url : start_keeps_url sitelink_table_start.
Proof. start_url sitelink_table_start. Qed.

Lemma sitelink_start_url : start_keeps_url sitelink_start.
Proof. start_url sitelink_start. Qed.

Lemma sitelink_title_start_url : start_keeps_url sitelink_title_start.
Proof. start_url sitelink_title_start. Qed.

Lemma ignore_start_url : start_keeps_url ignore_start.
Proof. start_url ignore_start. Qed.

(** [title_start] assigns the register in its link branch only. *)
Lemma title_start_url self tag attrs annotation self' :
  title_start ua self tag attrs = Ok (annotation, self') ->
  url self' = url self
  \/ (tag = "a" /\ exists href, attrs !! "href" = Some (Some href)
                                /\ Py.startswith href "/search" = false).
Proof.
  intros H. unfold title_start in H.
  destruct (ua && String.eqb tag "span"); [injection H as <- <-; now left|].
  destruct (String.eqb_spec tag "a") as [->|Hne];
    [|injection H as <- <-; now left].
  destruct (attrs !! "href") as [[href|]|] eqn:Hhref;
    [|discriminate H|injection H as <- <-; now left].
  destruct (Py.startswith href "/search") eqn:Hs;
    [injection H as <- <-; now left|].
  right. eauto.
Qed.

Lemma root_end_url : end_keeps_url root_end.
Proof. end_url root_end. Qed.

Lemma result_end_url : end_keeps_url result_end.
Proof. end_url result_end. Qed.

Lemma title_end_url : end_keeps_url title_end.
Proof. end_url title_end. Qed.

Lemma abstract_end_url : end_keeps_url abstract_end.
Proof. end_url abstract_end. Qed.

Lemma sitelink_table_end_url : end_keeps_url sitelink_table_end.
Proof. end_url sitelink_table_end. Qed.

Lemma sitelink_end_url : end_keeps_url sitelink_end.
Proof. end_url sitelink_end. Qed.

Lemma sitelink_title_end_url : end_keeps_url sitelink_title_end.
Proof. end_url sitelink_title_end. Qed.

Lemma ignore_end_url : end_keeps_url ignore_end.
Proof. end_url ignore_end. Qed.

Lemma annotate_tag_url context h self tag
    (attrs : list (string * option string)) self' :
  start_keeps_url h ->
  annotate_tag context h self tag attrs = Ok self' ->
  url self = "" -> url self' = "".
Proof.
  intros Hh H Hurl. unfold annotate_tag in H.
  destruct context; handler_cases; try exact Hurl;
    match goal with
    | H : h _ _ _ = Ok (_, ?s1) |- _ =>
        apply Hh in H; change (url s1 = ""); destruct H; congruence
    end.
Qed.

(** A start tag that captures no URL leaves an empty register empty. *)
Lemma handle_starttag_url self tag (attrs : list (string * option string)) self' :
  handle_starttag ua self tag attrs = Ok self' ->
  captures_url self (StartTag tag attrs) = false ->
  url self = "" -> url self' = "".
Proof.
  unfold handle_starttag, captures_url. intros H Hcap Hurl.
  destruct (handlers self);
    try (eapply annotate_tag_url; [|exact H|exact Hurl];
         first [ exact root_start_url | exact result_start_url
               | exact abstract_start_url | exact sitelink_table_start_url
               | exact sitelink_start_url | exact sitelink_title_start_url
               | exact ignore_start_url ]).
  unfold annotate_tag in H. apply bind_Ok in H. destruct H as ([|] & _ & H).
  { injection H as <-. exact Hurl. }
  apply bind_Ok in H. destruct H as ([annotation self1] & Hstart & H).
  injection H as <-. change (url self1 = "").
  destruct (title_start_url _ _ _ _ _ Hstart) as [->|(-> & href & Hhref & Hs)];
    [exact Hurl|].
  rewrite Hhref, Hs in Hcap. discriminate Hcap.
Qed.

(** With an empty register, an end tag registers no result. *)
Lemma handle_endtag_url self tag self' :
  handle_endtag self tag = Ok self' ->
  url self = "" -> url self' = "" /\ results self' = results self.
Proof.
  unfold handle_endtag, retrieve_tag_annotation. intros H Hurl.
  assert (Hgen : forall (h : t -> string -> option string -> result t) s0 annotation,
             end_keeps_url h ->
             (end_keeps_results h
              \/ forall s1, h s0 tag annotation = Ok s1 ->
                            results s1 = results s0 \/ url s0 <> "") ->
             url s0 = "" -> h s0 tag annotation = Ok self' ->
             url self' = "" /\ results self' = results s0).
  { intros h s0 annotation Hu Hr Hs0 Hrun. split.
    - rewrite (Hu _ _ _ _ Hrun). exact Hs0.
    - destruct Hr as [Hr|Hr]; [exact (Hr _ _ _ _ Hrun)|].
      destruct (Hr _ Hrun) as [Hsame|Hne]; [exact Hsame | contradiction]. }
  assert (Hres : forall s0 annotation s1,
             result_end s0 tag annotation = Ok s1 ->
             results s1 = results s0 \/ url s0 <> "").
  { intros s0 annotation s1 Hrun.
    destruct (result_end_results _ _ _ _ Hrun) as [Hsame|(r & _ & _ & Hne)];
      [now left | now right]. }
  destruct (tag_annotations self !! tag) as [[|annotation stack]|];
    [| |now destruct (handlers self)];
    destruct (handlers self);
    (eapply Hgen in H; [exact H| | |exact Hurl]);
    first [ exact root_end_url | exact result_end_url | exact title_end_url
          | exact abstract_end_url | exact sitelink_table_end_url
          | exact sitelink_end_url | exact sitelink_title_end_url
          | exact ignore_end_url
          | left; first [ exact root_end_keeps | exact title_end_keeps
                        | exact abstract_end_keeps | exact sitelink_table_end_keeps
                        | exact sitelink_end_keeps | exact sitelink_title_end_keeps
                        | exact ignore_end_keeps ]
          | right; intros s1 Hs1; eapply Hres; exact Hs1 ].
Qed.

Lemma handle_url self ev self' :
  handle ua name2codepoint int self ev = Ok self' ->
  captures_url self ev = false ->
  url self = "" -> url self' = "" /\ results self' = results self.
Proof.
  destruct ev as [tag attrs|tag|data|name|name]; cbn [handle]; intros H Hcap Hurl.
  - split; [eauto using handle_starttag_url|].
    eapply handle_starttag_results; eauto.
  - eauto using handle_endtag_url.
  - injection H as <-. unfold handle_data_.
    destruct (handle_data self); auto.
  - unfold handle_entityref, record_entityref in H.
    handler_cases; auto.
  - unfold handle_charref, record_charref in H.
    handler_cases; auto.
Qed.

(** While no URL is captured, an empty register stays empty and no
    result is registered. *)
Lemma feed_without_capture events : forall self self',
  feed ua name2codepoint int self events = Ok self' ->
  captured_in ua name2codepoint int self events = false ->
  url self = "" -> url self' = "" /\ results self' = results self.
Proof.
  induction events as [|ev events IH]; intros self self' H Hcap Hurl;
    cbn [feed captured_in] in H, Hcap.
  - injection H as <-. auto.
  - apply bind_Ok in H. destruct H as (self1 & H1 & H).
    apply orb_false_iff in Hcap. destruct Hcap as (Hcap1 & Hcap).
    rewrite H1 in Hcap.
    destruct (handle_url _ _ _ H1 Hcap1 Hurl) as (Hurl1 & Hres1).
    destruct (IH _ _ H Hcap Hurl1) as (Hurl' & Hres').
    split; [exact Hurl' | congruence].
Qed.

(** A result container met in the root scope: its start tag clears the
    register, whatever an earlier container left in it. *)
Lemma container_start self (attrs : list (string * option string)) :
  handlers self = Sroot ->
  has_class "g" (dict attrs) = Ok true ->
  ignore_list_matches IGNORE_LIST "div" (dict attrs) = Ok false ->
  exists self1,
    handle_starttag ua self "div" attrs = Ok self1
    /\ url self1 = "" /\ results self1 = results self.
Proof.
  intros Hscope Hclass Hignore.
  unfold handle_starttag, annotate_tag. rewrite Hscope, Hignore.
  cbn [mbind result_bind]. unfold root_start, and_has_class.
  change (String.eqb "div" "div") with true. cbv iota. rewrite Hclass.
  cbn [mbind result_bind]. eexists. split; [reflexivity|]. split; reflexivity.
Qed.

Lemma container_without_capture self (attrs : list (string * option string))
    children self' :
  handlers self = Sroot ->
  has_class "g" (dict attrs) = Ok true ->
  ignore_list_matches IGNORE_LIST "div" (dict attrs) = Ok false ->
  feed ua name2codepoint int self (events_of (Element "div" attrs children))
  = Ok self' ->
  captured_in ua name2codepoint int self (events_of (Element "div" attrs children))
  = false ->
  results self' = results self.
Proof.
  intros Hscope Hclass Hignore H Hcap.
  destruct (container_start self attrs Hscope Hclass Hignore)
    as (self1 & Hstart & Hurl1 & Hres1).
  cbn [events_of feed captured_in handle] in H, Hcap.
  rewrite Hstart in H, Hcap. cbn [mbind result_bind] in H.
  apply orb_false_iff in Hcap. destruct Hcap as (_ & Hcap).
  destruct (feed_without_capture _ _ _ H Hcap Hurl1) as (_ & Hres).
  congruence.
Qed.

End ParserUrl.

(** C6: whatever the events of the document, every [Result] of the list
    that the parser returns carries a non-empty URL; and a result
    container, met in the root scope, inside which no URL is captured
    adds no entry to the list, whatever an earlier container left in the
    parser. *)
Theorem parsed_results_have_url (ua : bool) (name2codepoint : string -> option Z)
    (int : string -> Z -> option Z) (news : bool)
    (events : list GoogleParser.event) (results : list Result.t) :
  (GoogleParser.parse ua name2codepoint int news events = Ok results ->
   Forall (fun r => Result.url r <> "") results)
  /\ forall (self : GoogleParser.t) (attrs : list (string * option string))
       (children : list node) (self' : GoogleParser.t),
       GoogleParser.handlers self = GoogleParser.Sroot ->
       GoogleParser.has_class "g" (GoogleParser.dict attrs) = Ok true ->
       GoogleParser.ignore_list_matches GoogleParser.IGNORE_LIST "div"
         (GoogleParser.dict attrs) = Ok false ->
       GoogleParser.feed ua name2codepoint int self
         (events_of (Element "div" attrs children)) = Ok self' ->
       captured_in ua name2codepoint int self
         (events_of (Element "div" attrs children)) = false ->
       GoogleParser.results self' = GoogleParser.results self.
Proof.
  split.
  - unfold GoogleParser.parse. intros H.
    apply bind_Ok in H. destruct H as (self & Hfeed & H). injection H as <-.
    apply (feed_preserves _ _ _ _ _ _ Hfeed). constructor.
  - intros self attrs children self'.
    apply container_without_capture.
Qed.

(** C6 on the minimal document, and on a container that holds only an
    ignored subtree, met after the minimal document has left its URL in
    the register. *)
Lemma parsed_results_have_url_witness :
  (GoogleParser.parse true (fun _ => None) (fun _ _ => None) false
     (events_of minimal_document) = Ok [minimal_result]
   /\ Forall (fun r => Result.url r <> "") [minimal_result])
  /\ GoogleParser.url (parser_after true false [minimal_document])
     = "http://example.com/x"
  /\ exists self',
       GoogleParser.feed true (fun _ => None) (fun _ _ => None)
         (parser_after true false [minimal_document])
         (events_of container_without_url) = Ok self'
       /\ GoogleParser.results self' = [minimal_result].
Proof.
  destruct (parsed_results_have_url true (fun _ => None) (fun _ _ => None) false
              (events_of minimal_document) [minimal_result]) as (Hfirst & Hsecond).
  split; [|split].
  - split; [vm_compute; reflexivity|]. apply Hfirst. vm_compute; reflexivity.
  - vm_compute. reflexivity.
  - destruct (GoogleParser.feed true (fun _ => None) (fun _ _ => None)
                (parser_after true false [minimal_document])
                (events_of container_without_url)) as [self'|e] eqn:Hrun.
    + exists self'. split; [reflexivity|].
      change [minimal_result]
        with (GoogleParser.results (parser_after true false [minimal_document])).
      apply (Hsecond (parser_after true false [minimal_document]) (class "g")
               [ Element "div" (class "g-blk")
                   [ Element "h3" (class "r")
                       [ Element "a" [("href", Some "http://example.com/")]
                           [Text "Example"] ] ] ] self').
      * vm_compute. reflexivity.
      * vm_compute. reflexivity.
      * vm_compute. reflexivity.
      * exact Hrun.
      * vm_compute. reflexivity.
    + vm_compute in Hrun. discriminate Hrun.
Defined.

(** A container that matches the result selector and holds only an
    ignored subtree yields no result. *)
Example container_without_url_yields_nothing (ua news : bool)
    (name2codepoint : string -> option Z) (int : string -> Z -> option Z) :
  GoogleParser.parse ua name2codepoint int news (events_of container_without_url)
  = Ok [].
Proof. destruct ua, news; vm_compute; reflexivity. Qed.

(** C1: the markup [</div>], whose closing tag has no opening tag before
    it, makes [feed] raise [KeyError] to its caller, whatever the mode of
    the parser. *)
Theorem feed_unopened_closing_tag_raises (ua news : bool)
    (name2codepoint : string -> option Z) (int : string -> Z -> option Z) :
  GoogleParser.feed ua name2codepoint int (GoogleParser.init news)
    [GoogleParser.EndTag "div"]
  = Raise (KeyError "div").
Proof. reflexivity. Qed.

(** C5: the minimal document parses to exactly one [Result], with the
    unwrapped and decoded URL, the title, the abstract and no sitelinks,
    with and without the user agent and in both result modes. *)
Theorem minimal_document_parses (ua news : bool)
    (name2codepoint : string -> option Z) (int : string -> Z -> option Z) :
  GoogleParser.parse ua name2codepoint int news (events_of minimal_document)
  = Ok [minimal_result]
  /\ Result.url minimal_result = "http://example.com/x"
  /\ Result.title minimal_result = "Example"
  /\ Result.abstract minimal_result = "An example site."
  /\ Result.sitelinks minimal_result = [].
Proof.
  split; [destruct ua, news; vm_compute; reflexivity|]. repeat split.
Qed.

(** C4: with an ignore-listed container inside the abstract of a result,
    the text of the ignored subtree is appended to the abstract, whereas
    the document without that subtree gives the abstract alone. *)
Theorem ignored_subtree_text_is_captured (ua : bool)
    (name2codepoint : string -> option Z) (int : string -> Z -> option Z) :
  prune document_with_ignored
    = result_container "http://example.com/" "Example" "An example site." []
  /\ GoogleParser.parse ua name2codepoint int false
       (events_of document_with_ignored)
     = Ok [example_result "An example site.junk"]
  /\ GoogleParser.parse ua name2codepoint int false
       (events_of (prune document_with_ignored))
     = Ok [example_result "An example site."]
  /\ GoogleParser.parse ua name2codepoint int false
       (events_of document_with_ignored)
     <> GoogleParser.parse ua name2codepoint int false
          (events_of (prune document_with_ignored)).
Proof.
  assert (H1 : GoogleParser.parse ua name2codepoint int false
                 (events_of document_with_ignored)
               = Ok [example_result "An example site.junk"])
    by (destruct ua; vm_compute; reflexivity).
  assert (H2 : GoogleParser.parse ua name2codepoint int false
                 (events_of (prune document_with_ignored))
               = Ok [example_result "An example site."])
    by (destruct ua; vm_compute; reflexivity).
  split; [vm_compute; reflexivity|]. split; [exact H1|]. split; [exact H2|].
  rewrite H1, H2. intros Heq. inversion Heq.
Qed.

(** The same happens in the layout of Google News, where the ignored
    container is a [div] inside the [div] of the abstract. *)
Example news_abstract_captures_ignored_text (ua : bool)
    (name2codepoint : string -> option Z) (int : string -> Z -> option Z) :
  GoogleParser.parse ua name2codepoint int true
    (events_of news_document_with_ignored)
  = Ok [example_result "An example site.junk"]
  /\ GoogleParser.parse ua name2codepoint int true
       (events_of (prune news_document_with_ignored))
     = Ok [example_result "An example site."].
Proof. split; destruct ua; vm_compute; reflexivity. Qed.

(** ** GoogleConnection *)

Section ConnectionFacts.

Import GoogleConnection.

Variable ua : bool.
Variable net : network.
Variable netloc : string -> string.
Variable relurl : string -> string.

Implicit Types (s : GoogleConnection.t) (url : string).

(** Unfolds the primitive operations of a method applied to a state. *)
Ltac run_in H :=
  repeat progress
    (unfold bind, try_except, library, get, log, set_host_port, set_conn,
       set_cookie_attr, set_resp, tick_get, tick_connect, modify, ret, raise in H;
     cbn in H).

Lemma new_connection_spec host port s r s' :
  new_connection net host port s = (r, s') ->
  n_get s' = n_get s /\ _resp s' = _resp s /\ cookie s' = cookie s
  /\ (n_connect s <= n_connect s' <= S (n_connect s))%nat.
Proof.
  unfold new_connection, connect. intros H. run_in H.
  repeat match type of H with
    | context [library_error net ?c] =>
        destruct (library_error net c) eqn:?; cbn in H
    | context [if ?c then _ else _] => destruct c eqn:?; cbn in H
    | context [match ?x with _ => _ end] => destruct x eqn:?; cbn in H
    end;
    injection H as <- <-; cbn; repeat split; first [reflexivity | lia].
Qed.

(** One GET: the counter advances, and the response, when there is one,
    is stored; the cookie is only assigned while it is empty. *)
Lemma raw_get_spec url s r s' :
  _raw_get ua net url s = (r, s') ->
  n_get s' = S (n_get s) /\ n_connect s' = n_connect s /\ _host s' = _host s
  /\ _port s' = _port s /\ _proxy s' = _proxy s
  /\ trace s' = (trace s ++ [Get url (if ua then USER_AGENT else "") (cookie s)])%list
  /\ match get_outcome net (n_get s) with
     | Ok resp =>
         r = Ok tt /\ _resp s' = Some resp
         /\ cookie s' =
              if String.eqb (cookie s) "" then
                match set_cookie resp with
                | Some complete_cookie =>
                    Py.slice_to complete_cookie (Py.find_char ";" complete_cookie)
                | None => cookie s
                end
              else cookie s
     | Raise e => r = Raise e /\ _resp s' = _resp s /\ cookie s' = cookie s
     end.
Proof.
  unfold _raw_get. intros H. run_in H.
  destruct (get_outcome net (n_get s)) as [resp|e]; cbn in H.
  - destruct (String.eqb (cookie s) "") eqn:Hc; [destruct (set_cookie resp)|];
      cbn in H; injection H as <- <-; cbn; rewrite ?Hc; repeat split;
      apply String.eqb_eq in Hc; congruence.
  - injection H as <- <-. cbn. repeat split.
Qed.

Local Arguments _raw_get : simpl never.
Local Arguments new_connection : simpl never.
Local Arguments _redirect : simpl never.

(** Following one redirect: either the reconnection fails and no GET is
    sent, or exactly one GET is sent. *)
Lemma redirect_spec url s r s' :
  _redirect ua net netloc relurl url s = (r, s') ->
  (n_get s' = n_get s /\ exists e, r = Raise e)
  \/ (n_get s' = S (n_get s)
      /\ match get_outcome net (n_get s) with
         | Ok resp => r = Ok tt /\ _resp s' = Some resp
         | Raise e => exists e', r = Raise e'
         end).
Proof.
  unfold _redirect. unfold bind at 1, library. intros H.
  destruct (library_error net (Urlparse url)) as [e0|].
  { injection H as <- <-. left. eauto. }
  unfold bind at 1 2, get, try_except, raise in H. cbn in H.
  destruct (bool_decide (Some (netloc url) = _host s)).
  - cbn in H. destruct (_raw_get ua net (relurl url) s) as [r1 s1] eqn:Hget.
    apply raw_get_spec in Hget.
    destruct Hget as (Hn & _ & _ & _ & _ & _ & Hout). right. 
    destruct r1 as [[]|e], (get_outcome net (n_get s)) as [resp|e'];
      repeat match type of H with
        | context [if ?c then _ else _] => destruct c
        end;
      injection H as <- <-; split; try assumption;
      destruct Hout as (Hr & Hresp & _); try discriminate; eauto.
  - destruct (new_connection net (Some (netloc url)) None s) as [r0 s0] eqn:Hnew.
    apply new_connection_spec in Hnew. destruct Hnew as (Hn0 & _).
    destruct r0 as [[]|e0].
    + destruct (_raw_get ua net (relurl url) s0) as [r1 s1] eqn:Hget.
      apply raw_get_spec in Hget.
      destruct Hget as (Hn & _ & _ & _ & _ & _ & Hout). right.
      rewrite Hn0 in *.
      destruct r1 as [[]|e], (get_outcome net (n_get s)) as [resp|e'];
        repeat match type of H with
          | context [if ?c then _ else _] => destruct c
          end;
        injection H as <- <-; split; try assumption;
        destruct Hout as (Hr & Hresp & _); try discriminate; eauto.
    + injection H as <- <-. left. eauto.
Qed.

Lemma redirect_status_not_200 (st : Z) :
  is_redirect_status st = true -> (st =? 200) = false.
Proof.
  unfold is_redirect_status. intros H.
  destruct (Z.eqb_spec st 200) as [->|]; [discriminate | reflexivity].
Qed.

(** The redirect loop, entered on the response to GET number [g] with
    [budget] redirects still allowed: if one of the responses to the GETs
    [g .. g + budget - 1] is received and is a blocked redirect, the loop
    raises the blocked error and that GET is the last one sent. *)
Lemma redirect_loop_blocked (budget : nat) :
  forall (resp : response) s r s' (g : nat),
    redirect_loop ua net netloc relurl budget resp s = (r, s') ->
    n_get s = S g ->
    get_outcome net g = Ok resp ->
    forall (i : nat) respi,
      (g <= i < g + budget)%nat ->
      (i < n_get s')%nat ->
      get_outcome net i = Ok respi ->
      blocked_redirect respi = true ->
      r = Raise (GoogleConnectionError blocked_message) /\ n_get s' = S i.
Proof.
  induction budget as [|budget IH];
    intros resp s r s' g Hrun Hg Hresp i respi Hi Hrecv Hrespi Hblocked;
    [lia|].
  cbn [redirect_loop] in Hrun.
  assert (Hhere : i = g -> blocked_redirect resp = true).
  { intros ->. rewrite Hresp in Hrespi. now injection Hrespi as ->. }
  unfold blocked_redirect in Hhere.
  destruct (status resp =? 200) eqn:H200.
  { injection Hrun as <- <-. assert (i = g) as Hig by lia.
    apply Hhere, andb_true_iff in Hig. destruct Hig as [Hig _].
    apply redirect_status_not_200 in Hig. congruence. }
  destruct (is_redirect_status (status resp)) eqn:Hredir.
  2:{ injection Hrun as <- <-. assert (i = g) as Hig by lia.
      apply Hhere in Hig. discriminate. }
  destruct (is_blocked_url (default "" (location resp))) eqn:Hurl.
  { injection Hrun as <- <-. split; [reflexivity|]. lia. }
  assert (Hne : i <> g) by (intros Hig; apply Hhere in Hig; discriminate).
  unfold bind at 1 in Hrun.
  destruct (_redirect ua net netloc relurl (default "" (location resp)) s)
    as [r1 s1] eqn:Hred.
  apply redirect_spec in Hred.
  destruct Hred as [(Hn1 & e & ->)|(Hn1 & Hout)].
  { injection Hrun as <- <-. lia. }
  rewrite Hg in Hout.
  destruct (get_outcome net (S g)) as [resp1|e1] eqn:Hresp1.
  - destruct Hout as (-> & Hstored).
    unfold bind at 1, current_resp, bind at 1, get in Hrun. cbn in Hrun.
    rewrite Hstored in Hrun. cbn in Hrun.
    rewrite Hg in Hn1.
    apply (IH resp1 s1 r s' (S g) Hrun Hn1 Hresp1 i respi); try assumption; lia.
  - destruct Hout as (e' & ->). injection Hrun as <- <-.
    assert (i = S g) as -> by lia. congruence.
Qed.

(** Renewing the connection of a connected client succeeds when the
    library accepts the host and the network accepts the connection: one
    more connection attempt, no GET. *)
Lemma renew_connection_ok s h :
  _host s = Some h ->
  setup_error net (_proxy s) h (_port s) = None ->
  connect_outcome net (n_connect s) = None ->
  exists s', renew_connection net s = (Ok tt, s')
    /\ n_get s' = n_get s /\ n_connect s' = S (n_connect s)
    /\ _host s' = _host s /\ cookie s' = cookie s.
Proof.
  intros Hh Hset Hc. unfold setup_error in Hset.
  unfold renew_connection, new_connection, connect.
  unfold bind, try_except, library, get, log, set_host_port, set_conn,
    set_cookie_attr, set_resp, tick_get, tick_connect, modify, ret, raise. cbn.
  destruct (_conn s); cbn; rewrite Hh; cbn;
    destruct (_port s) as [p|]; [destruct (p =? 0)| |destruct (p =? 0)|];
    destruct (falsy (_proxy s)); cbn in Hset |- *;
    repeat match type of Hset with
      | context [library_error net ?c] =>
          destruct (library_error net c) eqn:?; try discriminate Hset
      end;
    cbn; rewrite ?Hset; cbn; rewrite Hc;
    eexists; (split; [reflexivity|]); cbn; auto.
Qed.

(** When the library refuses the host, renewing the connection raises
    what the library raised, without a connection attempt. *)
Lemma renew_connection_refused s h e :
  _host s = Some h ->
  setup_error net (_proxy s) h (_port s) = Some e ->
  exists s', renew_connection net s = (Raise e, s')
    /\ n_get s' = n_get s /\ n_connect s' = n_connect s.
Proof.
  intros Hh Hset. unfold setup_error in Hset.
  unfold renew_connection, new_connection, connect.
  unfold bind, try_except, library, get, log, set_host_port, set_conn,
    set_cookie_attr, set_resp, tick_get, tick_connect, modify, ret, raise. cbn.
  destruct (_conn s); cbn; rewrite Hh; cbn;
    destruct (_port s) as [p|]; [destruct (p =? 0)| |destruct (p =? 0)|];
    destruct (falsy (_proxy s)); cbn in Hset |- *;
    repeat match type of Hset with
      | context [library_error net ?c] =>
          destruct (library_error net c) eqn:?; try discriminate Hset
      end;
    cbn; rewrite ?Hset; cbn;
    try (injection Hset as ->);
    eexists; (split; [reflexivity|]); cbn; auto.
Qed.

(** When the first GET and the retry both fail, [fetch_page] has sent
    two GETs and reconnected once; the exception of the retry is turned
    into [GoogleConnectionError] only when it is an [HTTPException].
    When the library refuses the host of the connection, the
    reconnection raises instead, and the one GET sent is the first. *)
Lemma fetch_page_second_failure url s h e1 e2 :
  get_outcome net (n_get s) = Raise e1 ->
  is_HTTPException e1 || is_OSError e1 = true ->
  _host s = Some h ->
  connect_outcome net (n_connect s) = None ->
  get_outcome net (S (n_get s)) = Raise e2 ->
  match setup_error net (_proxy s) h (_port s) with
  | None =>
      exists s',
        fetch_page ua net netloc relurl url s
        = (Raise (if is_HTTPException e2
                  then GoogleConnectionError ("Failed to get '" ++ url ++ "'.")
                  else e2), s')
        /\ n_get s' = S (S (n_get s)) /\ n_connect s' = S (n_connect s)
  | Some e =>
      exists s',
        fetch_page ua net netloc relurl url s = (Raise e, s')
        /\ n_get s' = S (n_get s) /\ n_connect s' = n_connect s
  end.
Proof.
  intros H1 Hcaught Hh Hc H2.
  assert (Hfirst : exists s1,
             _raw_get ua net url s = (Raise e1, s1)
             /\ n_get s1 = S (n_get s) /\ n_connect s1 = n_connect s
             /\ _host s1 = _host s /\ _port s1 = _port s /\ _proxy s1 = _proxy s).
  { destruct (_raw_get ua net url s) as [r1 s1] eqn:Hget1.
    apply raw_get_spec in Hget1.
    destruct Hget1 as (Hn1 & Hc1 & Hh1 & Hp1 & Hx1 & _ & Hout1).
    rewrite H1 in Hout1. destruct Hout1 as (-> & _ & _). eauto 10. }
  destruct Hfirst as (s1 & Hget1 & Hn1 & Hc1 & Hh1 & Hp1 & Hx1).
  destruct (setup_error net (_proxy s) h (_port s)) as [e|] eqn:Hset;
    unfold fetch_page; unfold bind at 1, try_except at 1;
    rewrite Hget1, Hcaught; unfold bind at 1.
  - destruct (renew_connection_refused s1 h e) as (s0 & -> & Hn0 & Hc0);
      [congruence | congruence |].
    exists s0. split; [reflexivity|]. split; congruence.
  - destruct (renew_connection_ok s1 h) as (s0 & -> & Hn0 & Hc0 & Hh0 & _);
      [congruence | congruence | congruence |].
    unfold try_except at 1.
    destruct (_raw_get ua net url s0) as [r2 s2] eqn:Hget2.
    apply raw_get_spec in Hget2.
    destruct Hget2 as (Hn2 & Hc2 & _ & _ & _ & _ & Hout2).
    rewrite Hn0, Hn1, H2 in Hout2. destruct Hout2 as (-> & _ & _).
    exists s2. split; [|split; congruence].
    destruct (is_HTTPException e2); reflexivity.
Qed.

(** The slice that [_raw_get] stores is the part before the first [;]
    when the header has one. *)
Lemma slice_before_semicolon (header : string) :
  0 <= Py.find_char ";" header ->
  Py.slice_to header (Py.find_char ";" header) = before_semicolon header.
Proof.
  unfold Py.slice_to.
  induction header as [|c rest IH]; cbn [Py.find_char before_semicolon];
    [intros H; cbn in H; lia|].
  destruct (Ascii.eqb c ";"); [reflexivity|].
  destruct (Z.ltb_spec (Py.find_char ";" rest) 0) as [Hneg|Hpos]; [lia|].
  intros _. specialize (IH Hpos).
  destruct (Z.ltb_spec (1 + Py.find_char ";" rest) 0); [lia|].
  destruct (Z.ltb_spec (Py.find_char ";" rest) 0); [lia|].
  replace (Z.to_nat (1 + Py.find_char ";" rest))
    with (S (Z.to_nat (Py.find_char ";" rest))) by lia.
  cbn [String.substring]. now rewrite IH.
Qed.

Lemma find_char_range (c : ascii) (s0 : string) :
  Py.find_char c s0 = -1 \/ 0 <= Py.find_char c s0.
Proof.
  induction s0 as [|a rest IH]; cbn [Py.find_char]; [now left|].
  destruct (Ascii.eqb a c); [right; lia|].
  destruct (Z.ltb_spec (Py.find_char c rest) 0); [now left | right; lia].
Qed.

(** Without a [;] the slice drops the last character instead. *)
Lemma slice_without_semicolon (header : string) :
  Py.find_char ";" header < 0 ->
  Py.slice_to header (Py.find_char ";" header)
  = String.substring 0 (String.length header - 1) header.
Proof.
  intros H. unfold Py.slice_to.
  destruct (find_char_range ";" header) as [->|]; [|lia].
  destruct (Z.ltb_spec (-1) 0); [|lia]. f_equal. lia.
Qed.

(** Once a cookie is stored, [_raw_get] sends it and keeps it. *)
Lemma raw_get_keeps_cookie url s r s' :
  _raw_get ua net url s = (r, s') ->
  cookie s <> "" ->
  cookie s' = cookie s
  /\ cookies_sent (trace s') = (cookies_sent (trace s) ++ [cookie s])%list.
Proof.
  intros H Hne. apply raw_get_spec in H.
  destruct H as (_ & _ & _ & _ & _ & Htrace & Hout).
  split.
  - destruct (get_outcome net (n_get s)) as [resp|e].
    + destruct Hout as (_ & _ & ->).
      apply String.eqb_neq in Hne. now rewrite Hne.
    + now destruct Hout as (_ & _ & ->).
  - rewrite Htrace. unfold cookies_sent.
    rewrite flat_map_app. cbn. reflexivity.
Qed.

(** The first response with a [Set-Cookie] header that holds a [;],
    received while no cookie is stored, stores the part before the [;]. *)
Lemma raw_get_stores_cookie url s r s' resp header :
  _raw_get ua net url s = (r, s') ->
  cookie s = "" ->
  get_outcome net (n_get s) = Ok resp ->
  set_cookie resp = Some header ->
  0 <= Py.find_char ";" header ->
  cookie s' = before_semicolon header.
Proof.
  intros H Hempty Hresp Hheader Hsemi. apply raw_get_spec in H.
  destruct H as (_ & _ & _ & _ & _ & _ & Hout).
  rewrite Hresp in Hout. destruct Hout as (_ & _ & ->).
  rewrite Hempty, Hheader. cbn. now apply slice_before_semicolon.
Qed.

Local Arguments redirect_loop : simpl never.

(** What follows the first response in [fetch_page]: the redirect loop
    and the final status check, neither of which sends a GET after the
    loop. *)
Lemma after_first_response (resp : response) s r s' (g : nat) :
  (resp0 <~ current_resp;;
   resp0 <~ redirect_loop ua net netloc relurl 3 resp0;;
   if negb (status resp0 =? 200) then
     raise (GoogleConnectionError
              ("Got HTTP " ++ Py.str_of_int (status resp0) ++ ": " ++ reason resp0))
   else fun s => (page resp0, s)) s = (r, s') ->
  _resp s = Some resp ->
  n_get s = S g ->
  get_outcome net g = Ok resp ->
  forall (i : nat) respi,
    (g <= i <= g + 2)%nat ->
    (i < n_get s')%nat ->
    get_outcome net i = Ok respi ->
    blocked_redirect respi = true ->
    r = Raise (GoogleConnectionError blocked_message) /\ n_get s' = S i.
Proof.
  intros Hrun Hstored Hg Hresp i respi Hi Hrecv Hrespi Hblocked.
  unfold bind at 1, current_resp, bind at 1, get in Hrun. cbn in Hrun.
  rewrite Hstored in Hrun. cbn in Hrun.
  unfold bind at 1 in Hrun.
  destruct (redirect_loop ua net netloc relurl 3 resp s) as [r2 s2] eqn:Hloop.
  assert (Hs' : n_get s' = n_get s2).
  { destruct r2 as [resp2|e]; [|now injection Hrun as <- <-].
    destruct (negb (status resp2 =? 200)); unfold raise in Hrun;
      now injection Hrun as <- <-. }
  rewrite Hs' in *.
  destruct (redirect_loop_blocked 3 resp s r2 s2 g Hloop Hg Hresp i respi)
    as [-> Hlast]; try assumption; [lia|].
  injection Hrun as <- <-. auto.
Qed.

End ConnectionFacts.

(** The message of the blocked condition is none of the other messages
    that the fetch layer gives a [GoogleConnectionError]. *)
Lemma blocked_message_distinct (url host_display proxy e reason : string) (status : Z) :
  blocked_message <> "Failed to get '" ++ url ++ "'."
  /\ blocked_message
     <> "Got HTTP " ++ Py.str_of_int status ++ ": " ++ reason
  /\ blocked_message <> "Failed to connect to " ++ host_display ++ ": " ++ e ++ "."
  /\ blocked_message
     <> "Failed to connect to proxy server " ++ proxy ++ ": " ++ e ++ ".".
Proof. repeat split; discriminate. Qed.

(** C3, counterexample: after three followed redirects the fourth
    response redirects to the "sorry" page, and [fetch_page] raises the
    generic error of a status that is not 200, not the blocked error. *)
Lemma late_blocked_redirect_is_generic_error :
  GoogleConnection.get_outcome network_blocked_late 3
    = Ok (redirect_to "https://www.google.com/sorry/index?continue=x")
  /\ blocked_redirect (redirect_to "https://www.google.com/sorry/index?continue=x")
     = true
  /\ fst (GoogleConnection.fetch_page true network_blocked_late sample_netloc
            sample_relurl "/search?q=x" (connected network_blocked_late))
     = Raise (GoogleConnectionError "Got HTTP 302: Found")
  /\ GoogleConnection.n_get
       (snd (GoogleConnection.fetch_page true network_blocked_late sample_netloc
               sample_relurl "/search?q=x" (connected network_blocked_late)))
     = 4%nat
  /\ fst (GoogleConnection.fetch_page true network_blocked_late sample_netloc
            sample_relurl "/search?q=x" (connected network_blocked_late))
     <> Raise (GoogleConnectionError blocked_message).
Proof.
  vm_compute; repeat split; discriminate.
Qed.

(** C3, amended: when a response that [fetch_page] receives as the first
    one or after the first or the second followed redirect is a redirect
    whose [Location] matches the blocked pattern, [fetch_page] raises
    [GoogleConnectionError] with the message of the blocked condition,
    and the GET answered by that response is the last one it sends. *)
Theorem fetch_page_blocked_redirect (ua : bool) (net : GoogleConnection.network)
    (netloc relurl : string -> string) (url : string)
    (s : GoogleConnection.t) (r : result string) (s' : GoogleConnection.t)
    (i : nat) (resp : GoogleConnection.response) :
  GoogleConnection.fetch_page ua net netloc relurl url s = (r, s') ->
  (first_response net s <= i <= first_response net s + 2)%nat ->
  (i < GoogleConnection.n_get s')%nat ->
  GoogleConnection.get_outcome net i = Ok resp ->
  blocked_redirect resp = true ->
  r = Raise (GoogleConnectionError blocked_message)
  /\ GoogleConnection.n_get s' = S i.
Proof.
  intros Hrun Hi Hrecv Hresp Hblocked. unfold first_response in Hi.
  unfold GoogleConnection.fetch_page in Hrun.
  unfold GoogleConnection.bind at 1, GoogleConnection.try_except at 1 in Hrun.
  destruct (GoogleConnection._raw_get ua net url s) as [r1 s1] eqn:Hget1.
  apply raw_get_spec in Hget1.
  destruct Hget1 as (Hn1 & _ & _ & _ & _ & _ & Hout1).
  destruct (GoogleConnection.get_outcome net (GoogleConnection.n_get s))
    as [resp0|e1] eqn:Hresp0.
  - destruct Hout1 as (-> & Hstored & _).
    eapply after_first_response; eauto.
  - destruct Hout1 as (-> & _ & _).
    destruct (is_HTTPException e1 || is_OSError e1).
    2:{ injection Hrun as <- <-. lia. }
    unfold GoogleConnection.bind at 1, GoogleConnection.renew_connection in Hrun.
    destruct (GoogleConnection.new_connection net None None s1)
      as [r0 s0] eqn:Hnew.
    apply new_connection_spec in Hnew. destruct Hnew as (Hn0 & _).
    destruct r0 as [[]|e0]; [|injection Hrun as <- <-; lia].
    unfold GoogleConnection.try_except at 1 in Hrun.
    destruct (GoogleConnection._raw_get ua net url s0) as [r2 s2] eqn:Hget2.
    apply raw_get_spec in Hget2.
    destruct Hget2 as (Hn2 & _ & _ & _ & _ & _ & Hout2).
    rewrite Hn0, Hn1 in Hout2, Hn2.
    destruct (GoogleConnection.get_outcome net (S (GoogleConnection.n_get s)))
      as [resp0|e2] eqn:Hresp0'.
    + destruct Hout2 as (-> & Hstored & _).
      eapply after_first_response; eauto.
    + destruct Hout2 as (-> & _ & _).
      assert (Hs' : GoogleConnection.n_get s' = GoogleConnection.n_get s2).
      { destruct (is_HTTPException e2); unfold GoogleConnection.raise in Hrun;
          now injection Hrun as <- <-. }
      assert (i = S (GoogleConnection.n_get s)) as -> by lia. congruence.
Qed.

(** C3 on a first response that redirects to the "sorry" page. *)
Lemma fetch_page_blocked_redirect_witness :
  exists r s',
    GoogleConnection.fetch_page true network_blocked sample_netloc sample_relurl
      "/search?q=x" (connected network_blocked) = (r, s')
    /\ r = Raise (GoogleConnectionError blocked_message)
    /\ GoogleConnection.n_get s' = 1%nat.
Proof.
  destruct (GoogleConnection.fetch_page true network_blocked sample_netloc
              sample_relurl "/search?q=x" (connected network_blocked))
    as [r s'] eqn:Hrun.
  assert (Hn : GoogleConnection.n_get s' = 1%nat).
  { change s' with (snd (r, s')). rewrite <- Hrun. vm_compute. reflexivity. }
  exists r, s'. split; [reflexivity|].
  apply (fetch_page_blocked_redirect true network_blocked sample_netloc
           sample_relurl "/search?q=x" (connected network_blocked) r s' 0%nat
           (redirect_to "https://www.google.com/sorry/index?continue=x") Hrun).
  - vm_compute. lia.
  - rewrite Hn. lia.
  - vm_compute. reflexivity.
  - vm_compute. reflexivity.
Defined.

(** C2: with the connection reset on the first GET and again on the
    retry, [fetch_page] reconnects once and sends two GETs, and then lets
    the [OSError] of the retry through instead of raising
    [GoogleConnectionError]. *)
Theorem second_transport_failure_escapes (ua : bool) :
  GoogleConnection.get_outcome network_two_resets 0 = Raise OSError
  /\ GoogleConnection.get_outcome network_two_resets 1 = Raise OSError
  /\ fst (fetch_two_resets ua) = Raise OSError
  /\ GoogleConnection.n_get (snd (fetch_two_resets ua)) = 2%nat
  /\ GoogleConnection.n_connect (snd (fetch_two_resets ua))
     = S (GoogleConnection.n_connect (connected network_two_resets))
  /\ forall msg, fst (fetch_two_resets ua) <> Raise (GoogleConnectionError msg).
Proof.
  assert (H : fst (fetch_two_resets ua) = Raise OSError)
    by (destruct ua; vm_compute; reflexivity).
  repeat split; try (destruct ua; vm_compute; reflexivity).
  intros msg. rewrite H. discriminate.
Qed.

(** C9: a [Set-Cookie] header without [;] is stored without its last
    character, and that is what the next request sends. *)
Theorem bare_set_cookie_is_truncated (ua : bool) :
  GoogleConnection.get_outcome network_bare_cookie 0
    = Ok (with_set_cookie "NID=abc" (ok_response "<html></html>"))
  /\ before_semicolon "NID=abc" = "NID=abc"
  /\ GoogleConnection.cookie (fetch_twice ua network_bare_cookie) = "NID=ab"
  /\ cookies_sent (GoogleConnection.trace (fetch_twice ua network_bare_cookie))
     = [""; "NID=ab"].
Proof. repeat split; destruct ua; vm_compute; reflexivity. Qed.

(** With attributes after a [;], the cookie is stored and sent whole. *)
Example set_cookie_with_attributes (ua : bool) :
  GoogleConnection.cookie (fetch_twice ua network_cookie) = "NID=abc"
  /\ cookies_sent (GoogleConnection.trace (fetch_twice ua network_cookie))
     = [""; "NID=abc"].
Proof. repeat split; destruct ua; vm_compute; reflexivity. Qed.

(** * Further properties *)

(** ** GoogleUrl: navigation, forced queries, host *)

(** X1: [prev_page] and [first_page] refuse exactly at offset 0; anywhere
    else both succeed and [first_page] goes to offset 0. *)
Theorem navigation_boundary (self : GoogleUrl.t) :
  (GoogleUrl._start self = 0
   /\ GoogleUrl.prev_page self = Raise (ValueError "Already at the first page.")
   /\ GoogleUrl.first_page self = Raise (ValueError "Already at the first page."))
  \/ (GoogleUrl._start self <> 0
      /\ (exists self', GoogleUrl.prev_page self = Ok self')
      /\ GoogleUrl.first_page self = Ok (GoogleUrl.with_start self 0)).
Proof.
  unfold GoogleUrl.prev_page, GoogleUrl.first_page.
  destruct (Z.eqb_spec (GoogleUrl._start self) 0) as [H0|Hne].
  - left. auto.
  - right. eauto.
Qed.

(** X2: away from offset 0 and with a page size that is not negative,
    [prev_page] moves to [max(0, start - num)] and changes nothing else. *)
Theorem prev_page_clamps (self : GoogleUrl.t) :
  0 <= GoogleUrl._num self ->
  GoogleUrl._start self <> 0 ->
  GoogleUrl.prev_page self
  = Ok (GoogleUrl.with_start self
          (Z.max 0 (GoogleUrl._start self - GoogleUrl._num self))).
Proof.
  intros Hnum Hstart. unfold GoogleUrl.prev_page.
  destruct (Z.eqb_spec (GoogleUrl._start self) 0); [contradiction|].
  destruct (Z.ltb_spec (GoogleUrl._num self) (GoogleUrl._start self));
    do 2 f_equal; lia.
Qed.

(** X2 at offset 5 with page size 10. *)
Lemma prev_page_clamps_witness :
  GoogleUrl.prev_page (url_at 5 10) = Ok (GoogleUrl.with_start (url_at 5 10) 0).
Proof.
  apply (prev_page_clamps (url_at 5 10)).
  - vm_compute. discriminate.
  - vm_compute. discriminate.
Defined.

Lemma reserved_cases (k : string) :
  k ∈ reserved_keys -> k = "q" \/ k = "num" \/ k = "start".
Proof.
  unfold reserved_keys. rewrite !elem_of_cons, elem_of_nil. tauto.
Qed.

Lemma query_qd_insert_reserved (self : GoogleUrl.t) (qd : gmap string Py.value)
    (k : string) (v : Py.value) :
  k ∈ reserved_keys ->
  GoogleUrl.query_qd (GoogleUrl.with_query_dict self (<[k := v]> qd))
  = GoogleUrl.query_qd (GoogleUrl.with_query_dict self qd).
Proof.
  intros Hk. unfold GoogleUrl.query_qd, GoogleUrl.q_value. cbn.
  apply map_eq. intros i.
  destruct (decide (i = "q")) as [->|Hq]; [now rewrite !lookup_insert_eq|].
  rewrite !(lookup_insert_ne _ "q") by congruence.
  destruct (decide (i = "start")) as [->|Hs]; [now rewrite !lookup_insert_eq|].
  rewrite !(lookup_insert_ne _ "start") by congruence.
  destruct (decide (i = "num")) as [->|Hn]; [now rewrite !lookup_insert_eq|].
  rewrite !(lookup_insert_ne _ "num") by congruence.
  assert (k <> i) by (destruct (reserved_cases k Hk) as [->|[->| ->]]; congruence).
  now rewrite lookup_insert_ne.
Qed.

Lemma query_qd_delete_reserved (self : GoogleUrl.t) (qd : gmap string Py.value)
    (k : string) :
  k ∈ reserved_keys ->
  GoogleUrl.query_qd (GoogleUrl.with_query_dict self (delete k qd))
  = GoogleUrl.query_qd (GoogleUrl.with_query_dict self qd).
Proof.
  intros Hk. unfold GoogleUrl.query_qd, GoogleUrl.q_value. cbn.
  apply map_eq. intros i.
  destruct (decide (i = "q")) as [->|Hq]; [now rewrite !lookup_insert_eq|].
  rewrite !(lookup_insert_ne _ "q") by congruence.
  destruct (decide (i = "start")) as [->|Hs]; [now rewrite !lookup_insert_eq|].
  rewrite !(lookup_insert_ne _ "start") by congruence.
  destruct (decide (i = "num")) as [->|Hn]; [now rewrite !lookup_insert_eq|].
  rewrite !(lookup_insert_ne _ "num") by congruence.
  assert (k <> i) by (destruct (reserved_cases k Hk) as [->|[->| ->]]; congruence).
  now rewrite lookup_delete_ne.
Qed.

Lemma query_of_query_qd (self self' : GoogleUrl.t) :
  GoogleUrl.query_qd self' = GoogleUrl.query_qd self ->
  GoogleUrl.query self' = GoogleUrl.query self.
Proof.
  intros H. unfold GoogleUrl.query, GoogleUrl.query_items. now rewrite H.
Qed.

(** X3: forcing or unsetting [q], [num] or [start] has no effect on the
    rendered query string: these keys get their values when the string
    is rendered. *)
Theorem reserved_queries_have_no_effect (self : GoogleUrl.t)
    (kwargs : list (string * Py.value)) (args : list string) :
  Forall (fun kv => fst kv ∈ reserved_keys) kwargs ->
  Forall (fun k => k ∈ reserved_keys) args ->
  GoogleUrl.query (GoogleUrl.set_queries self kwargs) = GoogleUrl.query self
  /\ GoogleUrl.query (GoogleUrl.unset_queries self args) = GoogleUrl.query self.
Proof.
  intros Hkw Hargs. split; apply query_of_query_qd.
  - unfold GoogleUrl.set_queries.
    transitivity (GoogleUrl.query_qd
                    (GoogleUrl.with_query_dict self (GoogleUrl._query_dict self)));
      [|now destruct self].
    generalize (GoogleUrl._query_dict self) as qd.
    induction Hkw as [|[k v] kwargs Hk _ IH]; intros qd; [reflexivity|].
    cbn [fold_left]. rewrite IH. now apply query_qd_insert_reserved.
  - unfold GoogleUrl.unset_queries.
    transitivity (GoogleUrl.query_qd
                    (GoogleUrl.with_query_dict self (GoogleUrl._query_dict self)));
      [|now destruct self].
    generalize (GoogleUrl._query_dict self) as qd.
    induction Hargs as [|k args Hk _ IH]; intros qd; [reflexivity|].
    cbn [fold_left]. rewrite IH. now apply query_qd_delete_reserved.
Qed.

(** X3 on [set_queries(q='x', start=7)] and [unset_queries('num')]. *)
Lemma reserved_queries_have_no_effect_witness :
  GoogleUrl.query
    (GoogleUrl.set_queries (url_at 5 10) [("q", Py.VStr "x"); ("start", Py.VInt 7)])
  = GoogleUrl.query (url_at 5 10)
  /\ GoogleUrl.query (GoogleUrl.unset_queries (url_at 5 10) ["num"])
     = GoogleUrl.query (url_at 5 10).
Proof.
  apply (reserved_queries_have_no_effect (url_at 5 10)
           [("q", Py.VStr "x"); ("start", Py.VInt 7)] ["num"]).
  - repeat constructor; vm_compute; auto.
  - repeat constructor; vm_compute; auto.
Defined.

(** X4: a key forced with [set_queries] that is none of [q], [num],
    [start] is rendered with the value given, and [unset_queries] takes
    it out again: when the key was not set before, the state is the one
    before [set_queries]. *)
Theorem set_then_unset_query (self : GoogleUrl.t) (k : string) (v : Py.value) :
  k ∉ reserved_keys ->
  (k, Py.str v) ∈ GoogleUrl.query_items (GoogleUrl.set_queries self [(k, v)])
  /\ (k ∉ map fst (GoogleUrl.query_items
                     (GoogleUrl.unset_queries
                        (GoogleUrl.set_queries self [(k, v)]) [k])))
  /\ (GoogleUrl._query_dict self !! k = None ->
      GoogleUrl.unset_queries (GoogleUrl.set_queries self [(k, v)]) [k] = self).
Proof.
  intros Hk.
  assert (Hq : k <> "q" /\ k <> "num" /\ k <> "start").
  { unfold reserved_keys in Hk. rewrite !elem_of_cons, elem_of_nil in Hk. tauto. }
  destruct Hq as (Hq & Hn & Hs).
  split; [|split].
  - apply elem_of_query_items. unfold GoogleUrl.query_qd. cbn.
    rewrite !lookup_insert_ne by congruence. apply lookup_insert_eq.
  - rewrite query_items_keys. rewrite elem_of_sorted_keys.
    unfold GoogleUrl.query_qd. cbn.
    rewrite !lookup_insert_ne by congruence.
    rewrite lookup_delete_eq. now intros [x Hx].
  - intros Hnone. unfold GoogleUrl.unset_queries, GoogleUrl.set_queries. cbn.
    rewrite delete_insert_eq, delete_id by assumption. now destruct self.
Qed.

(** X4 on the [filter=0] of the "unfilter" command. *)
Lemma set_then_unset_query_witness :
  ("filter", "0")
    ∈ GoogleUrl.query_items
        (GoogleUrl.set_queries (url_at 5 10) [("filter", Py.VInt 0)])
  /\ GoogleUrl.unset_queries
       (GoogleUrl.set_queries (url_at 5 10) [("filter", Py.VInt 0)]) ["filter"]
     = url_at 5 10.
Proof.
  destruct (set_then_unset_query (url_at 5 10) "filter" (Py.VInt 0))
    as (Hin & _ & Hback).
  - unfold reserved_keys. rewrite !elem_of_cons, elem_of_nil.
    intros [H|[H|[H|[]]]]; discriminate H.
  - split; [exact Hin|]. apply Hback. vm_compute. reflexivity.
Defined.

(** X5: [update] changes the news mode only through the [news] option:
    the mode is the option's value when it is given and the mode before
    otherwise, whatever the other options. *)
Theorem update_news (self : GoogleUrl.t) (opts : GoogleUrl.opts_t) :
  GoogleUrl.news (GoogleUrl.update self opts)
  = default (GoogleUrl.news self) (GoogleUrl.o_news opts).
Proof.
  unfold GoogleUrl.news, GoogleUrl.update. cbn.
  destruct (GoogleUrl.o_news opts) as [[]|]; cbn.
  - now rewrite lookup_insert_eq.
  - now rewrite lookup_delete_eq.
  - destruct (GoogleUrl.o_lang opts) as [[[|c l]|]|]; cbn;
      rewrite ?lookup_insert_ne by discriminate;
      (destruct (GoogleUrl.o_exact opts) as [[]|]; cbn;
       rewrite ?lookup_insert_ne, ?lookup_delete_ne by discriminate);
      destruct (GoogleUrl.o_duration opts) as [[[|c' d]|]|]; cbn;
      rewrite ?lookup_insert_ne by discriminate; reflexivity.
Qed.

Lemma item_nonempty (k v rest : string) : (k ++ "=" ++ v) ++ rest <> "".
Proof.
  destruct k as [|c k]; intros H.
  - rewrite append_nil_l, !append_cons in H. discriminate H.
  - rewrite !append_cons in H. discriminate H.
Qed.

Lemma query_nonempty (self : GoogleUrl.t) : GoogleUrl.query self <> "".
Proof.
  unfold GoogleUrl.query.
  assert (Hq : ("q", Py.str (Py.VStr (GoogleUrl.q_value self)))
                 ∈ GoogleUrl.query_items self)
    by (apply elem_of_query_items, query_qd_q).
  destruct (GoogleUrl.query_items self) as [|[k v] l];
    [now apply not_elem_of_nil in Hq|].
  destruct l as [|kv l]; cbn [map Py.join fst snd].
  - rewrite <- (append_nil_r (k ++ "=" ++ v)). apply item_nonempty.
  - apply item_nonempty.
Qed.

Lemma tld_domains_google :
  Forall (fun kv => String.prefix "www.google." ("www." ++ snd kv) = true)
    GoogleUrl.TLD_TO_DOMAIN_LIST.
Proof.
  apply Forall_forall. intros kv Hkv. apply list_elem_of_In in Hkv.
  revert kv Hkv. apply forallb_forall. vm_compute. reflexivity.
Qed.

(** X6: whatever the country code, the host is a [www.google.] host,
    [www.google.com] when the code is missing or unknown, and the full
    URL is [https://], the host, [/search?] and the query string. *)
Theorem full_url_shape (self : GoogleUrl.t) :
  String.prefix "www.google." (GoogleUrl.netloc self) = true
  /\ (match GoogleUrl._tld self with
      | Some tld => GoogleUrl.TLD_TO_DOMAIN_MAP !! tld = None
      | None => True
      end -> GoogleUrl.netloc self = "www.google.com")
  /\ GoogleUrl.relative self = "/search?" ++ GoogleUrl.query self
  /\ GoogleUrl.full self
     = "https://" ++ GoogleUrl.netloc self ++ "/search?" ++ GoogleUrl.query self.
Proof.
  assert (Hrel : GoogleUrl.relative self = "/search?" ++ GoogleUrl.query self).
  { unfold GoogleUrl.relative. pose proof (query_nonempty self) as Hne.
    destruct (GoogleUrl.query self); [contradiction | reflexivity]. }
  split; [|split; [|split]].
  - unfold GoogleUrl.netloc.
    destruct (GoogleUrl._tld self) as [tld|]; [|reflexivity].
    destruct (GoogleUrl.TLD_TO_DOMAIN_MAP !! tld) as [domain|] eqn:Hd;
      [|reflexivity].
    apply elem_of_list_to_map_2 in Hd.
    pose proof (proj1 (Forall_forall _ _) tld_domains_google _ Hd) as Hp.
    exact Hp.
  - unfold GoogleUrl.netloc. destruct (GoogleUrl._tld self) as [tld|];
      [intros ->|]; reflexivity.
  - exact Hrel.
  - unfold GoogleUrl.full. rewrite Hrel. reflexivity.
Qed.

(** X6 on a query without country code. *)
Lemma full_url_shape_witness :
  GoogleUrl.netloc (url_at 5 10) = "www.google.com".
Proof.
  apply (full_url_shape (url_at 5 10)). vm_compute. exact I.
Defined.

(** X7 on the query of a fresh state, whose dict holds [ie] and [oe]. *)
Lemma query_parameters_witness :
  parameters (GoogleUrl.query (url_at 5 10)) = GoogleUrl.query_items (url_at 5 10).
Proof.
  apply (query_parameters (url_at 5 10)).
  intros k v.
  change (GoogleUrl._query_dict (url_at 5 10))
    with (<["oe" := Py.VStr "UTF-8"]> (<["ie" := Py.VStr "UTF-8"]> (∅ : gmap string Py.value))).
  intros H.
  apply lookup_insert_Some in H. destruct H as [[<- <-]|[_ H]];
    [vm_compute; auto|].
  apply lookup_insert_Some in H. destruct H as [[<- <-]|[_ H]];
    [vm_compute; auto|].
  rewrite lookup_empty in H. discriminate H.
Defined.

Ltac lookups :=
  repeat first
    [ rewrite lookup_insert_eq
    | rewrite lookup_delete_eq
    | rewrite lookup_insert_ne by (discriminate || congruence)
    | rewrite lookup_delete_ne by (discriminate || congruence) ].

(** X8: [update] is idempotent, and without options it changes
    nothing: the options given decide the state they touch, whatever it
    was before. *)
Theorem update_idempotent (self : GoogleUrl.t) (opts : GoogleUrl.opts_t) :
  GoogleUrl.update (GoogleUrl.update self opts) opts = GoogleUrl.update self opts
  /\ GoogleUrl.update self GoogleUrl.no_opts = self.
Proof.
  split; [|now destruct self].
  destruct opts as [dur ex kw lang nw num site start tld].
  unfold GoogleUrl.update; cbn.
  f_equal; try (repeat case_match; reflexivity).
  apply map_eq. intros i.
  destruct dur as [[[|c d]|]|], ex as [[|]|], lang as [[[|c' l]|]|], nw as [[|]|];
    cbn;
    destruct (decide (i = "tbs")) as [->|?]; lookups; try reflexivity;
    destruct (decide (i = "nfpr")) as [->|?]; lookups; try reflexivity;
    destruct (decide (i = "hl")) as [->|?]; lookups; try reflexivity;
    destruct (decide (i = "tbm")) as [->|?]; lookups; reflexivity.
Qed.

(** ** Unwrapping result links *)

Lemma ord_byte (n : Z) : 0 <= n < 256 -> Py.ord (Py.byte n) = n.
Proof.
  intros Hn. unfold Py.ord, Py.byte. rewrite N_ascii_embedding by lia. lia.
Qed.

Lemma byte_of_ord (c : ascii) : Py.byte (Py.ord c) = c.
Proof.
  unfold Py.byte, Py.ord. rewrite N2Z.id. apply ascii_N_embedding.
Qed.

Lemma eqb_byte (c : ascii) (n : Z) :
  0 <= n < 256 -> Ascii.eqb c (Py.byte n) = (Py.ord c =? n).
Proof.
  intros Hn. destruct (Z.eqb_spec (Py.ord c) n) as [<-|Hne].
  - rewrite byte_of_ord. apply Ascii.eqb_refl.
  - apply Ascii.eqb_neq. intros ->. now rewrite ord_byte in Hne.
Qed.

Lemma hex_digit_ord (n : Z) :
  0 <= n < 16 ->
  Py.ord (Py.hex_digit n) = if n <? 10 then 48 + n else 55 + n.
Proof.
  intros Hn. unfold Py.hex_digit.
  destruct (n <? 10); apply ord_byte; lia.
Qed.

Lemma hex_val_hex_digit (n : Z) :
  0 <= n < 16 -> Py.hex_val (Py.hex_digit n) = Some n.
Proof.
  intros Hn. unfold Py.hex_val. rewrite hex_digit_ord by assumption.
  destruct (Z.ltb_spec n 10).
  - replace ((48 <=? 48 + n) && (48 + n <=? 57)) with true by lia.
    f_equal. lia.
  - replace ((48 <=? 55 + n) && (55 + n <=? 57)) with false by lia.
    replace ((65 <=? 55 + n) && (55 + n <=? 70)) with true by lia.
    f_equal. lia.
Qed.

Lemma replace_plus_cons (c : ascii) (s : string) :
  Py.replace_go "+" " " 0 (String c s)
  = String (if Ascii.eqb c "+" then " "%char else c)
      (Py.replace_go "+" " " 0 s).
Proof.
  cbn [Py.replace_go String.prefix].
  destruct (ascii_dec "+" c) as [<-|Hne].
  - destruct s; reflexivity.
  - apply not_eq_sym, Ascii.eqb_neq in Hne. now rewrite Hne.
Qed.

(** [unquote_plus] undoes [quote_plus]. *)
Lemma unquote_plus_quote_plus (s : string) : Py.unquote_plus (Py.quote_plus s) = s.
Proof.
  unfold Py.unquote_plus, Py.replace.
  induction s as [|c s IH]; [reflexivity|].
  cbn [Py.quote_plus]. pose proof (ord_range c) as Hc.
  change "+"%char with (Py.byte 43). change "%"%char with (Py.byte 37).
  change " "%char with (Py.byte 32).
  destruct (Py.always_safe c) eqn:Hsafe.
  - rewrite append_cons, append_nil_l.
    change (Py.byte 43) with "+"%char. rewrite replace_plus_cons.
    change "+"%char with (Py.byte 43).
    rewrite eqb_byte by lia.
    unfold Py.always_safe in Hsafe.
    replace (Py.ord c =? 43) with false by lia.
    cbn [Py.unquote]. change "%"%char with (Py.byte 37).
    rewrite eqb_byte by lia.
    replace (Py.ord c =? 37) with false by lia.
    change (Py.byte 43) with "+"%char. now rewrite IH.
  - rewrite eqb_byte by lia.
    destruct (Z.eqb_spec (Py.ord c) 32) as [H32|H32].
    + change (String (Py.byte 43) "" ++ Py.quote_plus s)
        with (String "+" (Py.quote_plus s)).
      rewrite replace_plus_cons. cbn [Py.unquote Ascii.eqb Bool.eqb].
      rewrite IH. f_equal. rewrite <- (byte_of_ord c), H32. reflexivity.
    + rewrite !append_cons, append_nil_l.
      change (Py.byte 43) with "+"%char. rewrite !replace_plus_cons.
      change "+"%char with (Py.byte 43).
      assert (Hhi : 0 <= Py.ord c / 16 < 16)
        by (Z.to_euclidean_division_equations; lia).
      assert (Hlo : 0 <= Py.ord c mod 16 < 16)
        by (Z.to_euclidean_division_equations; lia).
      rewrite !eqb_byte by lia.
      rewrite !hex_digit_ord by assumption.
      replace (37 =? 43) with false by reflexivity.
      replace ((if Py.ord c / 16 <? 10 then 48 + Py.ord c / 16
                else 55 + Py.ord c / 16) =? 43) with false
        by (destruct (Py.ord c / 16 <? 10); lia).
      replace ((if Py.ord c mod 16 <? 10 then 48 + Py.ord c mod 16
                else 55 + Py.ord c mod 16) =? 43) with false
        by (destruct (Py.ord c mod 16 <? 10); lia).
      change (Py.byte 37) with "%"%char.
      cbn [Py.unquote Ascii.eqb Bool.eqb].
      rewrite !hex_val_hex_digit by assumption.
      change (Py.byte 43) with "+"%char. rewrite IH. f_equal.
      rewrite <- (byte_of_ord c) at 3. f_equal.
      Z.to_euclidean_division_equations; lia.
Qed.

Lemma prefix_append (s t : string) : String.prefix s (s ++ t) = true.
Proof.
  induction s as [|c s IH]; [now destruct t|].
  rewrite append_cons. cbn [String.prefix].
  now destruct (ascii_dec c c).
Qed.

(** The first occurrence of a marker after a run that does not hold the
    marker's first character. *)
Lemma index_after_free (c : ascii) (sep p t : string) :
  occurs c p = false ->
  String.index 0 (String c sep) (p ++ String c sep ++ t)
  = Some (String.length p).
Proof.
  induction p as [|a p IH]; intros Hfree.
  - rewrite append_nil_l.
    pose proof (prefix_append (String c sep) t) as Hp.
    rewrite append_cons in *. cbn [String.index]. now rewrite Hp.
  - cbn [occurs] in Hfree. apply orb_false_iff in Hfree.
    destruct Hfree as [Hac Hp]. apply Ascii.eqb_neq in Hac.
    rewrite append_cons. cbn [String.index String.prefix].
    destruct (ascii_dec c a) as [->|_]; [contradiction|].
    now rewrite (IH Hp).
Qed.

Lemma index_skip (sep x t : string) :
  String.index (String.length x) sep (x ++ t)
  = (fun n => (String.length x + n)%nat) <$> String.index 0 sep t.
Proof.
  induction x as [|a x IH].
  - rewrite append_nil_l. cbn [String.length].
    now destruct (String.index 0 sep t).
  - rewrite append_cons. cbn [String.length String.index]. rewrite IH.
    now destruct (String.index 0 sep t).
Qed.

Lemma substring_middle (x y z : string) :
  String.substring (String.length x) (String.length y) (x ++ y ++ z) = y.
Proof.
  induction x as [|a x IH].
  - rewrite append_nil_l. cbn [String.length].
    induction y as [|b y IHy]; [now destruct z|].
    rewrite append_cons. cbn [String.length String.substring]. now rewrite IHy.
  - rewrite append_cons. cbn [String.length String.substring]. exact IH.
Qed.

Lemma length_append (s t : string) :
  String.length (s ++ t) = (String.length s + String.length t)%nat.
Proof.
  induction s as [|c s IH]; [reflexivity|].
  rewrite append_cons. cbn [String.length]. now rewrite IH.
Qed.

(** A link that wraps a quoted target, [P?q=TARGET&sa=REST] with no [?]
    in [P], is unwrapped to the target, whatever follows [&sa=]. *)
Lemma unwrap_url_target (p target rest : string) :
  occurs "?" p = false ->
  GoogleParser.unwrap_url (p ++ "?q=" ++ Py.quote_plus target ++ "&sa=" ++ rest)
  = target.
Proof.
  intros Hp. unfold GoogleParser.unwrap_url.
  rewrite (index_after_free "?" "q=" p _ Hp).
  replace (p ++ "?q=" ++ Py.quote_plus target ++ "&sa=" ++ rest)
    with ((p ++ "?q=") ++ Py.quote_plus target ++ "&sa=" ++ rest)
    by now rewrite append_assoc.
  replace (String.length p + 3)%nat with (String.length (p ++ "?q="))
    by now rewrite length_append.
  rewrite index_skip.
  rewrite (index_after_free "&" "sa=" (Py.quote_plus target) rest
             (quote_plus_no_sep target)).
  cbn [fmap option_fmap option_map].
  replace (String.length (p ++ "?q=") + String.length (Py.quote_plus target)
           - String.length (p ++ "?q="))%nat
    with (String.length (Py.quote_plus target)) by lia.
  rewrite substring_middle. apply unquote_plus_quote_plus.
Qed.

(** X9: on [<a href=P?q=TARGET&sa=REST>], where [TARGET] is quoted and
    [P] holds no [?], [title_start] stores [TARGET] as the URL of the
    result and starts capturing the title, unless the link starts with
    [/search], which it skips, storing nothing; [sitelink_title_start]
    stores [TARGET] as the URL of the sitelink in every case. *)
Theorem unwrap_url_wrapped (ua : bool) (self : GoogleParser.t)
    (attrs : GoogleParser.attrs_t) (p target rest : string) :
  let href := p ++ "?q=" ++ Py.quote_plus target ++ "&sa=" ++ rest in
  occurs "?" p = false ->
  attrs !! "href" = Some (Some href) ->
  GoogleParser.title_start ua self "a" attrs
  = (if Py.startswith href "/search" then Ok (None, self)
     else Ok (Some "title_link",
              GoogleParser.start_populating_textbuf None
                (GoogleParser.set_url target self)))
  /\ GoogleParser.sitelink_title_start self "a" attrs
     = Ok (Some "sitelink_title_link",
           GoogleParser.start_populating_textbuf None
             (GoogleParser.set_current_sitelink
                (Sitelink.set_url target (GoogleParser.current_sitelink self))
                self)).
Proof.
  intros href Hp Hhref. subst href.
  unfold GoogleParser.title_start, GoogleParser.sitelink_title_start.
  change (String.eqb "a" "span") with false.
  change (String.eqb "a" "a") with true.
  rewrite andb_false_r. cbv iota. rewrite Hhref.
  rewrite (unwrap_url_target p target rest Hp). split; reflexivity.
Qed.

(** X9 on the link of the minimal document, and on a link that starts
    with [/search]. *)
Lemma unwrap_url_wrapped_witness :
  GoogleParser.title_start true (GoogleParser.init false) "a"
    (GoogleParser.dict
       [("href", Some ("/url" ++ "?q=" ++ Py.quote_plus "http://example.com/x"
                         ++ "&sa=" ++ "U"))])
  = Ok (Some "title_link",
        GoogleParser.start_populating_textbuf None
          (GoogleParser.set_url "http://example.com/x" (GoogleParser.init false)))
  /\ GoogleParser.title_start true (GoogleParser.init false) "a"
       (GoogleParser.dict
          [("href", Some ("/search" ++ "?q=" ++ Py.quote_plus "rocq"
                            ++ "&sa=" ++ "U"))])
     = Ok (None, GoogleParser.init false).
Proof.
  split.
  - apply (unwrap_url_wrapped true (GoogleParser.init false) _
             "/url" "http://example.com/x" "U").
    + vm_compute. reflexivity.
    + vm_compute. reflexivity.
  - apply (unwrap_url_wrapped true (GoogleParser.init false) _
             "/search" "rocq" "U").
    + vm_compute. reflexivity.
    + vm_compute. reflexivity.
Defined.

(** ** GoogleConnection: what a fetch does to the network *)

Section ConnectionMore.

Import GoogleConnection.

Variable ua : bool.
Variable net : network.
Variable netloc : string -> string.
Variable relurl : string -> string.

Implicit Types (s : GoogleConnection.t) (url : string).

Lemma cookies_sent_app (l1 l2 : list action) :
  cookies_sent (l1 ++ l2) = (cookies_sent l1 ++ cookies_sent l2)%list.
Proof. unfold cookies_sent. apply flat_map_app. Qed.

(** [new_connection] in full: the host and port it settles on, what the
    library makes of them, the one connection attempt that follows when
    the library accepts them, and what is left alone. *)
Lemma new_connection_full host port s r s' :
  new_connection net host port s = (r, s') ->
  let target := if falsy host then (_host s, _port s) else (host, port) in
  _host s' = fst target /\ _port s' = snd target
  /\ cookie s' = cookie s /\ _resp s' = _resp s /\ n_get s' = n_get s
  /\ cookies_sent (trace s') = cookies_sent (trace s)
  /\ match fst target with
     | None => r = Raise TypeError /\ n_connect s' = n_connect s
     | Some h =>
         match setup_error net (_proxy s) h (snd target) with
         | Some e => r = Raise e /\ n_connect s' = n_connect s
         | None =>
             n_connect s' = S (n_connect s)
             /\ match connect_outcome net (n_connect s) with
                | None => r = Ok tt
                | Some _ => exists msg, r = Raise (GoogleConnectionError msg)
                end
         end
     end.
Proof.
  unfold new_connection, connect, setup_error. intros H.
  repeat progress
    (unfold bind, try_except, library, get, log, set_host_port, set_conn,
       set_cookie_attr, set_resp, tick_get, tick_connect, modify, ret, raise in H;
     cbn in H).
  destruct (falsy host) eqn:Hhost; cbn [fst snd];
    repeat match type of H with
      | context [library_error net ?c] =>
          destruct (library_error net c) eqn:?; cbn in H
      | context [if ?c then _ else _] => destruct c eqn:?; cbn in H
      | context [match ?x with _ => _ end] => destruct x eqn:?; cbn in H
      end;
    injection H as <- <-; cbn;
    rewrite ?cookies_sent_app; cbn; rewrite ?app_nil_r;
    repeat match goal with
      | Heq : library_error net _ = _ |- _ => rewrite Heq
      | Heq : negb _ = _ |- _ => rewrite Heq
      | Heq : connect_outcome net _ = _ |- _ => rewrite Heq
      end;
    repeat split; eauto; congruence.
Qed.

Local Arguments _raw_get : simpl never.
Local Arguments new_connection : simpl never.
Local Arguments _redirect : simpl never.

Lemma sends_refl c s : sends c s s.
Proof.
  exists 0%nat. split; [lia|]. cbn. now rewrite app_nil_r.
Qed.

Lemma sends_trans c s1 s2 s3 : sends c s1 s2 -> sends c s2 s3 -> sends c s1 s3.
Proof.
  intros (k1 & Hn1 & Hc1) (k2 & Hn2 & Hc2). exists (k1 + k2)%nat.
  split; [lia|]. rewrite Hc2, Hc1, <- app_assoc. f_equal.
  now rewrite replicate_add.
Qed.

(** With a cookie stored, one GET keeps it and sends it. *)
Lemma raw_get_sends url s r s' :
  _raw_get ua net url s = (r, s') ->
  cookie s <> "" ->
  cookie s' = cookie s /\ sends (cookie s) s s'
  /\ n_connect s' = n_connect s /\ _host s' = _host s.
Proof.
  intros H Hne. destruct (raw_get_keeps_cookie ua net url s r s' H Hne) as [Hc Ht].
  apply raw_get_spec in H. destruct H as (Hn & Hconn & Hh & _).
  split; [exact Hc|]. split; [|auto].
  exists 1%nat. split; [lia | exact Ht].
Qed.

Lemma new_connection_sends host port s r s' :
  new_connection net host port s = (r, s') ->
  cookie s' = cookie s /\ sends (cookie s) s s'
  /\ (n_connect s <= n_connect s' <= S (n_connect s))%nat.
Proof.
  intros H. pose proof (new_connection_spec net host port s r s' H) as (_ & _ & _ & Hc).
  apply new_connection_full in H.
  destruct H as (_ & _ & Hcookie & _ & Hn & Htrace & _).
  split; [exact Hcookie|]. split; [|exact Hc].
  exists 0%nat. split; [lia|]. cbn. now rewrite app_nil_r.
Qed.

Lemma redirect_sends url s r s' :
  _redirect ua net netloc relurl url s = (r, s') ->
  cookie s <> "" ->
  cookie s' = cookie s /\ sends (cookie s) s s'
  /\ (n_get s <= n_get s' <= S (n_get s))%nat
  /\ (n_connect s <= n_connect s' <= S (n_connect s))%nat
  /\ (r = Ok tt -> exists resp, _resp s' = Some resp
                     /\ get_outcome net (n_get s) = Ok resp).
Proof.
  unfold _redirect. unfold bind at 1, library. intros H Hne.
  destruct (library_error net (Urlparse url)) as [e0|].
  { injection H as <- <-. split; [reflexivity|]. split; [apply sends_refl|].
    split; [lia|]. split; [lia|]. discriminate. }
  unfold bind at 1 2, get, try_except, raise in H. cbn in H.
  assert (Hstep : forall s0 r1 s1,
             cookie s0 = cookie s -> n_get s0 = n_get s ->
             _raw_get ua net (relurl url) s0 = (r1, s1) ->
             cookie s1 = cookie s /\ sends (cookie s) s0 s1
             /\ n_get s1 = S (n_get s) /\ n_connect s1 = n_connect s0
             /\ (r1 = Ok tt -> exists resp, _resp s1 = Some resp
                                /\ get_outcome net (n_get s) = Ok resp)).
  { intros s0 r1 s1 Hc0 Hn0 Hget.
    destruct (raw_get_sends _ _ _ _ Hget) as (Hc1 & Hs1 & Hconn & _);
      [congruence|].
    apply raw_get_spec in Hget. destruct Hget as (Hn1 & _ & _ & _ & _ & _ & Hout).
    rewrite Hc0 in *. rewrite Hn0 in *.
    repeat split; try assumption.
    intros ->. destruct (get_outcome net (n_get s)) as [resp|e].
    - destruct Hout as (_ & Hresp & _). eauto.
    - destruct Hout as (Habs & _). discriminate Habs. }
  destruct (bool_decide (Some (netloc url) = _host s)).
  - cbn in H. destruct (_raw_get ua net (relurl url) s) as [r1 s1] eqn:Hget.
    destruct (Hstep s r1 s1 eq_refl eq_refl Hget) as (Hc & Hs & Hn & Hconn & Hok).
    destruct r1 as [[]|e];
      [|destruct (is_HTTPException e)]; injection H as <- <-;
      repeat split; try assumption; try lia; try discriminate.
  - destruct (new_connection net (Some (netloc url)) None s) as [r0 s0] eqn:Hnew.
    destruct (new_connection_sends _ _ _ _ _ Hnew) as (Hc0 & Hs0 & Hconn0).
    pose proof (new_connection_spec net _ _ s r0 s0 Hnew) as (Hn0 & _).
    destruct r0 as [[]|e0].
    + destruct (_raw_get ua net (relurl url) s0) as [r1 s1] eqn:Hget.
      destruct (Hstep s0 r1 s1 Hc0 Hn0 Hget) as (Hc & Hs & Hn & Hconn & Hok).
      assert (Hs' : sends (cookie s) s s1) by eauto using sends_trans.
      destruct r1 as [[]|e];
        [|destruct (is_HTTPException e)]; injection H as <- <-;
        repeat split; try assumption; try lia; try discriminate.
    + injection H as <- <-.
      repeat split; try assumption; try lia; discriminate.
Qed.

(** Following one redirect, whatever the cookie: at most one GET, at most
    one connection attempt, and on success the answer is stored. *)
Lemma redirect_counts url s r s' :
  _redirect ua net netloc relurl url s = (r, s') ->
  (n_get s <= n_get s' <= S (n_get s))%nat
  /\ (n_connect s <= n_connect s' <= S (n_connect s))%nat
  /\ (r = Ok tt -> exists resp, last_answer net s' resp).
Proof.
  unfold _redirect. unfold bind at 1, library. intros H.
  destruct (library_error net (Urlparse url)) as [e0|].
  { injection H as <- <-. split; [lia|]. split; [lia|]. discriminate. }
  unfold bind at 1 2, get, try_except, raise in H. cbn in H.
  assert (Hstep : forall s0 r1 s1,
             _raw_get ua net (relurl url) s0 = (r1, s1) ->
             n_get s1 = S (n_get s0) /\ n_connect s1 = n_connect s0
             /\ (r1 = Ok tt -> exists resp, last_answer net s1 resp)).
  { intros s0 r1 s1 Hget. apply raw_get_spec in Hget.
    destruct Hget as (Hn1 & Hconn & _ & _ & _ & _ & Hout).
    repeat split; try assumption.
    intros ->. destruct (get_outcome net (n_get s0)) as [resp|e] eqn:Hresp.
    - destruct Hout as (_ & Hstored & _). exists resp. split; eauto.
    - destruct Hout as (Habs & _). discriminate Habs. }
  destruct (bool_decide (Some (netloc url) = _host s)).
  - cbn in H. destruct (_raw_get ua net (relurl url) s) as [r1 s1] eqn:Hget.
    destruct (Hstep s r1 s1 Hget) as (Hn & Hconn & Hok).
    destruct r1 as [[]|e];
      [|destruct (is_HTTPException e)]; injection H as <- <-;
      repeat split; try assumption; try lia; try discriminate.
  - destruct (new_connection net (Some (netloc url)) None s) as [r0 s0] eqn:Hnew.
    pose proof (new_connection_spec net _ _ s r0 s0 Hnew) as (Hn0 & _ & _ & Hconn0).
    destruct r0 as [[]|e0].
    + destruct (_raw_get ua net (relurl url) s0) as [r1 s1] eqn:Hget.
      destruct (Hstep s0 r1 s1 Hget) as (Hn & Hconn & Hok).
      destruct r1 as [[]|e];
        [|destruct (is_HTTPException e)]; injection H as <- <-;
        repeat split; try assumption; try lia; try discriminate.
    + injection H as <- <-.
      repeat split; try assumption; try lia; discriminate.
Qed.

(** The loop that follows redirects, with [budget] of them still
    allowed: at most [budget] GETs and [budget] connection attempts, and
    the response it returns is the answer to the last GET sent. *)
Lemma redirect_loop_counts (budget : nat) :
  forall (resp : response) s r s',
    redirect_loop ua net netloc relurl budget resp s = (r, s') ->
    last_answer net s resp ->
    (n_get s <= n_get s' <= n_get s + budget)%nat
    /\ (n_connect s <= n_connect s' <= n_connect s + budget)%nat
    /\ (forall resp', r = Ok resp' -> last_answer net s' resp').
Proof.
  induction budget as [|budget IH]; intros resp s r s' Hrun Hlast;
    cbn [redirect_loop] in Hrun.
  { cbv beta iota in Hrun; unfold ret, raise in Hrun; injection Hrun as <- <-. split; [lia|]. split; [lia|]. now intros ? [= <-]. }
  destruct (status resp =? 200).
  { cbv beta iota in Hrun; unfold ret, raise in Hrun; injection Hrun as <- <-. split; [lia|]. split; [lia|]. now intros ? [= <-]. }
  destruct (is_redirect_status (status resp)).
  2:{ cbv beta iota in Hrun; unfold ret, raise in Hrun; injection Hrun as <- <-. split; [lia|]. split; [lia|]. now intros ? [= <-]. }
  destruct (is_blocked_url (default "" (location resp))).
  { cbv beta iota in Hrun; unfold ret, raise in Hrun; injection Hrun as <- <-. split; [lia|]. split; [lia|]. discriminate. }
  unfold bind at 1 in Hrun.
  destruct (_redirect ua net netloc relurl (default "" (location resp)) s)
    as [r1 s1] eqn:Hred.
  apply redirect_counts in Hred. destruct Hred as (Hn1 & Hc1 & Hok).
  destruct r1 as [[]|e1].
  2:{ cbv beta iota in Hrun; unfold ret, raise in Hrun; injection Hrun as <- <-. split; [lia|]. split; [lia|]. discriminate. }
  destruct (Hok eq_refl) as (resp1 & Hlast1).
  unfold bind at 1, current_resp, bind at 1, get in Hrun. cbn in Hrun.
  rewrite (proj1 Hlast1) in Hrun. cbn in Hrun.
  destruct (IH resp1 s1 r s' Hrun Hlast1) as (Hn & Hc & Hret).
  split; [lia|]. split; [lia|]. exact Hret.
Qed.

(** With a cookie stored, the loop keeps it and sends it with every
    request. *)
Lemma redirect_loop_sends (budget : nat) :
  forall (resp : response) s r s',
    redirect_loop ua net netloc relurl budget resp s = (r, s') ->
    cookie s <> "" ->
    cookie s' = cookie s /\ sends (cookie s) s s'.
Proof.
  induction budget as [|budget IH]; intros resp s r s' Hrun Hne;
    cbn [redirect_loop] in Hrun.
  { cbv beta iota in Hrun; unfold ret, raise in Hrun; injection Hrun as <- <-. split; [reflexivity | apply sends_refl]. }
  destruct (status resp =? 200).
  { cbv beta iota in Hrun; unfold ret, raise in Hrun; injection Hrun as <- <-. split; [reflexivity | apply sends_refl]. }
  destruct (is_redirect_status (status resp)).
  2:{ cbv beta iota in Hrun; unfold ret, raise in Hrun; injection Hrun as <- <-. split; [reflexivity | apply sends_refl]. }
  destruct (is_blocked_url (default "" (location resp))).
  { cbv beta iota in Hrun; unfold ret, raise in Hrun; injection Hrun as <- <-. split; [reflexivity | apply sends_refl]. }
  unfold bind at 1 in Hrun.
  destruct (_redirect ua net netloc relurl (default "" (location resp)) s)
    as [r1 s1] eqn:Hred.
  apply redirect_sends in Hred; [|exact Hne].
  destruct Hred as (Hc1 & Hs1 & _).
  destruct r1 as [[]|e1]; [|now injection Hrun as <- <-].
  unfold bind at 1, current_resp, bind at 1, get in Hrun. cbn in Hrun.
  destruct (_resp s1) as [resp1|]; cbn in Hrun.
  2:{ unfold raise in Hrun. now injection Hrun as <- <-. }
  destruct (IH resp1 s1 r s' Hrun) as (Hc & Hs); [congruence|].
  split; [congruence|]. rewrite Hc1 in Hs. eauto using sends_trans.
Qed.

(** *** Which exceptions come out *)

Lemma setup_error_raises (proxy : option string) (h : string)
    (port : option Z) (e : exn) :
  setup_error net proxy h port = Some e -> library_raises net e.
Proof.
  unfold setup_error, library_raises. destruct (negb (falsy proxy)).
  - destruct (library_error net (HTTPSConnection_init (default "" proxy) None))
      as [e0|] eqn:Hinit.
    + intros [= <-]. eauto.
    + intros Htunnel. eauto.
  - intros Hinit. eauto.
Qed.

Lemma raised_elsewhere {A B} (e : exn) :
  connection_or_library_error net (Raise e : result A) ->
  connection_or_library_error net (Raise e : result B).
Proof.
  intros [[(a & Ha)|(msg & [= ->])]|(e' & [= <-] & He)].
  - discriminate Ha.
  - left. right. eauto.
  - right. eauto.
Qed.

Lemma new_connection_errors host port s r s' h :
  new_connection net host port s = (r, s') ->
  _host s = Some h ->
  (exists h', _host s' = Some h') /\ connection_or_library_error net r.
Proof.
  intros H Hh. apply new_connection_full in H. cbn zeta in H.
  destruct H as (Hhost & _ & _ & _ & _ & _ & Hout).
  assert (Hsome : exists h', (if falsy host then (_host s, _port s) else (host, port)).1
                             = Some h').
  { destruct host as [[|c rest]|]; cbn; eauto. }
  destruct Hsome as (h' & Heq). rewrite Heq in Hout, Hhost.
  split; [eauto|].
  destruct (setup_error net (_proxy s) h'
              (if falsy host then (_host s, _port s) else (host, port)).2)
    as [e|] eqn:Hset.
  - destruct Hout as (-> & _). right. exists e. split; [reflexivity|].
    exact (setup_error_raises _ _ _ _ Hset).
  - destruct Hout as (_ & Hout). left.
    destruct (connect_outcome net (n_connect s)).
    + right. exact Hout.
    + left. eauto.
Qed.

Lemma redirect_errors url s r s' h :
  (forall n e, get_outcome net n = Raise e -> is_HTTPException e = true) ->
  _redirect ua net netloc relurl url s = (r, s') ->
  _host s = Some h ->
  (exists h', _host s' = Some h') /\ connection_or_library_error net r.
Proof.
  intros Hnet H Hh.
  unfold _redirect in H. unfold bind at 1, library in H.
  destruct (library_error net (Urlparse url)) as [e0|] eqn:Hparse.
  { injection H as <- <-. split; [eauto|]. right. exists e0.
    split; [reflexivity|]. now exists (Urlparse url). }
  unfold bind at 1 2, get, try_except, raise in H. cbn in H.
  assert (Hstep : forall s0 r1 s1 h0,
             _host s0 = Some h0 ->
             _raw_get ua net (relurl url) s0 = (r1, s1) ->
             _host s1 = Some h0
             /\ (r1 = Ok tt \/ exists e, r1 = Raise e /\ is_HTTPException e = true)).
  { intros s0 r1 s1 h0 Hh0 Hget. apply raw_get_spec in Hget.
    destruct Hget as (_ & _ & Hhost & _ & _ & _ & Hout).
    split; [congruence|].
    destruct (get_outcome net (n_get s0)) as [resp|e] eqn:Hresp.
    - left. tauto.
    - right. exists e. split; [tauto|]. eauto. }
  destruct (bool_decide (Some (netloc url) = _host s)).
  - cbn in H. destruct (_raw_get ua net (relurl url) s) as [r1 s1] eqn:Hget.
    destruct (Hstep s r1 s1 h Hh Hget) as (Hh1 & [->|(e & -> & He)]).
    + injection H as <- <-. split; [eauto|]. left. left. eauto.
    + rewrite He in H. injection H as <- <-. split; [eauto|]. left. right. eauto.
  - destruct (new_connection net (Some (netloc url)) None s) as [r0 s0] eqn:Hnew.
    destruct (new_connection_errors _ _ _ _ _ h Hnew Hh) as ((h0 & Hh0) & Hr0).
    destruct r0 as [[]|e0].
    + destruct (_raw_get ua net (relurl url) s0) as [r1 s1] eqn:Hget.
      destruct (Hstep s0 r1 s1 h0 Hh0 Hget) as (Hh1 & [->|(e & -> & He)]).
      * injection H as <- <-. split; [eauto|]. left. left. eauto.
      * rewrite He in H. injection H as <- <-. split; [eauto|]. left. right. eauto.
    + injection H as <- <-. split; [eauto | exact Hr0].
Qed.

Lemma redirect_loop_errors (budget : nat) :
  (forall n e, get_outcome net n = Raise e -> is_HTTPException e = true) ->
  forall (resp : response) s r s' h,
    redirect_loop ua net netloc relurl budget resp s = (r, s') ->
    _host s = Some h ->
    connection_or_library_error net r.
Proof.
  intros Hnet.
  induction budget as [|budget IH]; intros resp s r s' h Hrun Hh;
    cbn [redirect_loop] in Hrun.
  { injection Hrun as <- <-. left. left. eauto. }
  destruct (status resp =? 200).
  { injection Hrun as <- <-. left. left. eauto. }
  destruct (is_redirect_status (status resp)).
  2:{ injection Hrun as <- <-. left. left. eauto. }
  destruct (is_blocked_url (default "" (location resp))).
  { injection Hrun as <- <-. left. right. eauto. }
  unfold bind at 1 in Hrun.
  destruct (_redirect ua net netloc relurl (default "" (location resp)) s)
    as [r1 s1] eqn:Hred.
  pose proof (redirect_counts _ _ _ _ Hred) as (_ & _ & Hok).
  destruct (redirect_errors _ _ _ _ h Hnet Hred Hh) as ((h1 & Hh1) & Hr1).
  destruct r1 as [[]|e1].
  2:{ injection Hrun as <- <-. exact (raised_elsewhere e1 Hr1). }
  destruct (Hok eq_refl) as (resp1 & Hlast1).
  unfold bind at 1, current_resp, bind at 1, get in Hrun. cbn in Hrun.
  rewrite (proj1 Hlast1) in Hrun. cbn in Hrun.
  exact (IH resp1 s1 r s' h1 Hrun Hh1).
Qed.

Local Arguments redirect_loop : simpl never.

(** What [fetch_page] does once a response is stored: the loop and the
    check of the final status. *)
Lemma after_response (resp : response) s r s' :
  (resp0 <~ current_resp;;
   resp0 <~ redirect_loop ua net netloc relurl 3 resp0;;
   if negb (status resp0 =? 200) then
     raise (GoogleConnectionError
              ("Got HTTP " ++ Py.str_of_int (status resp0) ++ ": " ++ reason resp0))
   else fun s => (page resp0, s)) s = (r, s') ->
  last_answer net s resp ->
  (n_get s <= n_get s' <= n_get s + 3)%nat
  /\ (n_connect s <= n_connect s' <= n_connect s + 3)%nat
  /\ (forall body, r = Ok body ->
        exists resp', last_answer net s' resp'
                      /\ status resp' = 200 /\ page resp' = Ok body)
  /\ (cookie s <> "" -> cookie s' = cookie s /\ sends (cookie s) s s').
Proof.
  intros Hrun Hlast.
  unfold bind at 1, current_resp, bind at 1, get in Hrun. cbn in Hrun.
  rewrite (proj1 Hlast) in Hrun. cbn in Hrun.
  unfold bind at 1 in Hrun.
  destruct (redirect_loop ua net netloc relurl 3 resp s) as [r2 s2] eqn:Hloop.
  pose proof (redirect_loop_counts 3 resp s r2 s2 Hloop Hlast) as (Hn & Hc & Hret).
  pose proof (redirect_loop_sends 3 resp s r2 s2 Hloop) as Hsends.
  destruct r2 as [resp2|e].
  2:{ injection Hrun as <- <-. repeat split; try lia; try discriminate;
        now apply Hsends. }
  destruct (Z.eqb_spec (status resp2) 200) as [H200|H200]; cbn in Hrun.
  - injection Hrun as <- <-. repeat split; try lia; try (now apply Hsends).
    intros body Hbody. exists resp2. auto.
  - unfold raise in Hrun. injection Hrun as <- <-.
    repeat split; try lia; try discriminate; now apply Hsends.
Qed.

(** One call of [fetch_page], whatever the network does. *)
Lemma fetch_page_inv url s r s' :
  fetch_page ua net netloc relurl url s = (r, s') ->
  (n_get s < n_get s' <= n_get s + 5)%nat
  /\ (n_connect s <= n_connect s' <= n_connect s + 4)%nat
  /\ (forall body, r = Ok body ->
        exists resp, last_answer net s' resp
                     /\ status resp = 200 /\ page resp = Ok body)
  /\ (cookie s <> "" -> cookie s' = cookie s /\ sends (cookie s) s s').
Proof.
  intros Hrun. unfold fetch_page in Hrun.
  unfold bind at 1, try_except at 1 in Hrun.
  destruct (_raw_get ua net url s) as [r1 s1] eqn:Hget1.
  pose proof (raw_get_sends url s r1 s1 Hget1) as Hs1.
  apply raw_get_spec in Hget1.
  destruct Hget1 as (Hn1 & Hc1 & _ & _ & _ & _ & Hout1).
  assert (Hs1' : cookie s <> "" -> cookie s1 = cookie s /\ sends (cookie s) s s1).
  { intros Hne. now destruct (Hs1 Hne) as (? & ? & _). }
  clear Hs1.
  destruct (get_outcome net (n_get s)) as [resp0|e1] eqn:Hresp0.
  - destruct Hout1 as (-> & Hstored & _).
    assert (Hlast : last_answer net s1 resp0) by (split; eauto).
    destruct (after_response resp0 s1 r s' Hrun Hlast) as (Hn & Hc & Hbody & Hck).
    split; [lia|]. split; [lia|]. split; [exact Hbody|].
    intros Hne. destruct (Hs1' Hne) as (Hk1 & Hsend1).
    destruct Hck as (Hk & Hsend); [congruence|].
    split; [congruence|]. rewrite Hk1 in Hsend. eauto using sends_trans.
  - destruct Hout1 as (-> & _ & _).
    destruct (is_HTTPException e1 || is_OSError e1).
    2:{ injection Hrun as <- <-. split; [lia|]. split; [lia|].
        split; [discriminate | exact Hs1']. }
    unfold bind at 1, renew_connection in Hrun.
    destruct (new_connection net None None s1) as [r0 s0] eqn:Hnew.
    pose proof (new_connection_sends None None s1 r0 s0 Hnew) as (Hk0 & Hsend0 & _).
    apply new_connection_spec in Hnew. destruct Hnew as (Hn0 & _ & _ & Hc0).
    assert (Hs0 : cookie s <> "" -> cookie s0 = cookie s /\ sends (cookie s) s s0).
    { intros Hne. destruct (Hs1' Hne) as (Hk1 & Hsend1).
      split; [congruence|]. rewrite Hk1 in Hsend0. eauto using sends_trans. }
    destruct r0 as [[]|e0].
    2:{ injection Hrun as <- <-. split; [lia|]. split; [lia|].
        split; [discriminate | exact Hs0]. }
    unfold try_except at 1 in Hrun.
    destruct (_raw_get ua net url s0) as [r2 s2] eqn:Hget2.
    pose proof (raw_get_sends url s0 r2 s2 Hget2) as Hs2.
    apply raw_get_spec in Hget2.
    destruct Hget2 as (Hn2 & Hc2 & _ & _ & _ & _ & Hout2).
    assert (Hs2' : cookie s <> "" -> cookie s2 = cookie s /\ sends (cookie s) s s2).
    { intros Hne. destruct (Hs0 Hne) as (Hk & Hsend).
      destruct Hs2 as (Hk2 & Hsend2 & _); [congruence|].
      split; [congruence|]. rewrite Hk in Hsend2. eauto using sends_trans. }
    clear Hs2.
    destruct (get_outcome net (n_get s0)) as [resp0|e2] eqn:Hresp0'.
    + destruct Hout2 as (-> & Hstored & _).
      assert (Hlast : last_answer net s2 resp0) by (split; eauto).
      destruct (after_response resp0 s2 r s' Hrun Hlast) as (Hn & Hc & Hbody & Hck).
      split; [lia|]. split; [lia|]. split; [exact Hbody|].
      intros Hne. destruct (Hs2' Hne) as (Hk & Hsend).
      destruct Hck as (Hk' & Hsend'); [congruence|].
      split; [congruence|]. rewrite Hk in Hsend'. eauto using sends_trans.
    + destruct Hout2 as (-> & _ & _).
      destruct (is_HTTPException e2); unfold raise in Hrun;
        injection Hrun as <- <-; (split; [lia|]); (split; [lia|]);
        (split; [discriminate | exact Hs2']).
Qed.

Lemma after_response_errors (resp : response) s r s' h :
  (resp0 <~ current_resp;;
   resp0 <~ redirect_loop ua net netloc relurl 3 resp0;;
   if negb (status resp0 =? 200) then
     raise (GoogleConnectionError
              ("Got HTTP " ++ Py.str_of_int (status resp0) ++ ": " ++ reason resp0))
   else fun s => (page resp0, s)) s = (r, s') ->
  http_failures_only net ->
  last_answer net s resp ->
  _host s = Some h ->
  connection_or_library_error net r.
Proof.
  intros Hrun (Hnet & Hpage) Hlast Hh.
  unfold bind at 1, current_resp, bind at 1, get in Hrun. cbn in Hrun.
  rewrite (proj1 Hlast) in Hrun. cbn in Hrun.
  unfold bind at 1 in Hrun.
  destruct (redirect_loop ua net netloc relurl 3 resp s) as [r2 s2] eqn:Hloop.
  pose proof (redirect_loop_counts 3 resp s r2 s2 Hloop Hlast) as (_ & _ & Hret).
  pose proof (redirect_loop_errors 3 Hnet resp s r2 s2 h Hloop Hh) as Hr2.
  destruct r2 as [resp2|e].
  2:{ injection Hrun as <- <-. exact (raised_elsewhere e Hr2). }
  destruct (Hret resp2 eq_refl) as (_ & g & _ & Hg).
  destruct (Z.eqb_spec (status resp2) 200) as [H200|H200]; cbn in Hrun.
  - injection Hrun as <- <-. left. left. exact (Hpage g resp2 Hg H200).
  - unfold raise in Hrun. injection Hrun as <- <-. left. right. eauto.
Qed.

Lemma fetch_page_errors url s r s' h :
  fetch_page ua net netloc relurl url s = (r, s') ->
  http_failures_only net ->
  _host s = Some h ->
  connection_or_library_error net r.
Proof.
  intros Hrun Hhttp Hh. pose proof Hhttp as (Hnet & _).
  unfold fetch_page in Hrun.
  unfold bind at 1, try_except at 1 in Hrun.
  destruct (_raw_get ua net url s) as [r1 s1] eqn:Hget1.
  apply raw_get_spec in Hget1.
  destruct Hget1 as (Hn1 & _ & Hh1 & _ & _ & _ & Hout1).
  destruct (get_outcome net (n_get s)) as [resp0|e1] eqn:Hresp0.
  - destruct Hout1 as (-> & Hstored & _).
    assert (Hlast : last_answer net s1 resp0) by (split; eauto).
    apply (after_response_errors resp0 s1 r s' h Hrun Hhttp Hlast). congruence.
  - destruct Hout1 as (-> & _ & _).
    rewrite (Hnet _ _ Hresp0) in Hrun. cbn [orb] in Hrun.
    unfold bind at 1, renew_connection in Hrun.
    destruct (new_connection net None None s1) as [r0 s0] eqn:Hnew.
    destruct (new_connection_errors _ _ _ _ _ h Hnew) as ((h0 & Hh0) & Hr0);
      [congruence|].
    destruct r0 as [[]|e0].
    2:{ injection Hrun as <- <-. exact (raised_elsewhere e0 Hr0). }
    unfold try_except at 1 in Hrun.
    destruct (_raw_get ua net url s0) as [r2 s2] eqn:Hget2.
    apply raw_get_spec in Hget2.
    destruct Hget2 as (Hn2 & _ & Hh2 & _ & _ & _ & Hout2).
    destruct (get_outcome net (n_get s0)) as [resp0|e2] eqn:Hresp0'.
    + destruct Hout2 as (-> & Hstored & _).
      assert (Hlast : last_answer net s2 resp0) by (split; eauto).
      apply (after_response_errors resp0 s2 r s' h0 Hrun Hhttp Hlast). congruence.
    + destruct Hout2 as (-> & _ & _).
      rewrite (Hnet _ _ Hresp0') in Hrun. unfold raise in Hrun.
      injection Hrun as <- <-. left. right. eauto.
Qed.

(** X10: one call of [fetch_page] sends at least one GET and at most five
    (the first, one retry, three redirects), and opens at most four
    connections (one for the retry, one for each redirect). *)
Theorem fetch_page_request_bounds url s :
  let s' := (fetch_page ua net netloc relurl url s).2 in
  (n_get s < n_get s' <= n_get s + 5)%nat
  /\ (n_connect s <= n_connect s' <= n_connect s + 4)%nat.
Proof.
  cbn zeta. destruct (fetch_page ua net netloc relurl url s) as [r s'] eqn:Hrun.
  apply fetch_page_inv in Hrun. cbn [snd]. tauto.
Qed.

(** X11: the page that [fetch_page] returns is the payload of the answer
    to the last GET it sent; that answer has status 200 and is the
    response stored in the connection. *)
Theorem fetch_page_returns_last_page url s body s' :
  fetch_page ua net netloc relurl url s = (Ok body, s') ->
  exists resp,
    last_answer net s' resp /\ status resp = 200 /\ page resp = Ok body.
Proof.
  intros Hrun. apply fetch_page_inv in Hrun.
  destruct Hrun as (_ & _ & Hbody & _). now apply Hbody.
Qed.

(** X12: once a cookie is stored, [fetch_page] never replaces it,
    whatever [Set-Cookie] headers arrive, and every GET of the call, the
    retry and the redirects included, carries it. *)
Theorem fetch_page_keeps_cookie url s :
  cookie s <> "" ->
  let s' := (fetch_page ua net netloc relurl url s).2 in
  cookie s' = cookie s
  /\ cookies_sent (trace s')
     = (cookies_sent (trace s) ++ replicate (n_get s' - n_get s) (cookie s))%list.
Proof.
  intros Hne. cbn zeta.
  destruct (fetch_page ua net netloc relurl url s) as [r s'] eqn:Hrun.
  apply fetch_page_inv in Hrun. cbn [snd].
  destruct Hrun as (_ & _ & _ & Hck). destruct (Hck Hne) as (Hc & k & Hn & Ht).
  split; [exact Hc|]. rewrite Ht. do 2 f_equal. lia.
Qed.

(** X13: when the first GET fails with an [HTTPException] or an
    [OSError], the connection is renewed and the retry is answered with
    status 200, [fetch_page] returns the page of the retry after two GETs
    and one new connection. That is when the library accepts the current
    host once more; when instead its constructor or [set_tunnel] raises,
    that exception comes out of [fetch_page] after the one GET and with
    no connection attempt. *)
Theorem fetch_page_retry_succeeds url s h e1 resp :
  get_outcome net (n_get s) = Raise e1 ->
  is_HTTPException e1 || is_OSError e1 = true ->
  _host s = Some h ->
  connect_outcome net (n_connect s) = None ->
  get_outcome net (S (n_get s)) = Ok resp ->
  status resp = 200 ->
  match setup_error net (_proxy s) h (_port s) with
  | None =>
      exists s',
        fetch_page ua net netloc relurl url s = (page resp, s')
        /\ n_get s' = S (S (n_get s)) /\ n_connect s' = S (n_connect s)
        /\ _resp s' = Some resp
  | Some e =>
      exists s',
        fetch_page ua net netloc relurl url s = (Raise e, s')
        /\ n_get s' = S (n_get s) /\ n_connect s' = n_connect s
  end.
Proof.
  intros H1 Hcaught Hh Hc H2 H200.
  assert (Hfirst : exists s1,
             _raw_get ua net url s = (Raise e1, s1)
             /\ n_get s1 = S (n_get s) /\ n_connect s1 = n_connect s
             /\ _host s1 = _host s /\ _port s1 = _port s /\ _proxy s1 = _proxy s).
  { destruct (_raw_get ua net url s) as [r1 s1] eqn:Hget1.
    apply raw_get_spec in Hget1.
    destruct Hget1 as (Hn1 & Hc1 & Hh1 & Hp1 & Hx1 & _ & Hout1).
    rewrite H1 in Hout1. destruct Hout1 as (-> & _ & _). eauto 10. }
  destruct Hfirst as (s1 & Hget1 & Hn1 & Hc1 & Hh1 & Hp1 & Hx1).
  destruct (setup_error net (_proxy s) h (_port s)) as [e|] eqn:Hset.
  - destruct (renew_connection_refused net s1 h e) as (s0 & Hrenew & Hn0 & Hc0);
      [congruence | congruence |].
    exists s0. unfold fetch_page. unfold bind at 1, try_except at 1.
    rewrite Hget1, Hcaught. unfold bind at 1. rewrite Hrenew.
    split; [reflexivity|]. split; congruence.
  - destruct (renew_connection_ok net s1 h) as (s0 & Hrenew & Hn0 & Hc0 & Hh0 & _);
      [congruence | congruence | congruence |].
    unfold fetch_page. unfold bind at 1, try_except at 1.
    rewrite Hget1, Hcaught. unfold bind at 1. rewrite Hrenew.
    unfold try_except at 1.
    destruct (_raw_get ua net url s0) as [r2 s2] eqn:Hget2.
    apply raw_get_spec in Hget2.
    destruct Hget2 as (Hn2 & Hc2 & _ & _ & _ & _ & Hout2).
    rewrite Hn0, Hn1, H2 in Hout2. destruct Hout2 as (-> & Hstored & _).
    unfold bind at 1, current_resp, bind at 1, get. cbn.
    rewrite Hstored. cbn. unfold bind at 1.
    assert (Hloop : redirect_loop ua net netloc relurl 3 resp s2 = (Ok resp, s2)).
    { unfold redirect_loop. now rewrite H200. }
    rewrite Hloop, H200. cbn.
    exists s2. repeat split; congruence.
Qed.

(** X14: [new_connection] towards a known host, the given one or, when
    none is given, the current one: it records the host and the port
    whatever follows, sends no GET and keeps the cookie. When the library
    refuses the host, the port or the proxy (the constructor of the
    connection or [set_tunnel] raises), that exception comes out as it is
    and no connection attempt is made; otherwise exactly one attempt is
    made, and its failure is reported as [GoogleConnectionError]. *)
Theorem new_connection_outcome host port s h :
  (if falsy host then _host s else host) = Some h ->
  let r := (new_connection net host port s).1 in
  let s' := (new_connection net host port s).2 in
  let port' := if falsy host then _port s else port in
  _host s' = Some h
  /\ _port s' = port'
  /\ n_get s' = n_get s
  /\ cookie s' = cookie s
  /\ match setup_error net (_proxy s) h port' with
     | Some e => r = Raise e /\ n_connect s' = n_connect s
     | None =>
         n_connect s' = S (n_connect s)
         /\ (connect_outcome net (n_connect s) = None -> r = Ok tt)
         /\ (connect_outcome net (n_connect s) <> None ->
             exists msg, r = Raise (GoogleConnectionError msg))
     end.
Proof.
  intros Hh. cbn zeta.
  destruct (new_connection net host port s) as [r s'] eqn:Hrun. cbn [fst snd].
  apply new_connection_full in Hrun. cbn zeta in Hrun.
  destruct Hrun as (Hhost & Hport & Hck & _ & Hn & _ & Hout).
  assert (Htarget : (if falsy host then (_host s, _port s) else (host, port))
                    = (Some h, if falsy host then _port s else port)).
  { destruct (falsy host); now rewrite Hh. }
  rewrite Htarget in Hhost, Hport, Hout. cbn [fst snd] in Hhost, Hport, Hout.
  do 4 (split; [assumption|]).
  destruct (setup_error net (_proxy s) h (if falsy host then _port s else port));
    [exact Hout|].
  destruct Hout as (Hc & Hout). split; [exact Hc|].
  destruct (connect_outcome net (n_connect s)); split; congruence.
Qed.

(** X15: on a network whose GETs fail with [HTTPException] only and
    whose pages can be read, a connection that knows its host gets from
    [fetch_page] a page, a [GoogleConnectionError], or an exception that
    the library raised on a host or on the URL of a redirect (the
    constructor of the connection, [set_tunnel], [urlparse]), which
    [fetch_page] lets through as it is: nothing else comes out. *)
Theorem fetch_page_only_connection_errors url s h :
  http_failures_only net ->
  _host s = Some h ->
  connection_or_library_error net (fetch_page ua net netloc relurl url s).1.
Proof.
  intros Hhttp Hh.
  destruct (fetch_page ua net netloc relurl url s) as [r s'] eqn:Hrun.
  exact (fetch_page_errors url s r s' h Hrun Hhttp Hh).
Qed.

(** X16: a redirect to the host of the connection is followed on that
    connection: no connection attempt, and one GET for the path of the
    redirect. That is when [urlparse] accepts the URL; when it raises,
    the exception comes out and nothing is sent. *)
Theorem redirect_to_same_host_reuses_connection url s :
  _host s = Some (netloc url) ->
  let r := (_redirect ua net netloc relurl url s).1 in
  let s' := (_redirect ua net netloc relurl url s).2 in
  match library_error net (Urlparse url) with
  | None =>
      n_connect s' = n_connect s /\ _host s' = _host s
      /\ trace s'
         = (trace s
              ++ [Get (relurl url) (if ua then USER_AGENT else "") (cookie s)])%list
  | Some e => r = Raise e /\ s' = s
  end.
Proof.
  intros Hh. cbn zeta.
  destruct (_redirect ua net netloc relurl url s) as [r s'] eqn:H. cbn [fst snd].
  unfold _redirect in H. unfold bind at 1, library in H.
  destruct (library_error net (Urlparse url)) as [e0|].
  { injection H as <- <-. auto. }
  unfold bind at 1 2, get, try_except, raise in H. cbn in H.
  rewrite bool_decide_eq_true_2 in H by congruence. cbn in H.
  destruct (_raw_get ua net (relurl url) s) as [r1 s1] eqn:Hget.
  apply raw_get_spec in Hget.
  destruct Hget as (_ & Hc & Hhost & _ & _ & Htrace & _).
  destruct r1 as [[]|e]; [|destruct (is_HTTPException e)];
    injection H as <- <-; auto.
Qed.

(** X17: a redirect to any other host opens a connection first: to the
    host of the URL, or again to the current host and port when the URL
    names no host. When [urlparse] raises on the URL, that exception
    comes out and nothing changes. When the library refuses the new host
    (the constructor of the connection or [set_tunnel] raises), that
    exception comes out as it is, with no connection attempt and no GET.
    Otherwise one connection attempt is made, and when it fails no GET is
    sent and the redirect ends in [GoogleConnectionError]. *)
Theorem redirect_to_other_host_reconnects url s h :
  _host s = Some h ->
  h <> netloc url ->
  let r := (_redirect ua net netloc relurl url s).1 in
  let s' := (_redirect ua net netloc relurl url s).2 in
  let host' := if String.eqb (netloc url) "" then h else netloc url in
  let port' := if String.eqb (netloc url) "" then _port s else None in
  match library_error net (Urlparse url) with
  | Some e => r = Raise e /\ s' = s
  | None =>
      _host s' = Some host' /\ _port s' = port'
      /\ match setup_error net (_proxy s) host' port' with
         | Some e => r = Raise e /\ n_connect s' = n_connect s /\ n_get s' = n_get s
         | None =>
             n_connect s' = S (n_connect s)
             /\ (connect_outcome net (n_connect s) <> None ->
                 n_get s' = n_get s
                 /\ exists msg, r = Raise (GoogleConnectionError msg))
         end
  end.
Proof.
  intros Hh Hne. cbn zeta.
  destruct (_redirect ua net netloc relurl url s) as [r s'] eqn:H. cbn [fst snd].
  unfold _redirect in H. unfold bind at 1, library in H.
  destruct (library_error net (Urlparse url)) as [e0|].
  { injection H as <- <-. auto. }
  unfold bind at 1 2, get, try_except, raise in H. cbn in H.
  rewrite bool_decide_eq_false_2 in H by congruence.
  destruct (new_connection net (Some (netloc url)) None s) as [r0 s0] eqn:Hnew.
  apply new_connection_full in Hnew. cbn zeta in Hnew.
  destruct Hnew as (Hhost & Hport & _ & _ & Hn0 & _ & Hout).
  assert (Htarget : (if falsy (Some (netloc url)) then (_host s, _port s)
                     else (Some (netloc url), None))
                    = (Some (if String.eqb (netloc url) "" then h else netloc url),
                       if String.eqb (netloc url) "" then _port s else None)).
  { rewrite Hh. destruct (netloc url); reflexivity. }
  rewrite Htarget in Hhost, Hport, Hout. cbn [fst snd] in Hhost, Hport, Hout.
  assert (Hkeep : forall r1 s1, _raw_get ua net (relurl url) s0 = (r1, s1) ->
                                _host s1 = _host s0 /\ _port s1 = _port s0
                                /\ n_connect s1 = n_connect s0).
  { intros r1 s1 Hget. apply raw_get_spec in Hget.
    destruct Hget as (_ & Hc & Hh1 & Hp1 & _). auto. }
  destruct r0 as [[]|e0].
  - destruct (_raw_get ua net (relurl url) s0) as [r1 s1] eqn:Hget.
    destruct (Hkeep r1 s1 eq_refl) as (Hh1 & Hp1 & Hc1).
    assert (Hs' : _host s' = _host s0 /\ _port s' = _port s0
                  /\ n_connect s' = n_connect s0).
    { destruct r1 as [[]|e]; [|destruct (is_HTTPException e)];
        injection H as <- <-; auto. }
    destruct Hs' as (Hs'h & Hs'p & Hs'c). rewrite Hs'h, Hs'p, Hs'c.
    split; [exact Hhost|]. split; [exact Hport|].
    destruct (setup_error net (_proxy s)
                (if String.eqb (netloc url) "" then h else netloc url)
                (if String.eqb (netloc url) "" then _port s else None)) as [e|].
    + destruct Hout as (Habs & _). discriminate Habs.
    + destruct Hout as (Hc0 & Hout). split; [exact Hc0|]. intros Hfail.
      destruct (connect_outcome net (n_connect s)); [|congruence].
      destruct Hout as (msg & Habs). discriminate Habs.
  - injection H as <- <-.
    split; [exact Hhost|]. split; [exact Hport|].
    destruct (setup_error net (_proxy s)
                (if String.eqb (netloc url) "" then h else netloc url)
                (if String.eqb (netloc url) "" then _port s else None)) as [e|].
    + destruct Hout as (Hr & Hc). split; [exact Hr|]. split; [exact Hc | exact Hn0].
    + destruct Hout as (Hc0 & Hout). split; [exact Hc0|]. intros Hfail.
      split; [exact Hn0|].
      destruct (connect_outcome net (n_connect s)); [exact Hout | congruence].
Qed.

End ConnectionMore.

(** X11 on two redirects, the second to another host, and then a page. *)
Lemma fetch_page_returns_last_page_witness :
  exists resp,
    last_answer network_redirects
      (GoogleConnection.fetch_page true network_redirects sample_netloc
         sample_relurl "/search?q=x" (connected network_redirects)).2 resp
    /\ GoogleConnection.status resp = 200
    /\ GoogleConnection.page resp = Ok "<html>results</html>".
Proof.
  apply (fetch_page_returns_last_page true network_redirects sample_netloc
           sample_relurl "/search?q=x" (connected network_redirects)).
  vm_compute. reflexivity.
Defined.

(** X12 on the second fetch of a connection whose first fetch received a
    cookie. *)
Lemma fetch_page_keeps_cookie_witness :
  let s := (GoogleConnection.fetch_page true network_cookie sample_netloc
              sample_relurl "/search?q=x" (connected network_cookie)).2 in
  let s' := (GoogleConnection.fetch_page true network_cookie sample_netloc
               sample_relurl "/search?q=x&start=10" s).2 in
  GoogleConnection.cookie s = "NID=abc"
  /\ GoogleConnection.cookie s' = GoogleConnection.cookie s
  /\ cookies_sent (GoogleConnection.trace s')
     = (cookies_sent (GoogleConnection.trace s)
          ++ replicate (GoogleConnection.n_get s' - GoogleConnection.n_get s)
               (GoogleConnection.cookie s))%list.
Proof.
  cbn zeta. split; [vm_compute; reflexivity|].
  apply (fetch_page_keeps_cookie true network_cookie sample_netloc sample_relurl
           "/search?q=x&start=10").
  vm_compute. discriminate.
Defined.

(** X13 on a connection that is reset once. *)
Lemma fetch_page_retry_succeeds_witness :
  exists s',
    GoogleConnection.fetch_page true network_reset_once sample_netloc
      sample_relurl "/search?q=x" (connected network_reset_once)
    = (Ok "<html>results</html>", s')
    /\ GoogleConnection.n_get s' = 2%nat
    /\ GoogleConnection.n_connect s' = 2%nat
    /\ GoogleConnection._resp s' = Some (ok_response "<html>results</html>").
Proof.
  refine (fetch_page_retry_succeeds true network_reset_once sample_netloc
            sample_relurl "/search?q=x" (connected network_reset_once)
            "www.google.com" OSError (ok_response "<html>results</html>")
            _ _ _ _ _ _);
    vm_compute; reflexivity.
Defined.

(** X14 on the renewal of a connection when the network is gone, and on
    a host that the library refuses. *)
Lemma new_connection_outcome_witness :
  (let r := (GoogleConnection.new_connection network_down None None
               (connected network_down)).1 in
   let s' := (GoogleConnection.new_connection network_down None None
                (connected network_down)).2 in
   GoogleConnection._host s' = Some "www.google.com"
   /\ GoogleConnection._port s' = None
   /\ GoogleConnection.n_get s' = 0%nat
   /\ GoogleConnection.cookie s' = ""
   /\ GoogleConnection.n_connect s' = 2%nat
   /\ (GoogleConnection.connect_outcome network_down 1 = None -> r = Ok tt)
   /\ (GoogleConnection.connect_outcome network_down 1 <> None ->
       exists msg, r = Raise (GoogleConnectionError msg)))
  /\ (let r := (GoogleConnection.new_connection network_bad_port
                  (Some "www.google.com:x") None (connected network_bad_port)).1 in
      let s' := (GoogleConnection.new_connection network_bad_port
                   (Some "www.google.com:x") None (connected network_bad_port)).2 in
      GoogleConnection._host s' = Some "www.google.com:x"
      /\ GoogleConnection._port s' = None
      /\ GoogleConnection.n_get s' = 0%nat
      /\ GoogleConnection.cookie s' = ""
      /\ r = Raise (InvalidURL "nonnumeric port: 'x'")
      /\ GoogleConnection.n_connect s' = 1%nat).
Proof.
  split.
  - refine (new_connection_outcome network_down None None
              (connected network_down) "www.google.com" _).
    vm_compute. reflexivity.
  - refine (new_connection_outcome network_bad_port (Some "www.google.com:x")
              None (connected network_bad_port) "www.google.com:x" _).
    vm_compute. reflexivity.
Defined.

(** X15 on a network where every GET fails with [HTTPException], and on
    one that redirects to a host that the library refuses. *)
Lemma fetch_page_only_connection_errors_witness :
  (http_failures_only network_http_errors
   /\ connection_or_library_error network_http_errors
        (GoogleConnection.fetch_page true network_http_errors sample_netloc
           sample_relurl "/search?q=x" (connected network_http_errors)).1)
  /\ (http_failures_only network_bad_port
      /\ connection_or_library_error network_bad_port
           (GoogleConnection.fetch_page true network_bad_port sample_netloc
              sample_relurl "/search?q=x" (connected network_bad_port)).1
      /\ (GoogleConnection.fetch_page true network_bad_port sample_netloc
            sample_relurl "/search?q=x" (connected network_bad_port)).1
         = Raise (InvalidURL "nonnumeric port: 'x'")).
Proof.
  assert (H : http_failures_only network_http_errors).
  { split.
    - intros n e He. cbn in He. injection He as <-. reflexivity.
    - intros n resp He. cbn in He. discriminate He. }
  assert (H' : http_failures_only network_bad_port).
  { split.
    - intros n e He. cbn in He. discriminate He.
    - intros n resp He Hst. cbn in He. injection He as <-. cbn in Hst.
      discriminate Hst. }
  split; [split; [exact H|] | split; [exact H' | split]].
  - apply (fetch_page_only_connection_errors true network_http_errors
             sample_netloc sample_relurl "/search?q=x"
             (connected network_http_errors) "www.google.com" H).
    vm_compute. reflexivity.
  - apply (fetch_page_only_connection_errors true network_bad_port
             sample_netloc sample_relurl "/search?q=x"
             (connected network_bad_port) "www.google.com" H').
    vm_compute. reflexivity.
  - vm_compute. reflexivity.
Defined.

(** X16 on a redirect within [www.google.com]. *)
Lemma redirect_to_same_host_reuses_connection_witness :
  let s := connected network_redirects in
  let s' := (GoogleConnection._redirect true network_redirects sample_netloc
               sample_relurl "https://www.google.com/a" s).2 in
  GoogleConnection.n_connect s' = GoogleConnection.n_connect s
  /\ GoogleConnection._host s' = GoogleConnection._host s
  /\ GoogleConnection.trace s'
     = (GoogleConnection.trace s
          ++ [GoogleConnection.Get (sample_relurl "https://www.google.com/a")
                GoogleConnection.USER_AGENT (GoogleConnection.cookie s)])%list.
Proof.
  refine (redirect_to_same_host_reuses_connection true network_redirects
            sample_netloc sample_relurl "https://www.google.com/a"
            (connected network_redirects) _).
  vm_compute. reflexivity.
Defined.

(** X17 on a redirect from [www.google.com] to [www.google.de], and on
    one to a host that the library refuses. *)
Lemma redirect_to_other_host_reconnects_witness :
  (let s := connected network_redirects in
   let s' := (GoogleConnection._redirect true network_redirects sample_netloc
                sample_relurl "https://www.google.de/b" s).2 in
   GoogleConnection._host s' = Some "www.google.de"
   /\ GoogleConnection._port s' = None
   /\ GoogleConnection.n_connect s' = 2%nat)
  /\ (let s := connected network_bad_port in
      let r := (GoogleConnection._redirect true network_bad_port sample_netloc
                  sample_relurl "https://www.google.com:x/" s).1 in
      let s' := (GoogleConnection._redirect true network_bad_port sample_netloc
                   sample_relurl "https://www.google.com:x/" s).2 in
      GoogleConnection._host s' = Some "www.google.com:x"
      /\ GoogleConnection._port s' = None
      /\ r = Raise (InvalidURL "nonnumeric port: 'x'")
      /\ GoogleConnection.n_connect s' = 1%nat
      /\ GoogleConnection.n_get s' = 0%nat).
Proof.
  split; cbn zeta.
  - pose proof (redirect_to_other_host_reconnects true network_redirects
                  sample_netloc sample_relurl "https://www.google.de/b"
                  (connected network_redirects) "www.google.com"
                  eq_refl ltac:(vm_compute; discriminate)) as H.
    cbn zeta in H.
    change (GoogleConnection.library_error network_redirects
              (GoogleConnection.Urlparse "https://www.google.de/b")) with (@None exn) in H.
    cbv iota in H. destruct H as (Hhost & Hport & H).
    change (setup_error network_redirects _ _ _) with (@None exn) in H.
    cbv iota in H. destruct H as (Hc & _).
    split; [exact Hhost|]. split; [exact Hport | exact Hc].
  - refine (redirect_to_other_host_reconnects true network_bad_port
              sample_netloc sample_relurl "https://www.google.com:x/"
              (connected network_bad_port) "www.google.com" _ _).
    + vm_compute. reflexivity.
    + vm_compute. discriminate.
Defined.

(** X18: the first response with a [Set-Cookie] header that holds a [;],
    received while no cookie is stored, stores the part before the [;];
    here on a cookie with attributes. *)
Lemma raw_get_stores_cookie_witness :
  GoogleConnection.cookie
    (GoogleConnection._raw_get true network_cookie "/search?q=x"
       (connected network_cookie)).2
  = before_semicolon "NID=abc; path=/; HttpOnly".
Proof.
  apply (raw_get_stores_cookie true network_cookie "/search?q=x"
           (connected network_cookie)
           (GoogleConnection._raw_get true network_cookie "/search?q=x"
              (connected network_cookie)).1
           (GoogleConnection._raw_get true network_cookie "/search?q=x"
              (connected network_cookie)).2
           (with_set_cookie "NID=abc; path=/; HttpOnly"
              (ok_response "<html></html>"))
           "NID=abc; path=/; HttpOnly").
  - vm_compute. reflexivity.
  - vm_compute. reflexivity.
  - vm_compute. reflexivity.
  - vm_compute. reflexivity.
  - vm_compute. discriminate.
Defined.

(** X19 on a connection that is reset twice. *)
Lemma fetch_page_second_failure_witness :
  exists s',
    GoogleConnection.fetch_page true network_two_resets sample_netloc
      sample_relurl "/search?q=x" (connected network_two_resets)
    = (Raise OSError, s')
    /\ GoogleConnection.n_get s' = 2%nat
    /\ GoogleConnection.n_connect s' = 2%nat.
Proof.
  refine (fetch_page_second_failure true network_two_resets sample_netloc
            sample_relurl "/search?q=x" (connected network_two_resets)
            "www.google.com" OSError OSError _ _ _ _ _);
    vm_compute; reflexivity.
Defined.

(** ** GoogleParser: numbering, sitelinks and the table of a page *)

Lemma Result_init_inv (idx : Z) title url abstract metadata sitelinks r :
  Result.init (Py.VInt idx) title url abstract metadata (Some sitelinks) = Ok r ->
  Result.index r = Py.str_of_int idx
  /\ Result.url r = url
  /\ length (Result.sitelinks r) = length sitelinks
  /\ Result.urltable r !! Py.str_of_int idx = Some url
  /\ (forall (i : nat) sl, sitelinks !! i = Some sl ->
        exists c, Py.chr (97 + Z.of_nat i) = Ok c
          /\ Result.sitelinks r !! i
             = Some (Sitelink.set_index (Py.str_of_int idx ++ c) sl)
          /\ Result.urltable r !! (Py.str_of_int idx ++ c) = Some (Sitelink.url sl))
  /\ (forall k, is_Some (Result.urltable r !! k) ->
        k = Py.str_of_int idx
        \/ exists (i : nat) c, (i < length sitelinks)%nat
             /\ Py.chr (97 + Z.of_nat i) = Ok c /\ k = Py.str_of_int idx ++ c).
Proof.
  unfold Result.init. cbn [Py.str]. intros H.
  destruct (Z_le_gt_dec (97 + Z.of_nat (length sitelinks)) 1114111) as [Hlen|Hlen].
  2:{ rewrite assign_subindices_out_of_range in H by lia. discriminate H. }
  destruct (assign_subindices_spec sitelinks (Py.str_of_int idx) "a" 97
              (<[Py.str_of_int idx := url]> ∅) eq_refl Hlen)
    as (sitelinks' & urltable' & Hrun & Hlen' & Hnth & Hother & Hdom).
  rewrite Hrun in H. cbn in H. injection H as <-.
  unfold Result.urltable. cbn.
  split; [reflexivity|]. split; [reflexivity|]. split; [exact Hlen'|].
  split; [|split; [exact Hnth|]].
  - rewrite Hother; [apply lookup_insert_eq|].
    intros i c _ Hc Heq.
    rewrite <- (append_nil_r (Py.str_of_int idx)) in Heq at 1.
    apply (inj (String.app (Py.str_of_int idx))) in Heq.
    now apply (chr_nonempty _ _ Hc).
  - intros k Hk. destruct (Hdom k Hk) as [Hin|Hsub]; [left|now right].
    destruct (decide (k = Py.str_of_int idx)) as [|Hne]; [assumption|].
    rewrite lookup_insert_ne, lookup_empty in Hin by congruence.
    now destruct Hin.
Qed.

(** *** Indices are read back from their digits *)

Lemma take_digits_pretty_N_char (x : N) : is_digit (pretty_N_char x) = true.
Proof. unfold pretty_N_char. repeat case_match; reflexivity. Qed.

Lemma take_digits_pretty_N_go (rest : string) (x : N) :
  forall s, take_digits (s ++ rest) = s ++ take_digits rest ->
            take_digits (pretty_N_go x s ++ rest)
            = pretty_N_go x s ++ take_digits rest.
Proof.
  induction (N.lt_wf_0 x) as [x _ IH]; intros s Hs.
  destruct (decide (x = 0)%N) as [->|Hx]; [now rewrite pretty_N_go_0|].
  rewrite pretty_N_go_step by lia.
  apply IH; [apply N.div_lt; lia|].
  rewrite !append_cons. cbn [take_digits].
  now rewrite take_digits_pretty_N_char, Hs.
Qed.

(** The digits of a positive index, whatever follows them. *)
Lemma take_digits_str_of_int (z : Z) (rest : string) :
  0 < z ->
  take_digits (Py.str_of_int z ++ rest) = Py.str_of_int z ++ take_digits rest.
Proof.
  intros Hz. destruct z as [|p|p]; try lia.
  unfold Py.str_of_int.
  change (pretty (Z.pos p)) with (if decide (N.pos p = 0%N) then "0"
                                  else pretty_N_go (N.pos p) "").
  destruct (decide (N.pos p = 0%N)); [discriminate|].
  now apply take_digits_pretty_N_go.
Qed.

(** A sub-index starts with no digit. *)
Lemma take_digits_chr (code : Z) (c : string) :
  97 <= code -> Py.chr code = Ok c -> take_digits c = "".
Proof.
  intros Hcode H. unfold Py.chr in H.
  destruct (Z.ltb_spec code 0), (Z.ltb_spec 1114111 code); simpl in H;
    try discriminate.
  assert (Hbyte : forall n rest, 58 <= n < 256 ->
                                 take_digits (String (Py.byte n) rest) = "").
  { intros n rest Hn. cbn [take_digits]. unfold is_digit.
    rewrite ord_byte by lia.
    destruct (Z.leb_spec n 57); [lia|]. now rewrite andb_false_r. }
  destruct (Z.ltb_spec code 128), (Z.ltb_spec code 2048), (Z.ltb_spec code 65536);
    try lia; injection H as <-; apply Hbyte;
    Z.to_euclidean_division_equations; lia.
Qed.

(** Every key of the table of the result numbered [idx] starts with the
    digits of [idx] and has no digit right after them. *)
Lemma urltable_key_digits (idx : Z) title url abstract metadata sitelinks r k :
  0 < idx ->
  Result.init (Py.VInt idx) title url abstract metadata (Some sitelinks) = Ok r ->
  is_Some (Result.urltable r !! k) ->
  take_digits k = Py.str_of_int idx.
Proof.
  intros Hidx Hinit Hk. apply Result_init_inv in Hinit.
  destruct Hinit as (_ & _ & _ & _ & _ & Hdom).
  destruct (Hdom k Hk) as [->|(i & c & _ & Hc & ->)].
  - rewrite <- (append_nil_r (Py.str_of_int idx)) at 1.
    rewrite take_digits_str_of_int by exact Hidx. apply append_nil_r.
  - rewrite take_digits_str_of_int by exact Hidx.
    rewrite (take_digits_chr (97 + Z.of_nat i) c) by (lia || exact Hc).
    apply append_nil_r.
Qed.

(** The results of a page share no key. *)
Lemma built_keys_disjoint (i j : nat) (ri rj : Result.t) (k : string) :
  built i ri -> built j rj ->
  is_Some (Result.urltable ri !! k) -> is_Some (Result.urltable rj !! k) ->
  i = j.
Proof.
  intros (t1 & u1 & a1 & m1 & s1 & H1 & _) (t2 & u2 & a2 & m2 & s2 & H2 & _) Hi Hj.
  assert (E1 : take_digits k = Py.str_of_int (Z.of_nat i + 1))
    by (eapply urltable_key_digits; [|exact H1|exact Hi]; lia).
  assert (E2 : take_digits k = Py.str_of_int (Z.of_nat j + 1))
    by (eapply urltable_key_digits; [|exact H2|exact Hj]; lia).
  rewrite E1 in E2. unfold Py.str_of_int in E2.
  apply (inj pretty) in E2. lia.
Qed.

(** In the table of a page, a key that one result alone holds has the
    value that this result gives it. *)
Lemma urltable_of_lookup (rs : list Result.t) :
  forall (i : nat) r k,
    rs !! i = Some r ->
    is_Some (Result.urltable r !! k) ->
    (forall (j : nat) r', rs !! j = Some r' ->
       is_Some (Result.urltable r' !! k) -> j = i) ->
    GooglerCmd.urltable_of rs !! k = Result.urltable r !! k.
Proof.
  unfold GooglerCmd.urltable_of.
  induction rs as [|x rs IH] using rev_ind; intros i r k Hi Hk Honly;
    [now rewrite lookup_nil in Hi|].
  rewrite fold_left_app. cbn [fold_left].
  apply lookup_app_Some in Hi. destruct Hi as [Hi|(Hge & Hi)].
  - assert (Hx : Result.urltable x !! k = None).
    { destruct (Result.urltable x !! k) eqn:Hxk; [|reflexivity].
      assert (length rs = i).
      { apply (Honly (length rs) x); [|rewrite Hxk; eauto].
        rewrite lookup_app_r by lia. now rewrite Nat.sub_diag. }
      apply lookup_lt_Some in Hi. lia. }
    rewrite lookup_union_r by exact Hx.
    apply (IH i r k Hi Hk). intros j r' Hj Hjk.
    apply (Honly j r'); [|exact Hjk]. apply lookup_app_l_Some. exact Hj.
  - destruct (i - length rs)%nat as [|n] eqn:Hdiff; [|discriminate Hi].
    injection Hi as ->. now apply lookup_union_l'.
Qed.

Section ParserMore.

Import GoogleParser.

Variable ua : bool.
Variable name2codepoint : string -> option Z.
Variable int : string -> Z -> option Z.

Implicit Types (self : GoogleParser.t) (tag : string) (attrs : attrs_t).

Ltac kept :=
  unfold keeps_registers;
  split; [reflexivity|]; split; [reflexivity|];
  first [ left; reflexivity
        | right; left; reflexivity
        | right; right; eexists; split; [reflexivity|];
          match goal with
          | H : negb (String.eqb _ "") = true |- _ =>
              apply negb_true_iff, String.eqb_neq in H; exact H
          end ].

Ltac start_kept h :=
  intros self tag attrs annotation self' H; unfold h, and_has_class, has_class in H;
  handler_cases; kept.

Ltac end_kept h :=
  intros self tag annotation self' H;
  unfold h, pop_textbuf, set_handlers_to_name in H;
  handler_cases; kept.

Lemma root_start_registers : start_keeps_registers root_start.
Proof. start_kept root_start. Qed.

Lemma result_start_registers : start_keeps_registers (result_start ua).
Proof. start_kept result_start. Qed.

Lemma title_start_registers : start_keeps_registers (title_start ua).
Proof. start_kept title_start. Qed.

Lemma abstract_start_registers : start_keeps_registers abstract_start.
Proof. start_kept abstract_start. Qed.

Lemma sitelink_table_start_registers : start_keeps_registers sitelink_table_start.
Proof. start_kept sitelink_table_start. Qed.

Lemma sitelink_start_registers : start_keeps_registers sitelink_start.
Proof. start_kept sitelink_start. Qed.

Lemma sitelink_title_start_registers : start_keeps_registers sitelink_title_start.
Proof. start_kept sitelink_title_start. Qed.

Lemma ignore_start_registers : start_keeps_registers ignore_start.
Proof. start_kept ignore_start. Qed.

Lemma root_end_registers : end_keeps_registers root_end.
Proof. end_kept root_end. Qed.

Lemma title_end_registers : end_keeps_registers title_end.
Proof. end_kept title_end. Qed.

Lemma abstract_end_registers : end_keeps_registers abstract_end.
Proof. end_kept abstract_end. Qed.

Lemma sitelink_table_end_registers : end_keeps_registers sitelink_table_end.
Proof. end_kept sitelink_table_end. Qed.

Lemma sitelink_end_registers : end_keeps_registers sitelink_end.
Proof. end_kept sitelink_end. Qed.

Lemma sitelink_title_end_registers : end_keeps_registers sitelink_title_end.
Proof. end_kept sitelink_title_end. Qed.

Lemma ignore_end_registers : end_keeps_registers ignore_end.
Proof. end_kept ignore_end. Qed.

(** [result_end] is the one handler that registers a result: it either
    keeps the registers, or advances the counter and appends the result
    built from the registers, which have a URL. *)
Lemma result_end_registers self tag annotation self' :
  result_end self tag annotation = Ok self' ->
  keeps_registers self self'
  \/ (url self <> "" /\ index self' = index self + 1
      /\ sitelinks self' = sitelinks self
      /\ exists r metadata,
           results self' = (results self ++ [r])%list
           /\ Result.init (Py.VInt (index self + 1)) (title self) (url self)
                (abstract self) metadata (Some (sitelinks self)) = Ok r).
Proof.
  intros H. unfold result_end, pop_textbuf in H.
  handler_cases; try (left; kept); right;
    match goal with
    | Hurl : negb (String.eqb (url _) "") = true |- _ =>
        apply negb_true_iff, String.eqb_neq in Hurl
    end;
    (split; [assumption|]); (split; [reflexivity|]); (split; [reflexivity|]);
    eexists; eexists; (split; [reflexivity|]); eassumption.
Qed.

Lemma keeps_registers_registered self self' :
  keeps_registers self self' -> registered self -> registered self'.
Proof.
  intros (Hi & Hr & Hs) (Hn & Hb & Hsl). unfold registered.
  rewrite Hi, Hr. split; [exact Hn|]. split; [exact Hb|].
  destruct Hs as [->|[->|(sl & -> & Hurl)]]; [exact Hsl | constructor |].
  apply Forall_app. split; [exact Hsl|]. constructor; [exact Hurl | constructor].
Qed.

Lemma result_end_registered self tag annotation self' :
  result_end self tag annotation = Ok self' ->
  registered self -> registered self'.
Proof.
  intros H Hinv.
  destruct (result_end_registers _ _ _ _ H)
    as [Hk|(Hurl & Hi & Hs & r & metadata & Hr & Hinit)];
    [eauto using keeps_registers_registered|].
  destruct Hinv as (Hn & Hb & Hsl). unfold registered.
  rewrite Hi, Hr, Hs, length_app. cbn [length].
  split; [lia|]. split; [|exact Hsl].
  intros i r0 Hlook. apply lookup_app_Some in Hlook.
  destruct Hlook as [Hold|(Hge & Hnew)]; [now apply Hb|].
  destruct (i - length (results self))%nat as [|n] eqn:Hdiff; [|discriminate Hnew].
  injection Hnew as <-.
  assert (i = length (results self)) as -> by lia.
  exists (title self), (url self), (abstract self), metadata, (sitelinks self).
  rewrite <- Hn. auto.
Qed.

Lemma annotate_tag_registered context h self tag
    (attrs : list (string * option string)) self' :
  start_keeps_registers h ->
  annotate_tag context h self tag attrs = Ok self' ->
  registered self -> registered self'.
Proof.
  intros Hh H Hinv. unfold annotate_tag in H.
  destruct context; handler_cases;
    try exact Hinv;
    match goal with
    | H : h _ _ _ = Ok (_, ?s1) |- _ =>
        apply Hh in H; change (registered s1);
        eauto using keeps_registers_registered
    end.
Qed.

Lemma handle_starttag_registered self tag
    (attrs : list (string * option string)) self' :
  handle_starttag ua self tag attrs = Ok self' ->
  registered self -> registered self'.
Proof.
  unfold handle_starttag. intros H Hinv.
  destruct (handlers self);
    (eapply annotate_tag_registered; [|exact H|exact Hinv]);
    first [ exact root_start_registers | exact result_start_registers
          | exact title_start_registers | exact abstract_start_registers
          | exact sitelink_table_start_registers | exact sitelink_start_registers
          | exact sitelink_title_start_registers | exact ignore_start_registers ].
Qed.

Lemma retrieve_tag_annotation_registered h self tag self' :
  (forall self tag annotation self',
     h self tag annotation = Ok self' -> registered self -> registered self') ->
  retrieve_tag_annotation h self tag = Ok self' ->
  registered self -> registered self'.
Proof.
  intros Hh H Hinv. unfold retrieve_tag_annotation in H.
  destruct (tag_annotations self !! tag) as [[|annotation stack]|];
    [eapply Hh; eauto | | discriminate].
  eapply Hh; [exact H|]. exact Hinv.
Qed.

Lemma handle_endtag_registered self tag self' :
  handle_endtag self tag = Ok self' ->
  registered self -> registered self'.
Proof.
  unfold handle_endtag. intros H Hinv.
  destruct (handlers self);
    (eapply retrieve_tag_annotation_registered; [|exact H|exact Hinv]);
    first [ exact result_end_registered
          | intros s0 t0 a0 s1 H0; apply keeps_registers_registered;
            revert H0;
            first [ apply root_end_registers | apply title_end_registers
                  | apply abstract_end_registers
                  | apply sitelink_table_end_registers
                  | apply sitelink_end_registers
                  | apply sitelink_title_end_registers
                  | apply ignore_end_registers ] ].
Qed.

Lemma handle_registered self ev self' :
  handle ua name2codepoint int self ev = Ok self' ->
  registered self -> registered self'.
Proof.
  destruct ev as [tag attrs|tag|data|name|name]; cbn [handle]; intros H Hinv.
  - eauto using handle_starttag_registered.
  - eauto using handle_endtag_registered.
  - injection H as <-. unfold handle_data_.
    destruct (handle_data self); exact Hinv.
  - unfold handle_entityref, record_entityref in H.
    handler_cases; exact Hinv.
  - unfold handle_charref, record_charref in H.
    handler_cases; exact Hinv.
Qed.

Lemma feed_registered events : forall self self',
  feed ua name2codepoint int self events = Ok self' ->
  registered self -> registered self'.
Proof.
  induction events as [|ev events IH]; intros self self' H Hinv; cbn [feed] in H.
  - now injection H as <-.
  - apply bind_Ok in H. destruct H as (self1 & H1 & H).
    eauto using handle_registered.
Qed.

Lemma parse_built news events rs :
  parse ua name2codepoint int news events = Ok rs ->
  forall i r, rs !! i = Some r -> built i r.
Proof.
  unfold parse. intros H. apply bind_Ok in H. destruct H as (self & Hfeed & H).
  injection H as <-.
  apply feed_registered in Hfeed.
  - now destruct Hfeed as (_ & Hb & _).
  - split; [reflexivity|]. split; [|constructor].
    intros i r Hi. cbn in Hi. now rewrite lookup_nil in Hi.
Qed.

(** X20: the results that the parser returns are numbered from 1 in the
    order of the document, without gaps: a container that yields no
    result uses no number. *)
Theorem parsed_results_numbered news events rs :
  parse ua name2codepoint int news events = Ok rs ->
  forall (i : nat) r, rs !! i = Some r ->
    Result.index r = Py.str_of_int (Z.of_nat i + 1).
Proof.
  intros H i r Hi.
  destruct (parse_built _ _ _ H i r Hi) as (t0 & u0 & a0 & m0 & s0 & Hinit & _).
  now apply Result_init_inv in Hinit.
Qed.

(** X21: every sitelink of a returned result has a URL, and its index is
    the index of the result followed by the letter of its position:
    [chr(ord('a') + n)] for the sitelink at position [n]. *)
Theorem parsed_sitelinks_indexed news events rs :
  parse ua name2codepoint int news events = Ok rs ->
  forall r (n : nat) sl,
    r ∈ rs -> Result.sitelinks r !! n = Some sl ->
    Sitelink.url sl <> ""
    /\ exists c, Py.chr (97 + Z.of_nat n) = Ok c
         /\ Sitelink.index sl = Result.index r ++ c.
Proof.
  intros H r n sl Hr Hn. apply list_elem_of_lookup in Hr. destruct Hr as (i & Hi).
  destruct (parse_built _ _ _ H i r Hi) as (t0 & u0 & a0 & m0 & s0 & Hinit & _ & Hurls).
  apply Result_init_inv in Hinit.
  destruct Hinit as (Hidx & _ & Hlen & _ & Hnth & _).
  destruct (lookup_lt_is_Some_2 s0 n) as (sl0 & Hsl0).
  { rewrite <- Hlen. eapply lookup_lt_Some; eauto. }
  destruct (Hnth n sl0 Hsl0) as (c & Hc & Hsl & _).
  rewrite Hsl in Hn. injection Hn as <-. split.
  - exact (proj1 (Forall_lookup _ _) Hurls n sl0 Hsl0).
  - exists c. split; [exact Hc|]. now rewrite Hidx.
Qed.

(** X22: in the table that [fetch] builds from the results of a page,
    the index of every result leads to the URL of that result and the
    index of every sitelink to the URL of that sitelink: no entry is
    overwritten by another result. *)
Theorem page_urltable_lookup news events rs :
  parse ua name2codepoint int news events = Ok rs ->
  forall r, r ∈ rs ->
    GooglerCmd.urltable_of rs !! Result.index r = Some (Result.url r)
    /\ forall sl, sl ∈ Result.sitelinks r ->
         GooglerCmd.urltable_of rs !! Sitelink.index sl = Some (Sitelink.url sl).
Proof.
  intros H r Hr. apply list_elem_of_lookup in Hr. destruct Hr as (i & Hi).
  pose proof (parse_built _ _ _ H) as Hbuilt.
  assert (Honly : forall k, is_Some (Result.urltable r !! k) ->
                            GooglerCmd.urltable_of rs !! k = Result.urltable r !! k).
  { intros k Hk. apply (urltable_of_lookup rs i r k Hi Hk).
    intros j r' Hj Hjk. eauto using built_keys_disjoint. }
  destruct (Hbuilt i r Hi) as (t0 & u0 & a0 & m0 & s0 & Hinit & _ & Hurls).
  apply Result_init_inv in Hinit.
  destruct Hinit as (Hidx & Hurl & Hlen & Htab & Hnth & _).
  rewrite Hidx, Hurl. split.
  - rewrite Honly; [exact Htab | rewrite Htab; eauto].
  - intros sl Hsl. apply list_elem_of_lookup in Hsl. destruct Hsl as (n & Hn).
    destruct (lookup_lt_is_Some_2 s0 n) as (sl0 & Hsl0).
    { rewrite <- Hlen. eapply lookup_lt_Some; eauto. }
    destruct (Hnth n sl0 Hsl0) as (c & Hc & Hsl & Hkey).
    rewrite Hsl in Hn. injection Hn as <-. cbn.
    rewrite Honly; [exact Hkey | rewrite Hkey; eauto].
Qed.

End ParserMore.

(** X20 on a page of two results. *)
Lemma parsed_results_numbered_witness :
  exists rs,
    GoogleParser.parse true (fun _ => None) (fun _ _ => None) false
      (flat_map events_of page_with_sitelinks) = Ok rs
    /\ forall (i : nat) r, rs !! i = Some r ->
         Result.index r = Py.str_of_int (Z.of_nat i + 1).
Proof.
  destruct (GoogleParser.parse true (fun _ => None) (fun _ _ => None) false
              (flat_map events_of page_with_sitelinks)) as [rs|e] eqn:Hrun.
  - exists rs. split; [reflexivity|].
    exact (parsed_results_numbered true (fun _ => None) (fun _ _ => None) false
             (flat_map events_of page_with_sitelinks) rs Hrun).
  - vm_compute in Hrun. discriminate Hrun.
Defined.

(** X21 on the same page, whose first result has two sitelinks. *)
Lemma parsed_sitelinks_indexed_witness :
  exists rs,
    GoogleParser.parse true (fun _ => None) (fun _ _ => None) false
      (flat_map events_of page_with_sitelinks) = Ok rs
    /\ forall r (n : nat) sl,
         r ∈ rs -> Result.sitelinks r !! n = Some sl ->
         Sitelink.url sl <> ""
         /\ exists c, Py.chr (97 + Z.of_nat n) = Ok c
              /\ Sitelink.index sl = Result.index r ++ c.
Proof.
  destruct (GoogleParser.parse true (fun _ => None) (fun _ _ => None) false
              (flat_map events_of page_with_sitelinks)) as [rs|e] eqn:Hrun.
  - exists rs. split; [reflexivity|].
    exact (parsed_sitelinks_indexed true (fun _ => None) (fun _ _ => None) false
             (flat_map events_of page_with_sitelinks) rs Hrun).
  - vm_compute in Hrun. discriminate Hrun.
Defined.

(** X22 on the same page. *)
Lemma page_urltable_lookup_witness :
  exists rs,
    GoogleParser.parse true (fun _ => None) (fun _ _ => None) false
      (flat_map events_of page_with_sitelinks) = Ok rs
    /\ forall r, r ∈ rs ->
         GooglerCmd.urltable_of rs !! Result.index r = Some (Result.url r)
         /\ forall sl, sl ∈ Result.sitelinks r ->
              GooglerCmd.urltable_of rs !! Sitelink.index sl
              = Some (Sitelink.url sl).
Proof.
  destruct (GoogleParser.parse true (fun _ => None) (fun _ _ => None) false
              (flat_map events_of page_with_sitelinks)) as [rs|e] eqn:Hrun.
  - exists rs. split; [reflexivity|].
    exact (page_urltable_lookup true (fun _ => None) (fun _ _ => None) false
             (flat_map events_of page_with_sitelinks) rs Hrun).
  - vm_compute in Hrun. discriminate Hrun.
Defined.

(** The page of these three: two results, the first with the sitelinks
    [1a] and [1b]. *)
Example page_with_sitelinks_parsed (ua : bool) :
  (rs ← GoogleParser.parse ua (fun _ => None) (fun _ _ => None) false
          (flat_map events_of page_with_sitelinks);
   Ok (map (fun r => (Result.index r,
                      map Sitelink.index (Result.sitelinks r))) rs,
       map_to_list (GooglerCmd.urltable_of rs)))
  = Ok ([("1", ["1a"; "1b"]); ("2", [])],
        [("1a", "http://example.com/docs"); ("1b", "http://example.com/blog");
         ("1", "http://example.com/"); ("2", "http://example.com/x")]).
Proof. destruct ua; vm_compute; reflexivity. Qed.

(** ** GoogleParser: annotation stacks and exceptions *)

Lemma bind_Raise {A B} (m : result A) (k : A -> result B) (e : exn) :
  m ≫= k = Raise e -> m = Raise e \/ exists a, m = Ok a /\ k a = Raise e.
Proof. destruct m as [a|e']; [eauto | intros [= ->]; now left]. Qed.

(** Case analysis of a handler that raised. *)
Ltac raise_cases :=
  repeat match goal with
    | H : _ ≫= _ = Raise _ |- _ =>
        let a := fresh "a" in
        let Ha := fresh "Ha" in
        apply bind_Raise in H; destruct H as [H|(a & Ha & H)]
    | H : _ ≫= _ = Ok _ |- _ =>
        let a := fresh "a" in
        let Ha := fresh "Ha" in
        apply bind_Ok in H; destruct H as (a & Ha & H)
    | H : Ok _ = Raise _ |- _ => discriminate H
    | H : Raise _ = Ok _ |- _ => discriminate H
    | H : Raise _ = Raise _ |- _ => injection H as H
    | H : Ok _ = Ok _ |- _ => injection H as H
    | H : (_, _) = (_, _) |- _ => injection H as ? ?
    | H : context [let '(_, _) := ?p in _] |- _ => destruct p
    | H : context [if ?c then _ else _] |- _ => destruct c eqn:?
    | H : context [match ?x with _ => _ end] |- _ => destruct x eqn:?
    end;
  subst.

Lemma chr_raises (n : Z) (e : exn) :
  Py.chr n = Raise e -> is_KeyError e = false.
Proof. unfold Py.chr. intros H. raise_cases. reflexivity. Qed.

Lemma assign_subindices_raises (sitelinks : list Sitelink.t) :
  forall index subindex code urltable e,
    Result.assign_subindices index subindex code sitelinks urltable = Raise e ->
    is_KeyError e = false.
Proof.
  induction sitelinks as [|sl rest IH]; intros index subindex code urltable e H;
    cbn [Result.assign_subindices] in H; [discriminate H|].
  apply bind_Raise in H. destruct H as [H|(c & Hc & H)];
    [eauto using chr_raises|].
  apply bind_Raise in H. destruct H as [H|([rest' tab'] & Hrest & H)];
    [eauto | discriminate H].
Qed.

Lemma Result_init_raises index title url abstract metadata sitelinks e :
  Result.init index title url abstract metadata sitelinks = Raise e ->
  is_KeyError e = false.
Proof.
  unfold Result.init. intros H. destruct sitelinks as [sitelinks|].
  - apply bind_Raise in H. destruct H as [H|([sl' tab'] & Hrun & H)];
      [eauto using assign_subindices_raises | discriminate H].
  - now injection H as <-.
Qed.

Section ParserStacks.

Import GoogleParser.

Variable ua : bool.
Variable name2codepoint : string -> option Z.
Variable int : string -> Z -> option Z.

Implicit Types (self : GoogleParser.t) (tag : string) (attrs : attrs_t).

Lemma classes_raises attrs e : classes attrs = Raise e -> e = AttributeError.
Proof.
  unfold classes. destruct (default (Some "") (attrs !! "class")); congruence.
Qed.

Lemma selector_passes_class (sel : selector) (keys : list string) tag attrs :
  selector_passes sel ("class" :: keys) tag attrs
  = tag_classes ← classes attrs;
    if negb (forallb (fun c => bool_decide (c ∈ tag_classes))
               (classes_of_selector sel))
    then Ok false
    else selector_passes sel keys tag attrs.
Proof. reflexivity. Qed.

(** A selector of the ignore list on a start tag: it looks at the
    classes only when the tag is [div]. *)
Lemma ignore_selector_passes (c : string) tag attrs :
  selector_passes [("tag", "div"); ("class", c)] ["tag"; "class"] tag attrs
  = if String.eqb tag "div" then
      tag_classes ← classes attrs;
      Ok (forallb (fun c => bool_decide (c ∈ tag_classes)) (Py.split c))
    else Ok false.
Proof.
  rewrite selector_passes_tag.
  change (selector_get [("tag", "div"); ("class", c)] "tag") with (Some "div").
  destruct (String.eqb_spec tag "div") as [->|Hne].
  - rewrite bool_decide_eq_true_2 by reflexivity. cbn [negb].
    rewrite selector_passes_class.
    change (classes_of_selector [("tag", "div"); ("class", c)]) with (Py.split c).
    destruct (classes attrs) as [cs|e]; [|reflexivity].
    cbn [mbind result_bind selector_passes].
    now destruct (forallb _ _).
  - rewrite bool_decide_eq_false_2 by congruence. reflexivity.
Qed.

Lemma ignore_list_matches_unfold tag attrs :
  ignore_list_matches IGNORE_LIST tag attrs
  = if String.eqb tag "div" then
      tag_classes ← classes attrs;
      Ok (existsb (fun c => forallb (fun c => bool_decide (c ∈ tag_classes))
                              (Py.split c))
            ["related-question-pair"; "g-blk"; "hp-xpdbox"])
    else Ok false.
Proof.
  unfold ignore_list_matches, IGNORE_LIST.
  change (map fst [("tag", "div"); ("class", "related-question-pair")])
    with ["tag"; "class"].
  change (map fst [("tag", "div"); ("class", "g-blk")]) with ["tag"; "class"].
  change (map fst [("tag", "div"); ("class", "hp-xpdbox")]) with ["tag"; "class"].
  rewrite !ignore_selector_passes.
  destruct (String.eqb tag "div"); [|reflexivity].
  destruct (classes attrs) as [cs|e]; [|reflexivity].
  cbn [mbind result_bind existsb].
  repeat match goal with
    | |- context [forallb ?f (Py.split ?c)] => destruct (forallb f (Py.split c))
    end; reflexivity.
Qed.

Lemma ignore_list_raises tag attrs e :
  ignore_list_matches IGNORE_LIST tag attrs = Raise e -> e = AttributeError.
Proof.
  rewrite ignore_list_matches_unfold. intros H.
  destruct (String.eqb tag "div"); [|discriminate H].
  apply bind_Raise in H. destruct H as [H|(cs & _ & H)];
    [eauto using classes_raises | discriminate H].
Qed.

Ltac no_KeyError :=
  first [ reflexivity
        | match goal with
          | H : classes _ = Raise _ |- _ =>
              apply classes_raises in H; subst; reflexivity
          end
        | eauto using Result_init_raises, chr_raises ].

Ltac start_stacks h :=
  intros self tag attrs;
  let H := fresh "H" in
  match goal with
  | |- match ?x with _ => _ end => destruct x as [[? ?]|?] eqn:H
  end;
  unfold h, and_has_class, has_class in H;
  [handler_cases; reflexivity | raise_cases; no_KeyError].

Ltac end_stacks h :=
  intros self tag annotation;
  let H := fresh "H" in
  match goal with
  | |- match ?x with _ => _ end => destruct x as [?|?] eqn:H
  end;
  unfold h, pop_textbuf, set_handlers_to_name in H;
  [handler_cases; reflexivity | raise_cases; no_KeyError].

Lemma root_start_stacks : start_keeps_stacks root_start.
Proof. start_stacks root_start. Qed.

Lemma result_start_stacks : start_keeps_stacks (result_start ua).
Proof. start_stacks result_start. Qed.

Lemma title_start_stacks : start_keeps_stacks (title_start ua).
Proof. start_stacks title_start. Qed.

Lemma abstract_start_stacks : start_keeps_stacks abstract_start.
Proof. start_stacks abstract_start. Qed.

Lemma sitelink_table_start_stacks : start_keeps_stacks sitelink_table_start.
Proof. start_stacks sitelink_table_start. Qed.

Lemma sitelink_start_stacks : start_keeps_stacks sitelink_start.
Proof. start_stacks sitelink_start. Qed.

Lemma sitelink_title_start_stacks : start_keeps_stacks sitelink_title_start.
Proof. start_stacks sitelink_title_start. Qed.

Lemma ignore_start_stacks : start_keeps_stacks ignore_start.
Proof. start_stacks ignore_start. Qed.

Lemma root_end_stacks : end_keeps_stacks root_end.
Proof. end_stacks root_end. Qed.

Lemma result_end_stacks : end_keeps_stacks result_end.
Proof. end_stacks result_end. Qed.

Lemma title_end_stacks : end_keeps_stacks title_end.
Proof. end_stacks title_end. Qed.

Lemma abstract_end_stacks : end_keeps_stacks abstract_end.
Proof. end_stacks abstract_end. Qed.

Lemma sitelink_table_end_stacks : end_keeps_stacks sitelink_table_end.
Proof. end_stacks sitelink_table_end. Qed.

Lemma sitelink_end_stacks : end_keeps_stacks sitelink_end.
Proof. end_stacks sitelink_end. Qed.

Lemma sitelink_title_end_stacks : end_keeps_stacks sitelink_title_end.
Proof. end_stacks sitelink_title_end. Qed.

Lemma ignore_end_stacks : end_keeps_stacks ignore_end.
Proof. end_stacks ignore_end. Qed.

(** A start tag that is handled pushes one annotation onto the stack of
    its name and touches no other stack; when it raises, it is no
    [KeyError]. *)
Lemma annotate_tag_stacks context h self tag
    (attrs : list (string * option string)) :
  start_keeps_stacks h ->
  match annotate_tag context h self tag attrs with
  | Ok self' =>
      exists annotation,
        tag_annotations self'
        = <[tag := annotation :: default [] (tag_annotations self !! tag)]>
            (tag_annotations self)
  | Raise e => is_KeyError e = false
  end.
Proof.
  intros Hh. unfold annotate_tag.
  assert (Hgen :
    match
      (ignored ← ignore_list_matches IGNORE_LIST tag (dict attrs);
       if ignored : bool then
         Ok (set_handlers_to Signore
               (insert_annotation tag (Some (scope_name context ++ "_ignored")) self))
       else
         '(annotation, self) ← h self tag (dict attrs);
         Ok (insert_annotation tag annotation self))
    with
    | Ok self' =>
        exists annotation,
          tag_annotations self'
          = <[tag := annotation :: default [] (tag_annotations self !! tag)]>
              (tag_annotations self)
    | Raise e => is_KeyError e = false
    end).
  { destruct (ignore_list_matches IGNORE_LIST tag (dict attrs)) as [[|]|e] eqn:Hm;
      cbn [mbind result_bind].
    - eexists. reflexivity.
    - specialize (Hh self tag (dict attrs)).
      destruct (h self tag (dict attrs)) as [[a self1]|e]; cbn [mbind result_bind].
      + exists a. cbn. now rewrite Hh.
      + exact Hh.
    - apply ignore_list_raises in Hm. now subst. }
  destruct context; try exact Hgen.
  eexists. reflexivity.
Qed.

Lemma handle_starttag_stacks self tag (attrs : list (string * option string)) :
  match handle_starttag ua self tag attrs with
  | Ok self' =>
      exists annotation,
        tag_annotations self'
        = <[tag := annotation :: default [] (tag_annotations self !! tag)]>
            (tag_annotations self)
  | Raise e => is_KeyError e = false
  end.
Proof.
  unfold handle_starttag.
  destruct (handlers self); apply annotate_tag_stacks;
    first [ exact root_start_stacks | exact result_start_stacks
          | exact title_start_stacks | exact abstract_start_stacks
          | exact sitelink_table_start_stacks | exact sitelink_start_stacks
          | exact sitelink_title_start_stacks | exact ignore_start_stacks ].
Qed.

(** An end tag that is handled pops the stack of its name, if that has
    an annotation, and touches no other stack; it raises [KeyError] only
    when the stack of its name was never created. *)
Lemma retrieve_tag_annotation_stacks h self tag :
  end_keeps_stacks h ->
  match retrieve_tag_annotation h self tag with
  | Ok self' =>
      exists stack,
        tag_annotations self !! tag = Some stack
        /\ tag_annotations self' = <[tag := tail stack]> (tag_annotations self)
  | Raise e => is_KeyError e = true -> tag_annotations self !! tag = None
  end.
Proof.
  intros Hh. unfold retrieve_tag_annotation.
  destruct (tag_annotations self !! tag) as [[|annotation stack]|] eqn:Hstack.
  - specialize (Hh self tag None).
    destruct (h self tag None) as [self'|e]; [|congruence].
    exists []. split; [reflexivity|]. rewrite Hh. cbn [tail].
    symmetry. now apply insert_id.
  - specialize (Hh (set_tag_annotations (<[tag := stack]> (tag_annotations self)) self)
                  tag annotation).
    destruct (h _ tag annotation) as [self'|e]; [|congruence].
    exists (annotation :: stack). split; [reflexivity|]. exact Hh.
  - reflexivity.
Qed.

Lemma handle_endtag_stacks self tag :
  match handle_endtag self tag with
  | Ok self' =>
      exists stack,
        tag_annotations self !! tag = Some stack
        /\ tag_annotations self' = <[tag := tail stack]> (tag_annotations self)
  | Raise e => is_KeyError e = true -> tag_annotations self !! tag = None
  end.
Proof.
  unfold handle_endtag.
  destruct (handlers self); apply retrieve_tag_annotation_stacks;
    first [ exact root_end_stacks | exact result_end_stacks
          | exact title_end_stacks | exact abstract_end_stacks
          | exact sitelink_table_end_stacks | exact sitelink_end_stacks
          | exact sitelink_title_end_stacks | exact ignore_end_stacks ].
Qed.

(** Text leaves the stacks alone and raises no [KeyError]. *)
Lemma handle_text_stacks self (ev : event) :
  (forall tag (attrs : list (string * option string)), ev <> StartTag tag attrs) ->
  (forall tag, ev <> EndTag tag) ->
  match handle ua name2codepoint int self ev with
  | Ok self' => tag_annotations self' = tag_annotations self
  | Raise e => is_KeyError e = false
  end.
Proof.
  intros Hstart Hend.
  destruct ev as [tag attrs|tag|data|name|name]; cbn [handle].
  - now destruct (Hstart tag attrs).
  - now destruct (Hend tag).
  - unfold handle_data_. now destruct (handle_data self).
  - destruct (handle_entityref name2codepoint self name) as [self'|e] eqn:H;
      unfold handle_entityref, record_entityref in H;
      [handler_cases; reflexivity | raise_cases; no_KeyError].
  - destruct (handle_charref int self name) as [self'|e] eqn:H;
      unfold handle_charref, record_charref in H;
      [handler_cases; reflexivity | raise_cases; no_KeyError].
Qed.

Lemma same_stacks_refl (m : gmap string (list (option string))) : same_stacks m m.
Proof. intros tag. reflexivity. Qed.

Lemma same_stacks_trans (m1 m2 m3 : gmap string (list (option string))) :
  same_stacks m1 m2 -> same_stacks m2 m3 -> same_stacks m1 m3.
Proof. intros H12 H23 tag. now rewrite H12. Qed.

Lemma balanced_nil : balanced ua name2codepoint int [] [].
Proof.
  intros self. cbn. split; [apply same_stacks_refl|].
  intros tag. rewrite elem_of_nil. tauto.
Qed.

Lemma balanced_app events1 events2 names1 names2 :
  balanced ua name2codepoint int events1 names1 ->
  balanced ua name2codepoint int events2 names2 ->
  balanced ua name2codepoint int (events1 ++ events2) (names1 ++ names2).
Proof.
  intros H1 H2 self. rewrite feed_app. specialize (H1 self).
  destruct (feed ua name2codepoint int self events1) as [self1|e];
    cbn [mbind result_bind]; [|exact H1].
  specialize (H2 self1).
  destruct (feed ua name2codepoint int self1 events2) as [self2|e]; [|exact H2].
  destruct H1 as (Hs1 & Hd1), H2 as (Hs2 & Hd2).
  split; [eauto using same_stacks_trans|].
  intros tag. rewrite Hd2, Hd1, elem_of_app. tauto.
Qed.

Lemma balanced_children children :
  Forall (fun n => balanced ua name2codepoint int (events_of n) (tag_names n))
    children ->
  balanced ua name2codepoint int (flat_map events_of children)
    (flat_map tag_names children).
Proof.
  induction 1 as [|c children Hc _ IH]; cbn [flat_map];
    [apply balanced_nil | now apply balanced_app].
Qed.

(** The events of a document tree are balanced. *)
Lemma node_balanced (n : node) :
  balanced ua name2codepoint int (events_of n) (tag_names n).
Proof.
  induction n as [data|tag attrs children IH] using node_forall_ind; intros self.
  - cbn [events_of feed tag_names].
    pose proof (handle_text_stacks self (Data data)) as H.
    destruct (handle ua name2codepoint int self (Data data)) as [self'|e];
      cbn [mbind result_bind feed].
    + rewrite H by discriminate. split; [apply same_stacks_refl|].
      intros tag. rewrite elem_of_nil. tauto.
    + apply H; discriminate.
  - cbn [events_of feed handle tag_names].
    pose proof (handle_starttag_stacks self tag attrs) as Hstart.
    destruct (handle_starttag ua self tag attrs) as [self1|e];
      cbn [mbind result_bind]; [|exact Hstart].
    destruct Hstart as (annotation & Hpush).
    rewrite feed_app.
    pose proof (balanced_children children IH self1) as Hmid.
    destruct (feed ua name2codepoint int self1 (flat_map events_of children))
      as [self2|e]; cbn [mbind result_bind]; [|exact Hmid].
    destruct Hmid as (Hmid & Hdom).
    cbn [feed handle].
    assert (Htop : tag_annotations self2 !! tag
                   = Some (annotation :: default [] (tag_annotations self !! tag))).
    { specialize (Hmid tag). rewrite Hpush, lookup_insert_eq in Hmid.
      cbn in Hmid.
      destruct (tag_annotations self2 !! tag); cbn in Hmid; congruence. }
    pose proof (handle_endtag_stacks self2 tag) as Hend.
    destruct (handle_endtag self2 tag) as [self3|e]; cbn [mbind result_bind].
    + destruct Hend as (stack & Hstack & Hpop).
      rewrite Htop in Hstack. injection Hstack as <-. cbn [tail] in Hpop.
      split.
      * intros tag'. rewrite Hpop.
        destruct (decide (tag = tag')) as [<-|Hne].
        -- now rewrite lookup_insert_eq.
        -- rewrite lookup_insert_ne by exact Hne.
           rewrite (Hmid tag'), Hpush. now rewrite lookup_insert_ne.
      * intros tag'. rewrite Hpop, elem_of_cons.
        destruct (decide (tag = tag')) as [<-|Hne].
        -- rewrite lookup_insert_eq. split; [auto | eauto].
        -- rewrite lookup_insert_ne by exact Hne.
           rewrite Hdom, Hpush, lookup_insert_ne by exact Hne.
           split; [tauto|]. intros [H|[H|H]]; [tauto | congruence | tauto].
    + destruct (is_KeyError e); [|reflexivity].
      rewrite Hend in Htop by reflexivity. discriminate Htop.
Qed.

Lemma nodes_balanced (nodes : list node) :
  balanced ua name2codepoint int (flat_map events_of nodes)
    (flat_map tag_names nodes).
Proof.
  apply balanced_children, Forall_forall. intros n _. apply node_balanced.
Qed.

(** X23: a document whose tags are properly nested never makes the
    parser raise [KeyError], whatever state the parser is in; the
    [KeyError] of an end tag belongs to documents that close what they
    did not open. *)
Theorem well_nested_never_KeyError (nodes : list node) self tag :
  feed ua name2codepoint int self (flat_map events_of nodes)
  <> Raise (KeyError tag).
Proof.
  intros H. pose proof (nodes_balanced nodes self) as Hb.
  rewrite H in Hb. discriminate Hb.
Qed.

(** X24: after a properly nested document has been parsed, every
    annotation stack is as it was before, a missing stack counting as an
    empty one: each start tag pushed one annotation and its end tag
    popped it. *)
Theorem well_nested_keeps_stacks (nodes : list node) self self' :
  feed ua name2codepoint int self (flat_map events_of nodes) = Ok self' ->
  same_stacks (tag_annotations self') (tag_annotations self).
Proof.
  intros H. pose proof (nodes_balanced nodes self) as Hb.
  rewrite H in Hb. tauto.
Qed.

(** X25: a closing tag in surplus after a properly nested document,
    parsed from the start: it is ignored when an element of its name
    occurred in the document, and it raises [KeyError] when none did. *)
Theorem surplus_closing_tag (nodes : list node) (news : bool) self' tag :
  feed ua name2codepoint int (init news) (flat_map events_of nodes) = Ok self' ->
  handle_endtag self' tag
  = if bool_decide (tag ∈ flat_map tag_names nodes) then Ok self'
    else Raise (KeyError tag).
Proof.
  intros H. pose proof (nodes_balanced nodes (init news)) as Hb.
  rewrite H in Hb. destruct Hb as (Hs & Hd).
  specialize (Hs tag). specialize (Hd tag).
  change (tag_annotations (init news)) with (∅ : gmap string (list (option string)))
    in Hs, Hd.
  rewrite lookup_empty in Hs, Hd. cbn in Hs.
  case_bool_decide as Hin.
  - apply handle_endtag_empty_stack.
    destruct (tag_annotations self' !! tag) as [stack|] eqn:Hstack.
    + cbn in Hs. now subst.
    + destruct (proj2 Hd (or_intror Hin)) as (x & Hx). discriminate Hx.
  - apply handle_endtag_unopened.
    destruct (tag_annotations self' !! tag) as [stack|] eqn:Hstack;
      [|reflexivity].
    destruct (proj1 Hd ltac:(eauto)) as [(x & Hx)|Hx]; [discriminate Hx | tauto].
Qed.

(** X26: outside the ignore scope, a [div] start tag whose [class]
    attribute has no value ([<div class>]) makes the parser raise
    [AttributeError]: the ignore list asks for the classes of every
    [div], and the value [None] cannot be split. *)
Theorem valueless_class_raises self (attrs : list (string * option string)) :
  handlers self <> Signore ->
  dict attrs !! "class" = Some None ->
  handle_starttag ua self "div" attrs = Raise AttributeError.
Proof.
  intros Hscope Hclass.
  assert (Hm : ignore_list_matches IGNORE_LIST "div" (dict attrs)
               = Raise AttributeError).
  { rewrite ignore_list_matches_unfold. cbn [String.eqb Ascii.eqb Bool.eqb].
    unfold classes. now rewrite Hclass. }
  unfold handle_starttag, annotate_tag.
  destruct (handlers self); try contradiction; now rewrite Hm.
Qed.

End ParserStacks.

(** X24 on the page of two results. *)
Lemma well_nested_keeps_stacks_witness :
  exists self',
    GoogleParser.feed true (fun _ => None) (fun _ _ => None)
      (GoogleParser.init false) (flat_map events_of page_with_sitelinks) = Ok self'
    /\ same_stacks (GoogleParser.tag_annotations self')
         (GoogleParser.tag_annotations (GoogleParser.init false)).
Proof.
  destruct (GoogleParser.feed true (fun _ => None) (fun _ _ => None)
              (GoogleParser.init false) (flat_map events_of page_with_sitelinks))
    as [self'|e] eqn:Hrun.
  - exists self'. split; [reflexivity|].
    exact (well_nested_keeps_stacks true (fun _ => None) (fun _ _ => None)
             page_with_sitelinks (GoogleParser.init false) self' Hrun).
  - vm_compute in Hrun. discriminate Hrun.
Defined.

(** X26 at the start of a document. *)
Lemma valueless_class_raises_witness :
  GoogleParser.handle_starttag true (GoogleParser.init false) "div" valueless_class
  = Raise AttributeError.
Proof.
  apply (valueless_class_raises true (GoogleParser.init false) valueless_class).
  - vm_compute. discriminate.
  - vm_compute. reflexivity.
Defined.

(** X25 on the page of two results: a surplus [</div>] is ignored, a
    surplus [</p>] raises. *)
Lemma surplus_closing_tag_witness :
  GoogleParser.handle_endtag (parser_after true false page_with_sitelinks) "div"
  = Ok (parser_after true false page_with_sitelinks)
  /\ GoogleParser.handle_endtag (parser_after true false page_with_sitelinks) "p"
     = Raise (KeyError "p").
Proof.
  assert (Hrun : GoogleParser.feed true (fun _ => None) (fun _ _ => None)
                   (GoogleParser.init false) (flat_map events_of page_with_sitelinks)
                 = Ok (parser_after true false page_with_sitelinks))
    by (vm_compute; reflexivity).
  split.
  - exact (surplus_closing_tag true (fun _ => None) (fun _ _ => None)
             page_with_sitelinks false _ "div" Hrun).
  - exact (surplus_closing_tag true (fun _ => None) (fun _ _ => None)
             page_with_sitelinks false _ "p" Hrun).
Defined.

(** X27: an ignore-listed element met outside the ignore scope while no
    text is being captured is skipped as a whole; here at the start of a
    document. *)
Lemma ignored_element_skipped_witness :
  exists self',
    GoogleParser.feed true (fun _ => None) (fun _ _ => None)
      (GoogleParser.init false)
      (events_of (Element "div" (class "g-blk") [Element "b" [] [Text "junk"]]))
    = Ok self'
    /\ same_but_stacks self' (GoogleParser.init false).
Proof.
  apply (ignored_element_skipped true (fun _ => None) (fun _ _ => None)
           (GoogleParser.init false) "div" (class "g-blk")
           [Element "b" [] [Text "junk"]]).
  - vm_compute. discriminate.
  - reflexivity.
  - vm_compute. reflexivity.
Defined.
